(** * ARA MCP server: identifier resolution, batch fetching, aggregation

    A shallow embedding of [contrib/mcp/ara_mcp.py] and the properties its
    design document states about it.

    Conventions of the embedding.
    - A Python [str] is a Rocq [string]; its characters are the code points
      below 256, and the character classes below are Python's on that range.
    - A Python exception is a value of [exn]; a computation that may raise
      returns [result].
    - Calls to the remote API go through [io], a state-and-error monad whose
      state is the log of the requests issued so far.
    - Python floats are the kernel's binary64 floats. *)

From Stdlib Require Import ZArith NArith List Ascii String Bool Lia.
From Stdlib Require Import DecimalString DecimalZ DecimalPos DecimalFacts.
From Stdlib Require Import Floats.PrimFloat Floats.SpecFloat Floats.FloatOps.
From Stdlib Require Import Floats.FloatAxioms.
From Stdlib Require Import Uint63.
From stdpp Require Import gmap strings list.

Local Open Scope Z_scope.

(** ** Exceptions *)

(** The [ValueError]s of the resolver, told apart by their message. *)
Inductive value_error : Type :=
  | NumericWithoutContext (s : string)  (* "Numeric ID ... provided without
                                          resource context" *)
  | OriginMismatch (url_origin configured_origin : string)
  | CouldNotParse (s : string)          (* "Could not parse ARA URL" *)
  | InvalidIPv6URL                      (* raised by urllib.parse.urlsplit *)
  | InvalidLiteralForInt (s : string)   (* raised by int() *)
  | UnknownFormatCode.                  (* raised by a format specification *)

Inductive exn : Type :=
  | ValueError (why : value_error)
  | KeyError (key : Z)
  | LookupError            (* HTTP 404 *)
  | ConnectionError
  | TimeoutError
  | PermissionError        (* HTTP 401, 403 *)
  | RuntimeError           (* HTTP 5xx *)
  | HTTPStatusError        (* any other non-2xx, from raise_for_status *)
  | OtherException.        (* any other: AttributeError, TypeError, ... *)

Inductive result (A : Type) : Type :=
  | Ok (a : A)
  | Raise (e : exn).
Arguments Ok {A} a.
Arguments Raise {A} e.

Definition rbind {A B} (r : result A) (k : A -> result B) : result B :=
  match r with
  | Ok a => k a
  | Raise e => Raise e
  end.

Declare Scope result_scope.
Delimit Scope result_scope with result.
Notation "x <- r ;; k" := (rbind r (fun x => k))
  (at level 100, r at next level, right associativity) : result_scope.

(** ** Characters and strings *)

Module Char.

Definition code (c : ascii) : N := N_of_ascii c.

Definition between (lo hi : N) (c : ascii) : bool :=
  ((lo <=? code c) && (code c <=? hi))%N.

Definition is_code (n : N) (c : ascii) : bool := (code c =? n)%N.

(** [str.isspace]: TAB..CR, FS..US, SPACE, NEL and NO-BREAK SPACE. *)
Definition isspace (c : ascii) : bool :=
  between 9 13 c || between 28 32 c || is_code 133 c || is_code 160 c.

(** urllib's [_WHATWG_C0_CONTROL_OR_SPACE]. *)
Definition is_c0_control_or_space (c : ascii) : bool := between 0 32 c.

(** urllib's [_UNSAFE_URL_BYTES_TO_REMOVE]: TAB, CR and LF. *)
Definition is_unsafe_url_byte (c : ascii) : bool :=
  is_code 9 c || is_code 10 c || is_code 13 c.

(** [re]'s [\d] on str patterns: the decimal digits. *)
Definition isdecimal (c : ascii) : bool := between 48 57 c.

(** [str.isdigit]: the decimal digits and the superscripts 2, 3 and 1. *)
Definition isdigit (c : ascii) : bool :=
  isdecimal c || is_code 178 c || is_code 179 c || is_code 185 c.

(** [c.isascii() and c.isalpha()]. *)
Definition is_ascii_alpha (c : ascii) : bool :=
  between 65 90 c || between 97 122 c.

(** urllib's [scheme_chars]. *)
Definition is_scheme_char (c : ascii) : bool :=
  is_ascii_alpha c || isdecimal c
  || is_code 43 c || is_code 45 c || is_code 46 c.

(** [re]'s [\w] on str patterns: [str.isalnum] or the underscore. *)
Definition isword (c : ascii) : bool :=
  is_ascii_alpha c || isdecimal c || is_code 95 c
  || is_code 170 c || is_code 178 c || is_code 179 c || is_code 181 c
  || is_code 185 c || is_code 186 c
  || between 188 190 c || between 192 214 c || between 216 246 c
  || between 248 255 c.

(** [str.lower] on one character. *)
Definition lower (c : ascii) : ascii :=
  if between 65 90 c || between 192 214 c || between 216 222 c
  then ascii_of_N (code c + 32)
  else c.

(** The delimiters that end a network location in [_splitnetloc]. *)
Definition is_netloc_delim (c : ascii) : bool :=
  is_code 47 c || is_code 63 c || is_code 35 c.

End Char.

Module Str.

Definition nonempty (s : string) : bool :=
  match s with
  | EmptyString => false
  | String _ _ => true
  end.

Fixpoint all (p : ascii -> bool) (s : string) : bool :=
  match s with
  | EmptyString => true
  | String c s' => p c && all p s'
  end.

Definition contains (c : ascii) (s : string) : bool :=
  negb (all (fun d => negb (Ascii.eqb d c)) s).

Fixpoint map (f : ascii -> ascii) (s : string) : string :=
  match s with
  | EmptyString => EmptyString
  | String c s' => String (f c) (map f s')
  end.

(** [s.replace(c, "")] for every [c] satisfying [p]. *)
Fixpoint remove (p : ascii -> bool) (s : string) : string :=
  match s with
  | EmptyString => EmptyString
  | String c s' => if p c then remove p s' else String c (remove p s')
  end.

Fixpoint lstrip (p : ascii -> bool) (s : string) : string :=
  match s with
  | EmptyString => EmptyString
  | String c s' => if p c then lstrip p s' else s
  end.

Fixpoint rstrip (p : ascii -> bool) (s : string) : string :=
  match s with
  | EmptyString => EmptyString
  | String c s' =>
      match rstrip p s' with
      | EmptyString => if p c then EmptyString else String c EmptyString
      | t => String c t
      end
  end.

(** [s.strip()]. *)
Definition strip (s : string) : string :=
  rstrip Char.isspace (lstrip Char.isspace s).

(** [s.lower()]. *)
Definition lower (s : string) : string := map Char.lower s.

(** [s.isdigit()]. *)
Definition isdigit (s : string) : bool := nonempty s && all Char.isdigit s.

(** The longest prefix whose characters satisfy [p], and the rest. *)
Fixpoint span (p : ascii -> bool) (s : string) : string * string :=
  match s with
  | EmptyString => (EmptyString, EmptyString)
  | String c s' =>
      if p c then let '(a, b) := span p s' in (String c a, b)
      else (EmptyString, s)
  end.

(** [s.partition(c)]: what is before the first [c], and, when there is
    one, what is after it. *)
Fixpoint partition (c : ascii) (s : string) : string * option string :=
  match s with
  | EmptyString => (EmptyString, None)
  | String d s' =>
      if Ascii.eqb d c then (EmptyString, Some s')
      else let '(a, b) := partition c s' in (String d a, b)
  end.

(** [s.rpartition(c)] in the same form: what is before the last [c]. *)
Fixpoint rpartition (c : ascii) (s : string) : option string * string :=
  match s with
  | EmptyString => (None, EmptyString)
  | String d s' =>
      match rpartition c s' with
      | (Some a, b) => (Some (String d a), b)
      | (None, b) =>
          if Ascii.eqb d c then (Some EmptyString, b) else (None, String d b)
      end
  end.

(** [s.startswith(pre)], with what follows the prefix. *)
Fixpoint chop_prefix (pre s : string) : option string :=
  match pre with
  | EmptyString => Some s
  | String c pre' =>
      match s with
      | EmptyString => None
      | String d s' => if Ascii.eqb c d then chop_prefix pre' s' else None
      end
  end.

(** Being a character other than [c]. *)
Definition no (c : ascii) : ascii -> bool := fun d => negb (Ascii.eqb d c).

(** The [if c in s: s, rest = s.split(c, 1)] idiom: what [s] and [rest]
    are afterwards. *)
Definition before (c : ascii) (s : string) : string := fst (partition c s).
Definition after (c : ascii) (s : string) : string :=
  default EmptyString (snd (partition c s)).

End Str.

(** A character that is none of the separators of a URL and that the
    clean-up steps of [str.strip] and [urlsplit] leave in place. *)
Definition plain (c : ascii) : bool :=
  negb (Char.isspace c) && negb (Char.is_c0_control_or_space c)
  && negb (Char.is_unsafe_url_byte c) && negb (Char.is_netloc_delim c)
  && Str.no ":" c && Str.no "/" c && Str.no "#" c && Str.no "?" c
  && Str.no ";" c.

(** [int(s)] and [str(n)]. The callers pass [int] nothing but what
    [str.isdigit] or [\d+] accepted, and of these it reads the non-empty
    strings of decimal digits and raises [ValueError] on the others. The
    interpreter's bound on the number of digits that it converts (4300
    unless configured otherwise) is not part of the model: it is a
    hypothesis of the statements that depend on it, through
    [str_digits_check_threshold] below. *)
Definition py_int (s : string) : result Z :=
  match NilZero.uint_of_string s with
  | Some d => Ok (Z.of_uint d)
  | None => Raise (ValueError (InvalidLiteralForInt s))
  end.

Definition py_str (n : Z) : string := NilZero.string_of_int (Z.to_int n).

(** The limit of the interpreter on the digits of [int(s)] and [str(n)]
    is never set below 640 ([sys.int_info.str_digits_check_threshold]):
    a number of at most that many digits is converted whatever the limit
    is. *)
Definition str_digits_check_threshold : nat := 640.

(** ** [urllib.parse], after [Lib/urllib/parse.py] of CPython 3.12 *)

Record ParseResult : Type := mkParseResult {
  scheme : string;
  netloc : string;
  path : string;
  params : string;
  query : string;
  fragment : string;
}.

Section Resolver.

(** Two tables of [urllib.parse] change between interpreter versions and
    are left open: the validation of a bracketed host in a network
    location ([true]: accepted), and the schemes whose paths carry
    [;parameters]. *)
Variable check_bracketed_netloc : string -> bool.
Variable uses_params : list string.

(** The environment variable [ARA_API_SERVER], [None] when unset. *)
Variable ARA_API_SERVER : option string.

(** [_splitnetloc(url, 2)], given what follows the two slashes. *)
Definition _splitnetloc (after_slashes : string) : string * string :=
  Str.span (fun c => negb (Char.is_netloc_delim c)) after_slashes.

(** [urlsplit(url)], with its results laid out as the five components.
    [_checknetloc] only rejects characters whose compatibility
    normalisation contains one of [/?#@:]; no code point below 256 has
    one, so it is the identity here. *)
Definition urlsplit (url : string)
  : result (string * string * string * string * string) :=
  let url := Str.lstrip Char.is_c0_control_or_space url in
  let url := Str.remove Char.is_unsafe_url_byte url in
  let '(scheme, url) :=
    match Str.partition ":" url with
    | (String c0 _ as before, Some after) =>
        if Char.is_ascii_alpha c0 && Str.all Char.is_scheme_char before
        then (Str.lower before, after)
        else (EmptyString, url)
    | _ => (EmptyString, url)
    end in
  match
    match Str.chop_prefix "//" url with
    | Some rest =>
        let '(netloc, url) := _splitnetloc rest in
        let opening := Str.contains "[" netloc in
        let closing := Str.contains "]" netloc in
        if xorb opening closing then Raise (ValueError InvalidIPv6URL)
        else if opening && closing && negb (check_bracketed_netloc netloc)
        then Raise (ValueError InvalidIPv6URL)
        else Ok (netloc, url)
    | None => Ok (EmptyString, url)
    end
  with
  | Raise e => Raise e
  | Ok (netloc, url) =>
      let '(url, fragment) :=
        match Str.partition "#" url with
        | (before, Some after) => (before, after)
        | (_, None) => (url, EmptyString)
        end in
      let '(url, query) :=
        match Str.partition "?" url with
        | (before, Some after) => (before, after)
        | (_, None) => (url, EmptyString)
        end in
      Ok (scheme, netloc, url, query, fragment)
  end.

Definition _splitparams (url : string) : string * string :=
  match Str.rpartition "/" url with
  | (Some before, last) =>
      match Str.partition ";" last with
      | (seg, Some after) => (before +:+ "/" +:+ seg, after)
      | (_, None) => (url, EmptyString)
      end
  | (None, _) =>
      match Str.partition ";" url with
      | (before, Some after) => (before, after)
      | (_, None) => (url, EmptyString)
      end
  end.

Definition urlparse (url : string) : result ParseResult :=
  match urlsplit url with
  | Raise e => Raise e
  | Ok (scheme, netloc, url, query, fragment) =>
      let '(url, params) :=
        if bool_decide (scheme ∈ uses_params) && Str.contains ";" url
        then _splitparams url
        else (url, EmptyString) in
      Ok (mkParseResult scheme netloc url params query fragment)
  end.

(** ** URL parsing (source lines 31-34 and 167-240) *)

Definition get_web_base : string :=
  Str.rstrip (Ascii.eqb "/") (default "http://127.0.0.1:8000" ARA_API_SERVER).

Definition origin (p : ParseResult) : string :=
  scheme p +:+ "://" +:+ netloc p.

Local Open Scope result_scope.

Definition validate_url_origin (url : string) : result unit :=
  parsed <- urlparse url ;;
  if negb (Str.nonempty (scheme parsed)) || negb (Str.nonempty (netloc parsed))
  then Ok tt
  else
    configured <- urlparse get_web_base ;;
    let url_origin := origin parsed in
    let configured_origin := origin configured in
    if bool_decide (Str.lower url_origin = Str.lower configured_origin)
    then Ok tt
    else Raise (ValueError (OriginMismatch url_origin configured_origin)).

(** [re.match(r"^/(\w+)/(\d+)(?:\.html)?$", path)]: the two groups. The
    character after [\w+] must be a slash and the one after [\d+] a dot
    or the end, none of which the class before it contains, so each group
    is the longest run of its class; [$] also matches before a final
    newline. *)
Definition match_ara_path (path : string) : option (string * string) :=
  match Str.chop_prefix "/" path with
  | Some rest =>
      let '(resource, rest) := Str.span Char.isword rest in
      match Str.chop_prefix "/" rest with
      | Some rest =>
          let '(digits, tail) := Str.span Char.isdecimal rest in
          if Str.nonempty resource && Str.nonempty digits
             && bool_decide (tail ∈ ["" ; ".html" ; String "010" ""
                                     ; ".html" +:+ String "010" ""])
          then Some (resource, digits)
          else None
      | None => None
      end
  | None => None
  end.

Definition parse_ara_url (url_or_id : string) : result (string * Z) :=
  let url_or_id := Str.strip url_or_id in
  if Str.isdigit url_or_id
  then Raise (ValueError (NumericWithoutContext url_or_id))
  else
    _ <- validate_url_origin url_or_id ;;
    parsed <- urlparse url_or_id ;;
    let path := Str.rstrip (Ascii.eqb "/") (path parsed) in
    match match_ara_path path with
    | Some (resource, digits) =>
        resource_id <- py_int digits ;;
        Ok (resource, resource_id)
    | None => Raise (ValueError (CouldNotParse url_or_id))
    end.

(** The argument of a tool call: JSON gives an integer or a string. *)
Inductive id_arg : Type :=
  | IdInt (n : Z)
  | IdStr (s : string).

Definition extract_id (url_or_id : id_arg) : result Z :=
  match url_or_id with
  | IdInt n => Ok n
  | IdStr s =>
      let s := Str.strip s in
      if Str.isdigit s then py_int s
      else
        r <- parse_ara_url s ;;
        Ok (snd r)
  end.

(** The URLs of the shape that the design document gives,
    [scheme://host[:port]/<kind>/<id>[.html][?query][#fragment]]. *)
Definition ara_url (sch host kind : string) (id : Z) (html : bool)
    (query fragment : option string) : string :=
  sch +:+ "://" +:+ host +:+ "/" +:+ kind +:+ "/" +:+ py_str id
  +:+ (if html then ".html" else "")
  +:+ match query with Some q => "?" +:+ q | None => "" end
  +:+ match fragment with Some f => "#" +:+ f | None => "" end.

(** The paths of the shape that [parse_ara_url] looks for,
    [/<kind>/<digits>[.html]]. *)
Definition ara_path (kind digits : string) (html : bool) : string :=
  "/" +:+ kind +:+ "/" +:+ digits +:+ (if html then ".html" else "").

(** A scheme as [urlsplit] recognises one: a letter, then scheme
    characters. *)
Definition is_scheme (sch : string) : bool :=
  match sch with
  | EmptyString => false
  | String c _ => Char.is_ascii_alpha c && Str.all Char.is_scheme_char sch
  end.

(** A network location that [urlsplit] returns as it stands: not empty,
    without white space, control characters or path, query and fragment
    delimiters, and, when it has brackets, with both and a host that the
    interpreter accepts. *)
Definition is_netloc (host : string) : bool :=
  Str.nonempty host
  && Str.all (fun c => negb (Char.isspace c)
                       && negb (Char.is_c0_control_or_space c)
                       && negb (Char.is_netloc_delim c)) host
  && (if Str.contains "[" host || Str.contains "]" host
      then Str.contains "[" host && Str.contains "]" host
           && check_bracketed_netloc host
      else true).

End Resolver.

(** The tables of CPython 3.12, for the worked examples. *)
Definition uses_params_312 : list string :=
  [""; "ftp"; "hdl"; "prospero"; "http"; "imap"; "https"; "shttp"; "rtsp";
   "rtsps"; "rtspu"; "sip"; "sips"; "mms"; "sftp"; "tel"].

Definition accept_bracketed (_ : string) : bool := true.

(** ** The remote API (source lines 60-164)

    The server is a snapshot: what it answers to a request does not change
    while one tool call runs. [io] threads the log of the requests issued,
    in the order in which the coroutines that issue them are started. *)

Inductive resource : Type := playbooks | results | hosts | files.

Inductive param : Type :=
  | PInt (n : Z)
  | PStr (s : string)
  | PBool (b : bool).

Inductive request : Type :=
  | GET (r : resource) (pk : Z)
  | LIST (r : resource) (filters : list (string * param)).

(** A field that refers to another record: the API serves the nested
    object or the bare identifier, and [get_nested] accepts both. *)
Inductive ref (A : Type) : Type :=
  | Nested (a : A)
  | Bare (n : Z).
Arguments Nested {A} a.
Arguments Bare {A} n.

(** A key whose [null] is told from its absence: the object lacks the
    key, has [null] under it, or has a value. The code reads such a key
    with [.get(key, default)], which gives the default for the first and
    [None] for the second. The other keys are [option] fields below,
    with [None] for a key that the object lacks. *)
Inductive field (A : Type) : Type :=
  | Absent
  | Null
  | Value (a : A).
Arguments Absent {A}.
Arguments Null {A}.
Arguments Value {A} a.

(** [data.get(key, default)]: [None] is Python's [None], which is what a
    [null] under the key gives. *)
Definition py_get {A} (data : field A) (dflt : A) : option A :=
  match data with
  | Absent => Some dflt
  | Null => None
  | Value a => Some a
  end.

#[local] Set Warnings "-register-all".

(** A JSON value of any shape, for the facts that Ansible gathered about
    a host, which the API serves as it stored them. *)
Inductive json : Type :=
  | JNull
  | JBool (b : bool)
  | JInt (n : Z)
  | JFloat (x : float)
  | JString (s : string)
  | JArray (items : list json)
  | JObject (members : list (string * json)).

Record FileRef : Type := { fileref_id : option Z }.

Record TaskInfo : Type := {
  task_id : option Z;
  task_name : option string;
  task_action : option string;
  task_lineno : option Z;
  task_file : option (ref FileRef);
}.

Record HostInfo : Type := {
  host_id : option Z;
  host_name : option string;
}.

Record Content : Type := {
  content_msg : option string;
  content_stderr : option string;
  content_rc : option Z;
}.

(** A result as [GET /api/v1/results/<id>] serves it: the keys that the
    handlers read, of an object that has others, its [id] for one. The
    empty object is no [Result], so that the handlers' tests
    [if not full_result] only tell a missing record. *)
Record Result : Type := {
  result_task : option (ref TaskInfo);
  result_host : option (ref HostInfo);
  result_content : option Content;
  result_status : field string;
  result_duration : option string;
  result_ignore_errors : bool;
}.

(** A result as a list query serves it. *)
Record ResultItem : Type := {
  item_id : Z;
  item_task : option Z;
}.

(** A host as [GET /api/v1/hosts/<id>] serves it: its name, its counters
    of failed and of unreachable results, and the facts gathered about
    it. *)
Record Host : Type := {
  host_record_name : option string;
  host_failed : field Z;
  host_unreachable : field Z;
  host_facts : option json;
}.

Record File : Type := {
  file_content : option string;
  file_path : option string;
}.

Record Playbook : Type := {
  playbook_name : option string;
  playbook_status : option string;
  playbook_path : option string;
  playbook_duration : option string;
  playbook_forks : option Z;
}.

Record PlaybookItem : Type := {
  run_id : Z;
  run_duration : option string;
  run_controller : option string;
  run_status : option string;
}.

(** The body of a list response: [{count, results}]. *)
Record Page (A : Type) : Type := {
  count : Z;
  page_results : list A;
}.
Arguments count {A} _.
Arguments page_results {A} _.

Definition record (r : resource) : Type :=
  match r with
  | playbooks => Playbook
  | results => Result
  | hosts => Host
  | files => File
  end.

Definition item (r : resource) : Type :=
  match r with
  | playbooks => PlaybookItem
  | results => ResultItem
  | hosts => Host
  | files => File
  end.

Record ARAServer : Type := {
  serve_get : forall r : resource, Z -> result (record r);
  serve_list :
    forall r : resource, list (string * param) -> result (Page (item r));
}.

Definition io (A : Type) : Type := list request -> result A * list request.

Definition ret {A} (a : A) : io A := fun log => (Ok a, log).

Definition bind {A B} (c : io A) (k : A -> io B) : io B :=
  fun log =>
    match c log with
    | (Ok a, log') => k a log'
    | (Raise e, log') => (Raise e, log')
    end.

Definition lift {A} (r : result A) : io A := fun log => (r, log).

Declare Scope io_scope.
Delimit Scope io_scope with io.
Notation "x <- c ;; k" := (bind c (fun x => k))
  (at level 100, c at next level, right associativity) : io_scope.

(** [asyncio.gather] over [cs] with [return_exceptions=True]: every
    coroutine runs, and what each returned or raised comes back in the
    order of [cs]. *)
Fixpoint gather_return_exceptions {A} (cs : list (io A))
  : io (list (result A)) :=
  fun log =>
    match cs with
    | [] => (Ok [], log)
    | c :: cs' =>
        let '(r, log1) := c log in
        match gather_return_exceptions cs' log1 with
        | (Ok rs, log2) => (Ok (r :: rs), log2)
        | (Raise e, log2) => (Raise e, log2)
        end
    end.

(** [asyncio.gather(ca, cb)]: both coroutines run; an exception of either
    is raised to the caller once both have issued their requests. When
    both fail the event loop raises whichever failed first; the model
    takes the first argument's. *)
Definition gather2 {A B} (ca : io A) (cb : io B) : io (A * B) :=
  fun log =>
    let '(ra, log1) := ca log in
    let '(rb, log2) := cb log1 in
    match ra, rb with
    | Ok a, Ok b => (Ok (a, b), log2)
    | Raise e, _ => (Raise e, log2)
    | _, Raise e => (Raise e, log2)
    end.

Section Client.

Variable ara : ARAServer.

Local Open Scope io_scope.

(** [ARAClient.list]: [_request] drops the filters whose value is [None],
    so a filter list holds the others. *)
Definition ara_list (r : resource) (filters : list (string * param))
  : io (Page (item r)) :=
  fun log => (serve_list ara r filters, log ++ [LIST r filters]).

(** [ARAClient.get]. *)
Definition ara_get (r : resource) (pk : Z) : io (record r) :=
  fun log => (serve_get ara r pk, log ++ [GET r pk]).

Definition _fetch_one (r : resource) (pk : Z) : io (Z * record r) :=
  data <- ara_get r pk ;;
  ret (pk, data).

(** [ARAClient.batch_get]. *)
Definition batch_get (r : resource) (pks : list Z) : io (gmap Z (record r)) :=
  match pks with
  | [] => ret ∅
  | _ =>
      fetched <- gather_return_exceptions (List.map (_fetch_one r) pks) ;;
      ret (fold_left
             (fun out fetch =>
                match fetch with
                | Raise _ => out
                | Ok (pk, data) => <[pk := data]> out
                end)
             fetched ∅)
  end.

End Client.

(** The [GET] requests of a log. *)
Definition fetches (log : list request) : list (resource * Z) :=
  omap (fun q => match q with GET r pk => Some (r, pk) | LIST _ _ => None end)
    log.

Definition succeeded {A} (r : result A) : bool :=
  match r with
  | Ok _ => true
  | Raise _ => false
  end.

Definition returned {A} (r : result A) : option A :=
  match r with
  | Ok a => Some a
  | Raise _ => None
  end.

(** A server for the worked examples: every record it has is blank, the
    identifiers in [missing] answer 404, and every list is empty. *)
Definition blank (r : resource) : record r :=
  match r with
  | playbooks => Build_Playbook None None None None None
  | results => Build_Result None None None Absent None false
  | hosts => Build_Host None Absent Absent None
  | files => Build_File None None
  end.

Definition server_without (missing : list Z) : ARAServer := {|
  serve_get r pk :=
    if bool_decide (pk ∈ missing) then Raise LookupError else Ok (blank r);
  serve_list r _ := Ok (Build_Page (item r) 0 []);
|}.

(** ** The tool router (source lines 708-760)

    What a tool call answers when its handler raises: one text per kind of
    exception, in the order of the [except] clauses. [KeyError] is a
    [LookupError]. *)

Inductive error_text : Type :=
  | NotFound               (* "Not found: ..." *)
  | ConnectionFailure      (* "Connection error: ..." *)
  | Timeout                (* "Timeout: ..." *)
  | AuthenticationFailure  (* "Authentication/authorization error: ..." *)
  | InvalidInput           (* "Invalid input: ..." *)
  | APIError               (* "API error (HTTP ...)" *)
  | ServerFault            (* "Server error: ..." *)
  | UnexpectedError.       (* "Unexpected error in ..." *)

Definition error_text_of (e : exn) : error_text :=
  match e with
  | LookupError | KeyError _ => NotFound
  | ConnectionError => ConnectionFailure
  | TimeoutError => Timeout
  | PermissionError => AuthenticationFailure
  | ValueError _ => InvalidInput
  | HTTPStatusError => APIError
  | RuntimeError => ServerFault
  | OtherException => UnexpectedError
  end.

Definition handle_call_tool {A} (handled : result A) : A + error_text :=
  match handled with
  | Ok report => inl report
  | Raise e => inr (error_text_of e)
  end.

(** ** Helpers of the handlers (source lines 309-313) *)

(** [get_nested(data, key, default)] where [data] is a reference field
    read with [.get(field, {})]: the value under [key] when [data] is an
    object that has it, and [default] when it is a bare identifier or
    absent. [get_nested_opt] is the call without a default. *)
Definition get_nested {A B} (data : option (ref A)) (key : A -> option B)
    (dflt : B) : B :=
  match data with
  | Some (Nested a) => default dflt (key a)
  | _ => dflt
  end.

Definition get_nested_opt {A B} (data : option (ref A)) (key : A -> option B)
  : option B :=
  match data with
  | Some (Nested a) => key a
  | _ => None
  end.

(** Truth value of an integer that may be [None]. *)
Definition truthy (n : option Z) : bool :=
  match n with
  | Some n => negb (n =? 0)
  | None => false
  end.

(** [enumerate(l, start)]. *)
Fixpoint enumerate {A} (start : Z) (l : list A) : list (Z * A) :=
  match l with
  | [] => []
  | x :: l' => (start, x) :: enumerate (start + 1) l'
  end.

(** A [for] loop whose body may raise: the first exception ends it. *)
Fixpoint for_each {A B} (body : A -> result B) (l : list A) : result (list B) :=
  match l with
  | [] => Ok []
  | x :: l' =>
      match body x with
      | Raise e => Raise e
      | Ok y =>
          match for_each body l' with
          | Raise e => Raise e
          | Ok ys => Ok (y :: ys)
          end
      end
  end.

(** The identifiers that [handle_troubleshoot_playbook] reads off a full
    result: of its host, and of the file of its task when the task has a
    file and a line number. *)
Definition host_id_of (full_result : Result) : option Z :=
  let host_id := get_nested_opt (result_host full_result) host_id in
  if truthy host_id then host_id else None.

Definition file_id_of (full_result : Result) : option Z :=
  let task_info := result_task full_result in
  let task_file := get_nested_opt task_info task_file in
  let task_lineno := get_nested_opt task_info task_lineno in
  match task_file with
  | Some file =>
      let file_truthy :=
        match file with Nested _ => true | Bare n => negb (n =? 0) end in
      if file_truthy && truthy task_lineno
      then
        let file_id :=
          match file with Nested f => fileref_id f | Bare n => Some n end in
        if truthy file_id then file_id else None
      else None
  | None => None
  end.

(** ** Failure reports (source lines 1119-1339)

    A report is kept as the data its lines are rendered from. *)

Record FailureEntry : Type := {
  failure_index : Z;
  failure_result : Z;
  failure_task : string;
  failure_action : string;
  failure_host : string;
  failure_host_id : option Z;       (* [None]: shown as N/A *)
  failure_ignored : bool;
  failure_content : option Content;
  failure_code : option (Z * File); (* the file of the task, when cached *)
}.

Inductive PlaybookReport : Type :=
  | NoFailures (retry_hint : bool)
  | Failures (found : Z) (entries : list FailureEntry)
      (host_information : list (Z * Host))
      (total : Z) (by_task : gmap string Z).

(** An entry of a host report: [status] is the text that is shown in
    capitals, [task] the task object of the record, which the lines of
    the task and of its action are rendered from, and [error] the
    message of the record when it has one. *)
Inductive HostEntry : Type :=
  | CouldNotFetchDetails (index result_id : Z)
  | Details (index result_id : Z) (status : string)
      (task : option (ref TaskInfo)) (error : option string).

(** A host report: the two counters of its header ([None]: shown as
    [None]), the lines of the facts, and, when failures were found, their
    number, the entries and how many more there are. *)
Inductive HostReport : Type :=
  | NoHostFailures (failed unreachable : option Z) (facts : list string)
  | HostFailures (failed unreachable : option Z) (facts : list string)
      (found : Z) (entries : list HostEntry) (more : option Z).

(** The filters of the list queries of the handlers: of
    [handle_troubleshoot_host] (lines 1295-1296),
    [handle_troubleshoot_playbook] (lines 1140-1142) and
    [handle_analyze_performance] (line 1486). *)
Definition host_results_query (pk : Z) (status : string)
  : list (string * param) :=
  [("host", PInt pk); ("status", PStr status); ("limit", PInt 50)].

Definition failed_results_query (pk : Z) (include_ignored : bool)
  : list (string * param) :=
  [("playbook", PInt pk); ("status", PStr "failed"); ("limit", PInt 100)]
  ++ if include_ignored then [] else [("ignore_errors", PBool false)].

Definition slowest_results_query (pk : Z) : list (string * param) :=
  [("playbook", PInt pk); ("order", PStr "-duration"); ("limit", PInt 100)].

Section Handlers.

Variable check_bracketed_netloc : string -> bool.
Variable uses_params : list string.
Variable ARA_API_SERVER : option string.
Variable ara : ARAServer.

(** What [format_host_facts] does with facts that are an object with
    members (source lines 324-493): the lines that it returns, or what
    it raises on members of another shape than those of Ansible's facts
    (the [ValueError] of a format specification, a [TypeError], or a
    [KeyError], which is taken as the [LookupError] that it is). It
    sends no request. *)
Variable format_facts : list (string * json) -> result (list string).

Local Open Scope io_scope.

(** [format_host_facts(facts)] (source lines 316-322): facts that are
    [None], empty, or no object are not available. *)
Definition format_host_facts (facts : json) : result (list string) :=
  match facts with
  | JObject (_ :: _ as members) => format_facts members
  | _ => Ok ["  Facts: Not available"]
  end.

Definition failure_entry (full_results : gmap Z Result)
    (file_cache : gmap Z File) (numbered : Z * ResultItem)
  : result FailureEntry :=
  let '(i, result) := numbered in
  let result_id := item_id result in
  match full_results !! result_id with
  | None => Raise (KeyError result_id)
  | Some full_result =>
      let task_info := result_task full_result in
      let host_info := result_host full_result in
      Ok {| failure_index := i;
            failure_result := result_id;
            failure_task := get_nested task_info task_name "Unknown";
            failure_action := get_nested task_info task_action "unknown";
            failure_host := get_nested host_info host_name "Unknown";
            failure_host_id := host_id_of full_result;
            failure_ignored := result_ignore_errors full_result;
            failure_content := result_content full_result;
            failure_code :=
              match file_id_of full_result with
              | Some file_id =>
                  match file_cache !! file_id with
                  | Some file_data => Some (file_id, file_data)
                  | None => None
                  end
              | None => None
              end |}
  end.

Definition handle_troubleshoot_playbook (id : id_arg) (include_ignored : bool)
  : io PlaybookReport :=
  pk <- lift (extract_id check_bracketed_netloc uses_params ARA_API_SERVER id) ;;
  playbook <- ara_get ara playbooks pk ;;
  results_data <-
    ara_list ara results (failed_results_query pk include_ignored) ;;
  let failed_results : list ResultItem := page_results results_data in
  match failed_results with
  | [] => ret (NoFailures (negb include_ignored))
  | _ =>
      let result_ids := List.map item_id failed_results in
      full_results <- batch_get ara results result_ids ;;
      let fetched : list Result := snd <$> map_to_list full_results in
      let host_ids : gset Z := list_to_set (omap host_id_of fetched) in
      let file_ids : gset Z := list_to_set (omap file_id_of fetched) in
      caches <-
        gather2 (batch_get ara files (elements file_ids))
                (batch_get ara hosts (elements host_ids)) ;;
      let '(file_cache, host_cache) := caches in
      entries <-
        lift (for_each (failure_entry full_results file_cache)
                (enumerate 1 failed_results)) ;;
      let host_information :=
        omap (fun host_id =>
                match host_cache !! host_id with
                | Some host_data => Some (host_id, host_data)
                | None => None
                end)
             (elements host_ids) in
      let task_failures : gmap string Z :=
        fold_left
          (fun counts full_result =>
             let task_name :=
               get_nested (result_task full_result) task_name "Unknown" in
             <[task_name := default 0 (counts !! task_name) + 1]> counts)
          fetched ∅ in
      ret (Failures (Z.of_nat (length failed_results)) entries
             host_information (Z.of_nat (length failed_results)) task_failures)
  end.

(** The body of the loop at lines 1311-1333. [status.upper()] raises an
    [AttributeError] on the [None] of a [null] status. *)
Definition host_entry (full_results : gmap Z Result)
    (numbered : Z * ResultItem) : result HostEntry :=
  let '(i, result) := numbered in
  match full_results !! item_id result with
  | None => Ok (CouldNotFetchDetails i (item_id result))
  | Some full_result =>
      match py_get (result_status full_result) "unknown" with
      | None => Raise OtherException
      | Some status =>
          Ok (Details i (item_id result) status (result_task full_result)
                (match result_content full_result with
                 | Some content =>
                     match content_msg content with
                     | Some (String _ _ as msg) => Some msg
                     | _ => None
                     end
                 | None => None
                 end))
      end
  end.

Definition handle_troubleshoot_host (id : id_arg) : io HostReport :=
  pk <- lift (extract_id check_bracketed_netloc uses_params ARA_API_SERVER id) ;;
  host <- ara_get ara hosts pk ;;
  let failed := py_get (host_failed host) 0 in
  let unreachable := py_get (host_unreachable host) 0 in
  facts <-
    lift (format_host_facts (default (JObject []) (host_facts host))) ;;
  pages <-
    gather2
      (ara_list ara results (host_results_query pk "failed"))
      (ara_list ara results (host_results_query pk "unreachable")) ;;
  let '(failed_data, unreachable_data) := pages in
  let all_failures : list ResultItem :=
    page_results failed_data ++ page_results unreachable_data in
  match all_failures with
  | [] => ret (NoHostFailures failed unreachable facts)
  | _ =>
      let display_failures := take 10 all_failures in
      full_results <-
        batch_get ara results (List.map item_id display_failures) ;;
      entries <-
        lift (for_each (host_entry full_results)
                (enumerate 1 display_failures)) ;;
      let n := Z.of_nat (length all_failures) in
      ret (HostFailures failed unreachable facts n entries
             (if 10 <? n then Some (n - 10) else None))
  end.

End Handlers.


#[global] Instance param_eq_dec : EqDecision param.
Proof. solve_decision. Defined.

(** Servers for the worked examples. [numbered n] are list entries for the
    results 1 to [n]. *)
Definition numbered (n : nat) : list ResultItem :=
  List.map (fun k => Build_ResultItem (Z.of_nat k) None) (seq 1 n).

Definition empty_page (r : resource) : Page (item r) :=
  Build_Page (item r) 0 [].

(** A host with 60 failed results, as its own counter says: a query for
    them with [limit=50] answers the first 50 and the count 60. *)
Definition busy_host : Host := {|
  host_record_name := Some "web1";
  host_failed := Value 60;
  host_unreachable := Value 0;
  host_facts := None;
|}.

Definition busy_host_server : ARAServer := {|
  serve_get r :=
    match r return Z -> result (record r) with
    | hosts => fun _ => Ok busy_host
    | r => fun _ => Ok (blank r)
    end;
  serve_list r :=
    match r return list (string * param) -> result (Page (item r)) with
    | results => fun filters =>
        if bool_decide (("status", PStr "failed") ∈ filters)
        then Ok (Build_Page ResultItem 60 (numbered 50))
        else Ok (empty_page results)
    | r => fun _ => Ok (empty_page r)
    end;
|}.

(** One failed result, number 7, whose full record cannot be fetched: the
    request for it times out. *)
Definition lone_failure_server : ARAServer := {|
  serve_get r :=
    match r return Z -> result (record r) with
    | results => fun pk =>
        if pk =? 7 then Raise TimeoutError else Ok (blank results)
    | r => fun _ => Ok (blank r)
    end;
  serve_list r :=
    match r return list (string * param) -> result (Page (item r)) with
    | results => fun filters =>
        if bool_decide (("status", PStr "failed") ∈ filters)
        then Ok (Build_Page ResultItem 1 [Build_ResultItem 7 None])
        else Ok (empty_page results)
    | r => fun _ => Ok (empty_page r)
    end;
|}.

(** ** Performance analysis (source lines 295-306 and 1342-1585) *)

(** [s.split(c)]. *)
Fixpoint str_split (c : ascii) (s : string) : list string :=
  match s with
  | EmptyString => [EmptyString]
  | String d s' =>
      if Ascii.eqb d c then EmptyString :: str_split c s'
      else
        match str_split c s' with
        | part :: parts => String d part :: parts
        | [] => [String d EmptyString]
        end
  end.

(** [max] and [min] of the non-empty list [x :: xs]: the running best is
    replaced by an item that compares greater, respectively less. *)
Definition py_max (x : float) (xs : list float) : float :=
  fold_left (fun best y => if (best <? y)%float then y else best) xs x.

Definition py_min (x : float) (xs : list float) : float :=
  fold_left (fun best y => if (y <? best)%float then y else best) xs x.

(** The builtin [sum] on floats has two implementations: addition from
    left to right, starting from 0 (CPython up to 3.11), and the same with
    Neumaier's compensation (CPython from 3.12). *)
Definition sum_left_to_right (xs : list float) : float :=
  fold_left PrimFloat.add xs 0%float.

Definition sum_compensated (xs : list float) : float :=
  match xs with
  | [] => 0%float
  | x0 :: xs' =>
      let '(f, c) :=
        fold_left
          (fun '(f, c) x =>
             let t := (f + x)%float in
             (t, if (PrimFloat.abs x <=? PrimFloat.abs f)%float
                 then (c + ((f - t) + x))%float
                 else (c + ((x - t) + f))%float))
          xs' ((0 + x0)%float, 0%float) in
      if negb (PrimFloat.is_zero c) && PrimFloat.is_finite c
      then (f + c)%float
      else f
  end.

(** Conversion of an integer below 2^53 to a float, which is exact. *)
Definition float_of_small_int (n : Z) : float :=
  PrimFloat.of_uint63 (Uint63.of_Z n).

(** One cross-run measurement: [(playbook_id, duration, controller)]. *)
Definition measurement : Type := Z * float * string.

(** [[m[1] for m in measurements]]. *)
Definition durations_of (measurements : list measurement) : list float :=
  List.map (fun m : measurement => snd (fst m)) measurements.

(** One entry of [task_times]: [{"count": ..., "total": ...}]. *)
Record ModuleTime : Type := {
  calls : Z;
  total_seconds : float;
}.

(** One entry of the list of slowest tasks. *)
Record SlowTask : Type := {
  slow_rank : Z;
  slow_duration : string;
  slow_task_id : option Z;
  slow_task : string;
  slow_action : string;
  slow_host : string;
  slow_result : Z;
}.

(** The state of the loop over the results of the playbook. *)
Record SlowestState : Type := {
  seen : gset (option Z * string);
  shown : Z;
  task_times : gmap string ModuleTime;
  displayed : list SlowTask;
}.

Section Performance.

(** The interpreter's [sum] on a list of floats, its conversion of an
    integer to a float in [int + float] and [float / int] (it raises
    [OverflowError] beyond the range of floats, which no duration and no
    length comes near), and [int] and [float] on a string ([None]: they
    raise [ValueError]). *)
Variable py_sum : list float -> float.
Variable float_of_int : Z -> float.
Variable int_of_str : string -> option Z.
Variable float_of_str : string -> option float.

Variable ara : ARAServer.

Definition parse_duration_seconds (duration : option string) : float :=
  match duration with
  | None | Some EmptyString => 0%float
  | Some duration =>
      match str_split ":" duration with
      | [h; m; s] =>
          match int_of_str h, int_of_str m, float_of_str s with
          | Some h, Some m, Some s =>
              (float_of_int (h * 3600 + m * 60) + s)%float
          | _, _, _ => 0%float
          end
      | _ => 0%float
      end
  end.

(** *** Task consistency across runs (source lines 1454-1467) *)

(** The entries appended to [inconsistent_tasks]:
    [(task_name, min_dur, max_dur, avg, measurements)]. *)
Definition inconsistent_task : Type :=
  string * float * float * float * list measurement.

Definition inconsistent_tasks
    (task_times_aggregate : list (string * list measurement))
  : list inconsistent_task :=
  flat_map
    (fun '(task_name, measurements) =>
       if (2 <=? Z.of_nat (length measurements))%Z then
         match durations_of measurements with
         | d :: ds =>
             let durations := d :: ds in
             let avg :=
               (py_sum durations
                / float_of_int (Z.of_nat (length durations)))%float in
             let max_dur := py_max d ds in
             let min_dur := py_min d ds in
             if (1 <? avg)%float && (0.5 <? (max_dur - min_dur) / avg)%float
             then [(task_name, min_dur, max_dur, avg, measurements)]
             else []
         | [] => []
         end
       else [])
    task_times_aggregate.

(** *** Slowest tasks and time by module (source lines 1485-1539) *)

Definition action_of (full_result : Result) : string :=
  get_nested (result_task full_result) task_action "unknown".

Definition duration_of (full_result : Result) : string :=
  default "N/A" (result_duration full_result).

(** Lines 1518-1522: the result is counted under its action. *)
Definition track_time (full_result : Result)
    (task_times : gmap string ModuleTime) : gmap string ModuleTime :=
  let duration_sec := parse_duration_seconds (Some (duration_of full_result)) in
  let entry :=
    default {| calls := 0; total_seconds := 0%float |}
      (task_times !! action_of full_result) in
  <[action_of full_result :=
      {| calls := calls entry + 1;
         total_seconds := (total_seconds entry + duration_sec)%float |}]>
    task_times.

(** The body of the loop at lines 1503-1539. *)
Definition slowest_step (top_n : Z) (all_full_results : gmap Z Result)
    (st : SlowestState) (result : ResultItem) : SlowestState :=
  match all_full_results !! item_id result with
  | None => st
  | Some full_result =>
      let task_info := result_task full_result in
      let host_info := result_host full_result in
      let task_id :=
        match task_info with
        | Some (Nested task) =>
            match task_id task with
            | Some n => Some n
            | None => item_task result
            end
        | _ => item_task result
        end in
      let task_name := get_nested task_info task_name "Unknown" in
      let host_name := get_nested host_info host_name "Unknown" in
      let tracked := track_time full_result (task_times st) in
      if (top_n <=? shown st)%Z
      then {| seen := seen st; shown := shown st; task_times := tracked;
              displayed := displayed st |}
      else
        let key := (task_id, host_name) in
        if bool_decide (key ∈ seen st)
        then {| seen := seen st; shown := shown st; task_times := tracked;
                displayed := displayed st |}
        else
          {| seen := {[key]} ∪ seen st;
             shown := shown st + 1;
             task_times := tracked;
             displayed :=
               displayed st
               ++ [{| slow_rank := shown st + 1;
                      slow_duration := duration_of full_result;
                      slow_task_id := task_id;
                      slow_task := task_name;
                      slow_action := action_of full_result;
                      slow_host := host_name;
                      slow_result := item_id result |}] |}
  end.

Local Open Scope io_scope.

(** The part of [handle_analyze_performance] that follows the cross-run
    analysis, up to the end of the loop: [None] stands for "No results
    found". *)
Definition analyze_slowest_tasks (pk : Z) (top_n : Z)
  : io (option SlowestState) :=
  results_data <- ara_list ara results (slowest_results_query pk) ;;
  let sample : list ResultItem := page_results results_data in
  match sample with
  | [] => ret None
  | _ =>
      all_full_results <- batch_get ara results (List.map item_id sample) ;;
      ret (Some (fold_left (slowest_step top_n all_full_results) sample
                   {| seen := ∅; shown := 0; task_times := ∅;
                      displayed := [] |}))
  end.

(** The module-time bucket as the design document describes it,
    [{action_name: {count, total_seconds}}] accumulated over a sample: a
    result counts under the action of its task, or under ["unknown"] when
    its record names none, for the seconds that its own duration is. For
    [action], the bucket holds how many results of the sample have this
    action, and the sum of their seconds in the order of the sample. *)
Definition module_of (full_result : Result) : string :=
  match result_task full_result with
  | Some (Nested task) => default "unknown" (task_action task)
  | _ => "unknown"
  end.

Definition seconds_of (full_result : Result) : float :=
  parse_duration_seconds (result_duration full_result).

Definition module_time (sample : list Result) (action : string)
  : option ModuleTime :=
  match List.filter (fun r => String.eqb (module_of r) action) sample with
  | [] => None
  | rs =>
      Some {| calls := Z.of_nat (length rs);
              total_seconds :=
                fold_left (fun t r => (t + seconds_of r)%float) rs 0%float |}
  end.

(** The flag as the design document states it:
    [mean > 1.0s AND (max - min) / mean > 0.5]. *)
Definition mean (durations : list float) : float :=
  (py_sum durations / float_of_int (Z.of_nat (length durations)))%float.

Definition range (durations : list float) : float :=
  match durations with
  | d :: ds => (py_max d ds - py_min d ds)%float
  | [] => 0%float
  end.

Definition flagged_inconsistent (durations : list float) : bool :=
  (1 <? mean durations)%float
  && (0.5 <? range durations / mean durations)%float.

End Performance.

(** The task names of the entries of [inconsistent_tasks]. *)
Definition flagged_names (entries : list inconsistent_task) : list string :=
  List.map (fun e : inconsistent_task => fst (fst (fst (fst e)))) entries.

(** Measurements of one task on the runs 1, 2, ... of one controller. *)
Definition runs (durations : list float) : list measurement :=
  List.map (fun '(i, d) => (i, d, "controller")) (enumerate 1 durations).

(** What the loop over the results keeps true of the entries displayed. *)
Definition display_invariant (top_n : Z) (st : SlowestState) : Prop :=
  shown st = Z.of_nat (length (displayed st))
  /\ shown st <= Z.max 0 top_n
  /\ NoDup (List.map (fun e => (slow_task_id e, slow_host e)) (displayed st))
  /\ forall e, e ∈ displayed st -> (slow_task_id e, slow_host e) ∈ seen st.

(** [n/10] as a float: the float nearest to it. *)
Definition tenths (n : Z) : float := (float_of_small_int n / 10)%float.

(** A playbook for the worked examples. Its results 1 and 2 are of the same
    task on the same host, result 3 is of another task, and the full
    record of result 4 answers 404. The durations are whole seconds. *)
Definition demo_result (task : Z) (name action host duration : string)
  : Result := {|
  result_task :=
    Some (Nested {| task_id := Some task; task_name := Some name;
                    task_action := Some action; task_lineno := None;
                    task_file := None |});
  result_host := Some (Nested {| host_id := None; host_name := Some host |});
  result_content := None;
  result_status := Value "ok";
  result_duration := Some duration;
  result_ignore_errors := false;
|}.

Definition demo_server : ARAServer := {|
  serve_get r :=
    match r return Z -> result (record r) with
    | results => fun pk =>
        if pk =? 1
        then Ok (demo_result 5 "Install" "package" "web1" "0:00:03")
        else if pk =? 2
        then Ok (demo_result 5 "Install" "package" "web1" "0:00:02")
        else if pk =? 3
        then Ok (demo_result 6 "Restart" "shell" "web1" "0:00:01")
        else Raise LookupError
    | r => fun _ => Ok (blank r)
    end;
  serve_list r :=
    match r return list (string * param) -> result (Page (item r)) with
    | results => fun _ => Ok (Build_Page ResultItem 4 (numbered 4))
    | r => fun _ => Ok (empty_page r)
    end;
|}.

(** [int] and [float] on the strings of the examples, which are decimal
    digits. *)
Definition int_of_digits (s : string) : option Z := returned (py_int s).

Definition float_of_digits (s : string) : option float :=
  float_of_small_int <$> returned (py_int s).

(** ** URL building (source lines 36-57) *)

Section Links.

Variable ARA_API_SERVER : option string.

Definition playbook_url (pk : Z) : string :=
  get_web_base ARA_API_SERVER +:+ "/playbooks/" +:+ py_str pk +:+ ".html".

Definition task_url (pk : Z) : string :=
  get_web_base ARA_API_SERVER +:+ "/tasks/" +:+ py_str pk +:+ ".html".

Definition host_url (pk : Z) : string :=
  get_web_base ARA_API_SERVER +:+ "/hosts/" +:+ py_str pk +:+ ".html".

Definition result_url (pk : Z) : string :=
  get_web_base ARA_API_SERVER +:+ "/results/" +:+ py_str pk +:+ ".html".

(** [line] is [None] by default; [if line:] also skips the line 0. *)
Definition file_url (pk : Z) (line : option Z) : string :=
  let url := get_web_base ARA_API_SERVER +:+ "/files/" +:+ py_str pk +:+ ".html" in
  match line with
  | Some n => if n =? 0 then url else url +:+ "#line-" +:+ py_str n
  | None => url
  end.

End Links.

(** ** Formatting helpers (source lines 243-292) *)

(** [s.replace(c, by)] for a separator [c] of one character. *)
Fixpoint str_replace (c : ascii) (by_ : string) (s : string) : string :=
  match s with
  | EmptyString => EmptyString
  | String d s' =>
      if Ascii.eqb d c then by_ +:+ str_replace c by_ s'
      else String d (str_replace c by_ s')
  end.

(** [sep.join(parts)]. *)
Fixpoint str_join (sep : string) (parts : list string) : string :=
  match parts with
  | [] => EmptyString
  | part :: rest =>
      match rest with
      | [] => part
      | _ :: _ => part +:+ sep +:+ str_join sep rest
      end
  end.

(** [range(start, stop)]. *)
Definition py_range (start stop : Z) : list Z :=
  List.map (fun k => start + Z.of_nat k) (seq 0 (Z.to_nat (stop - start))).

(** [s.rjust(width)], which is what the format [{n:4d}] does to [str(n)]
    with the width 4. *)
Definition rjust (width : nat) (s : string) : string :=
  string_of_list_ascii (repeat " "%char (width - String.length s)) +:+ s.

(** [split] returns at least one part, so that [[0]] never fails. *)
Definition format_timestamp (ts : option string) : string :=
  match ts with
  | None | Some EmptyString => "N/A"
  | Some ts =>
      match str_split "." (str_replace "Z" " UTC" ts) with
      | first :: _ => first
      | [] => EmptyString
      end
  end.

(** One line of a snippet: [f"  {marker} {i + 1:4d} | {lines[i]}"]. *)
Definition snippet_line (lines : list string) (target i : Z) : string :=
  let marker := if i =? target then ">>>" else "   " in
  "  " +:+ marker +:+ " " +:+ rjust 4 (py_str (i + 1)) +:+ " | "
  +:+ default EmptyString (lines !! Z.to_nat i).

Definition extract_code_snippet (content : string) (line_number context : Z)
  : string :=
  if negb (Str.nonempty content) then "  (no content available)"
  else
    let lines := str_split "010" content in
    let total := Z.of_nat (length lines) in
    let target := line_number - 1 in
    if (target <? 0) || (total <=? target)
    then "  (line " +:+ py_str line_number +:+ " not found, file has "
         +:+ py_str total +:+ " lines)"
    else
      let start := Z.max 0 (target - context) in
      let stop := Z.min total (target + context + 1) in
      str_join (String "010" "")
        (List.map (snippet_line lines target) (py_range start stop)).

(** A file of three lines, for the worked examples. *)
Definition demo_playbook_file : string :=
  "- hosts: all" +:+ String "010" "  tasks:" +:+ String "010" "    - ping:".

(** The requests of a log that fetch a file or a host. *)
Definition cache_fetches (log : list request) : list (resource * Z) :=
  List.filter
    (fun q : resource * Z =>
       match fst q with files | hosts => true | _ => false end)
    (fetches log).

(** The name under which the summary of [troubleshoot_playbook] counts a
    full result (source lines 1256-1257). *)
Definition task_of (full_result : Result) : string :=
  get_nested (result_task full_result) task_name "Unknown".

(** The key under which the loop over the results remembers what it has
    displayed: [(task_id, host_name)] (source lines 1511-1528). *)
Definition slow_key (entry : ResultItem * Result) : option Z * string :=
  let '(result, full_result) := entry in
  (match result_task full_result with
   | Some (Nested task) =>
       match task_id task with
       | Some n => Some n
       | None => item_task result
       end
   | _ => item_task result
   end,
   get_nested (result_host full_result) host_name "Unknown").

(** The elements of [l] whose key is not in [seen] and not the key of an
    element before them. *)
Fixpoint first_of_each_key {A K} `{EqDecision K} (key : A -> K)
    (seen : list K) (l : list A) : list A :=
  match l with
  | [] => []
  | x :: l' =>
      if decide (key x ∈ seen) then first_of_each_key key seen l'
      else x :: first_of_each_key key (key x :: seen) l'
  end.

(** The number of occurrences of [c] in [s]: [s.count(c)]. *)
Fixpoint str_count (c : ascii) (s : string) : nat :=
  match s with
  | EmptyString => 0
  | String d s' => (if Ascii.eqb d c then 1 else 0) + str_count c s'
  end.

(** *** The runs of the same playbook (source lines 1385-1406) *)

(** [d[k] = v] on a dictionary, which keeps the order in which its keys
    were first set. *)
Fixpoint dict_set {V} (k : Z) (v : V) (d : list (Z * V)) : list (Z * V) :=
  match d with
  | [] => [(k, v)]
  | (k', v') :: d' =>
      if k' =? k then (k, v) :: d' else (k', v') :: dict_set k v d'
  end.

(** One entry of [all_run_durations]:
    [(playbook_id, duration, controller, status)]. *)
Definition run_entry : Type := Z * float * string * string.

Definition related_results_query (rp_id : Z) : list (string * param) :=
  [("playbook", PInt rp_id); ("order", PStr "-duration"); ("limit", PInt 25)].

Section CrossRun.

Variable float_of_int : Z -> float.
Variable int_of_str : string -> option Z.
Variable float_of_str : string -> option float.
Variable ara : ARAServer.

Local Open Scope io_scope.

Definition _fetch_rp_results (rp : PlaybookItem) : io (Z * Page ResultItem) :=
  rp_results <- ara_list ara results (related_results_query (run_id rp)) ;;
  ret (run_id rp, rp_results).

Definition run_entry_of (rp : PlaybookItem) : run_entry :=
  (run_id rp,
   parse_duration_seconds float_of_int int_of_str float_of_str (run_duration rp),
   default "unknown" (run_controller rp),
   default "unknown" (run_status rp)).

(** The fetches of the results of the related runs and the loop over
    what they returned: [all_run_durations] and [rp_results_map]
    afterwards. *)
Definition fetch_related_results (related_playbooks : list PlaybookItem)
  : io (list run_entry * list (Z * list ResultItem)) :=
  rp_fetches <-
    gather_return_exceptions (List.map _fetch_rp_results related_playbooks) ;;
  ret (fold_left
         (fun '(all_run_durations, rp_results_map) '(rp, fetch_result) =>
            let all_run_durations := all_run_durations ++ [run_entry_of rp] in
            match fetch_result with
            | Raise _ => (all_run_durations, rp_results_map)
            | Ok (_, rp_results) =>
                (all_run_durations,
                 dict_set (run_id rp) (page_results rp_results) rp_results_map)
            end)
         (zip related_playbooks rp_fetches) ([], [])).

End CrossRun.

(* ===== PROPERTIES ===== *)

(** * Properties

    ** Facts about the string operations *)

Module StrFacts.

Lemma append_cons c a b : String c a +:+ b = String c (a +:+ b).
Proof. reflexivity. Qed.

Lemma append_nil_l b : EmptyString +:+ b = b.
Proof. reflexivity. Qed.

Lemma append_nil_r s : s +:+ EmptyString = s.
Proof.
  induction s as [|c s IH]; [reflexivity|].
  rewrite append_cons, IH. reflexivity.
Qed.

Lemma append_assoc a b c : (a +:+ b) +:+ c = a +:+ (b +:+ c).
Proof.
  induction a as [|d a IH]; [reflexivity|].
  rewrite !append_cons, IH. reflexivity.
Qed.

Lemma all_app p a b : Str.all p (a +:+ b) = Str.all p a && Str.all p b.
Proof.
  induction a as [|c a IH]; simpl; [reflexivity|].
  rewrite IH. apply andb_assoc.
Qed.

Lemma all_impl (p q : ascii -> bool) s :
  (forall c, p c = true -> q c = true) ->
  Str.all p s = true -> Str.all q s = true.
Proof.
  intros Hpq. induction s as [|c s IH]; simpl; [reflexivity|].
  intros [Hc Hs]%andb_true_iff. rewrite (Hpq _ Hc), (IH Hs). reflexivity.
Qed.

Lemma contains_no c s : Str.all (Str.no c) s = true -> Str.contains c s = false.
Proof. unfold Str.contains, Str.no. intros ->. reflexivity. Qed.

Lemma remove_app p a b :
  Str.remove p (a +:+ b) = Str.remove p a +:+ Str.remove p b.
Proof.
  induction a as [|c a IH]; simpl; [reflexivity|].
  rewrite IH. destruct (p c); reflexivity.
Qed.

Lemma remove_none p s :
  Str.all (fun c => negb (p c)) s = true -> Str.remove p s = s.
Proof.
  induction s as [|c s IH]; simpl; [reflexivity|].
  intros [Hc Hs]%andb_true_iff. apply negb_true_iff in Hc.
  rewrite Hc, (IH Hs). reflexivity.
Qed.

Lemma lstrip_none p s :
  Str.all (fun c => negb (p c)) s = true -> Str.lstrip p s = s.
Proof.
  destruct s as [|c s]; simpl; [reflexivity|].
  intros [Hc _]%andb_true_iff. apply negb_true_iff in Hc.
  rewrite Hc. reflexivity.
Qed.

Lemma rstrip_cons_keep p c s :
  p c = false -> Str.rstrip p (String c s) = String c (Str.rstrip p s).
Proof. intros Hc. simpl. rewrite Hc. destruct (Str.rstrip p s); reflexivity. Qed.

Lemma rstrip_app_none p a b :
  Str.all (fun c => negb (p c)) a = true ->
  Str.rstrip p (a +:+ b) = a +:+ Str.rstrip p b.
Proof.
  induction a as [|c a IH]; [reflexivity|].
  intros [Hc Ha]%andb_true_iff. apply negb_true_iff in Hc.
  change (String c a +:+ b) with (String c (a +:+ b)).
  rewrite (rstrip_cons_keep _ _ _ Hc), (IH Ha). reflexivity.
Qed.

Lemma rstrip_none p s :
  Str.all (fun c => negb (p c)) s = true -> Str.rstrip p s = s.
Proof.
  intros H. pose proof (rstrip_app_none p s EmptyString H) as E.
  rewrite !append_nil_r in E. exact E.
Qed.

Lemma rstrip_app_fixed p a b :
  Str.rstrip p b = b -> b <> EmptyString -> Str.rstrip p (a +:+ b) = a +:+ b.
Proof.
  intros Hb Hne. induction a as [|c a IH]; [exact Hb|].
  rewrite append_cons. simpl. rewrite IH.
  destruct (a +:+ b) eqn:E; [|reflexivity].
  destruct a; [contradiction|discriminate].
Qed.

Lemma span_app p a c b :
  Str.all p a = true -> p c = false ->
  Str.span p (a +:+ String c b) = (a, String c b).
Proof.
  intros Ha Hc. induction a as [|d a IH]; simpl.
  - rewrite Hc. reflexivity.
  - apply andb_true_iff in Ha as [Hd Ha]. rewrite Hd, (IH Ha). reflexivity.
Qed.

Lemma span_all p a : Str.all p a = true -> Str.span p a = (a, EmptyString).
Proof.
  induction a as [|d a IH]; simpl; [reflexivity|].
  intros [Hd Ha]%andb_true_iff. rewrite Hd, (IH Ha). reflexivity.
Qed.

Lemma partition_app_no c a b :
  Str.all (Str.no c) a = true ->
  Str.partition c (a +:+ b)
  = (a +:+ fst (Str.partition c b), snd (Str.partition c b)).
Proof.
  induction a as [|d a IH]; [rewrite !append_nil_l|rewrite !append_cons]; simpl.
  - intros _. destruct (Str.partition c b); reflexivity.
  - intros [Hd Ha]%andb_true_iff. apply negb_true_iff in Hd.
    rewrite Hd, (IH Ha). reflexivity.
Qed.

Lemma partition_no c s :
  Str.all (Str.no c) s = true -> Str.partition c s = (s, None).
Proof.
  induction s as [|d s IH]; simpl; [reflexivity|].
  intros [Hd Hs]%andb_true_iff. apply negb_true_iff in Hd.
  rewrite Hd, (IH Hs). reflexivity.
Qed.

Lemma partition_head c s :
  Str.partition c (String c s) = (EmptyString, Some s).
Proof. simpl. rewrite Ascii.eqb_refl. reflexivity. Qed.

Lemma partition_none_fst c s a :
  Str.partition c s = (a, None) -> a = s.
Proof.
  revert a. induction s as [|d s IH]; simpl; intros a.
  - intros [= <-]. reflexivity.
  - destruct (Ascii.eqb d c); [discriminate|].
    destruct (Str.partition c s) as [a' o] eqn:E.
    intros [= <- ->]. rewrite (IH a' eq_refl). reflexivity.
Qed.

Lemma split_once c s :
  match Str.partition c s with
  | (b, Some a) => (b, a)
  | (_, None) => (s, EmptyString)
  end = (Str.before c s, Str.after c s).
Proof.
  unfold Str.before, Str.after. destruct (Str.partition c s) as [b [a|]] eqn:E; simpl.
  - reflexivity.
  - rewrite (partition_none_fst _ _ _ E). reflexivity.
Qed.

Lemma before_app_no c a b :
  Str.all (Str.no c) a = true -> Str.before c (a +:+ b) = a +:+ Str.before c b.
Proof. intros H. unfold Str.before. rewrite (partition_app_no _ _ _ H). reflexivity. Qed.

End StrFacts.

(** ** Facts about the character classes *)

Module CharFacts.

(** Settles a statement [forall c, class c = true -> ...] about one
    character by going through the 256 of them. *)
Ltac by_cases :=
  let c := fresh "c" in
  let H := fresh "H" in
  intros c H; destruct c as [[] [] [] [] [] [] [] []];
  vm_compute in H; try discriminate H; vm_compute; reflexivity.

Lemma digit_plain c : Char.isdigit c = true -> plain c = true.
Proof. revert c. by_cases. Qed.

Lemma word_plain c : Char.isword c = true -> plain c = true.
Proof. revert c. by_cases. Qed.

Lemma decimal_word c : Char.isdecimal c = true -> Char.isword c = true.
Proof. revert c. by_cases. Qed.

Lemma scheme_char_no_colon c :
  Char.is_scheme_char c = true -> Str.no ":" (Char.lower c) = true.
Proof. revert c. by_cases. Qed.

Lemma scheme_char_clean c :
  Char.is_scheme_char c = true ->
  negb (Char.isspace c) && negb (Char.is_unsafe_url_byte c)
  && Str.no ":" c = true.
Proof. revert c. by_cases. Qed.

Lemma alpha_not_stripped c :
  Char.is_ascii_alpha c = true ->
  negb (Char.isspace c) && negb (Char.is_c0_control_or_space c)
  && negb (Char.isdigit c) = true.
Proof. revert c. by_cases. Qed.

Lemma lower_colon c : Str.no ":" c = true -> Str.no ":" (Char.lower c) = true.
Proof. revert c. by_cases. Qed.

Lemma plain_parts c :
  plain c = true ->
  Char.isspace c = false /\ Char.is_c0_control_or_space c = false
  /\ Char.is_unsafe_url_byte c = false /\ Char.is_netloc_delim c = false
  /\ Str.no ":" c = true /\ Str.no "/" c = true /\ Str.no "#" c = true
  /\ Str.no "?" c = true /\ Str.no ";" c = true.
Proof.
  unfold plain. rewrite !andb_true_iff, !negb_true_iff. tauto.
Qed.

End CharFacts.

(** ** The identifier resolver *)

Section ResolverFacts.

Import StrFacts CharFacts.

Variable check_bracketed_netloc : string -> bool.
Variable uses_params : list string.
Variable ARA_API_SERVER : option string.

Abbreviation urlparse := (urlparse check_bracketed_netloc uses_params).
Abbreviation validate_url_origin :=
  (validate_url_origin check_bracketed_netloc uses_params ARA_API_SERVER).
Abbreviation parse_ara_url :=
  (parse_ara_url check_bracketed_netloc uses_params ARA_API_SERVER).
Abbreviation extract_id :=
  (extract_id check_bracketed_netloc uses_params ARA_API_SERVER).
Abbreviation get_web_base := (get_web_base ARA_API_SERVER).

Lemma all_plain_parts s :
  Str.all plain s = true ->
  Str.all (fun c => negb (Char.isspace c)) s = true
  /\ Str.all (fun c => negb (Char.is_c0_control_or_space c)) s = true
  /\ Str.all (fun c => negb (Char.is_unsafe_url_byte c)) s = true
  /\ Str.all (fun c => negb (Char.is_netloc_delim c)) s = true
  /\ Str.all (Str.no ":") s = true /\ Str.all (Str.no "/") s = true
  /\ Str.all (Str.no "#") s = true /\ Str.all (Str.no "?") s = true
  /\ Str.all (Str.no ";") s = true.
Proof.
  intros H; repeat split; revert H; apply all_impl; intros c Hc;
    apply plain_parts in Hc; rewrite ?negb_true_iff; tauto.
Qed.

Lemma chop_prefix_head c pre d s :
  Str.no c d = true -> Str.chop_prefix (String c pre) (String d s) = None.
Proof.
  unfold Str.no. intros H%negb_true_iff. simpl.
  rewrite Ascii.eqb_sym, H. reflexivity.
Qed.

Lemma chop_prefix_app pre s : Str.chop_prefix pre (pre +:+ s) = Some s.
Proof.
  induction pre as [|c pre IH]; [reflexivity|].
  rewrite append_cons. simpl. rewrite Ascii.eqb_refl. exact IH.
Qed.

Lemma span_fst_all p s : Str.all p (fst (Str.span p s)) = true.
Proof.
  induction s as [|c s IH]; simpl; [reflexivity|].
  destruct (p c) eqn:Hc; [|reflexivity].
  destruct (Str.span p s); simpl in *. rewrite Hc, IH. reflexivity.
Qed.

(** A string of digits has neither scheme nor network location, and is
    its own path. *)
Lemma urlparse_isdigit t :
  Str.isdigit t = true ->
  urlparse t = Ok (mkParseResult "" "" t "" "" "").
Proof.
  intros [Hne Hall]%andb_true_iff.
  assert (Hp : Str.all plain t = true)
    by (revert Hall; apply all_impl, digit_plain).
  destruct (all_plain_parts _ Hp)
    as (_ & Hc0 & Hun & _ & Hcolon & Hslash & Hhash & Hq & Hsemi).
  unfold urlparse, urlsplit.
  rewrite (lstrip_none _ _ Hc0), (remove_none _ _ Hun).
  rewrite (partition_no _ _ Hcolon).
  destruct t as [|c t]; [discriminate|].
  simpl in Hslash. apply andb_true_iff in Hslash as [Hslash0 _].
  rewrite (chop_prefix_head _ _ _ _ Hslash0).
  rewrite (partition_no _ _ Hhash), (partition_no _ _ Hq).
  rewrite (contains_no _ _ Hsemi), andb_false_r. reflexivity.
Qed.

Lemma match_ara_path_digits t :
  Str.isdigit t = true ->
  match_ara_path (Str.rstrip (Ascii.eqb "/") t) = None.
Proof.
  intros [Hne Hall]%andb_true_iff.
  assert (Hp : Str.all plain t = true)
    by (revert Hall; apply all_impl, digit_plain).
  destruct (all_plain_parts _ Hp) as (_ & _ & _ & _ & _ & Hslash & _).
  rewrite rstrip_none.
  - destruct t as [|c t]; [discriminate|].
    simpl in Hslash. apply andb_true_iff in Hslash as [Hslash0 _].
    unfold match_ara_path. rewrite (chop_prefix_head _ _ _ _ Hslash0).
    reflexivity.
  - revert Hslash. apply all_impl. intros c. unfold Str.no.
    rewrite Ascii.eqb_sym. trivial.
Qed.

Lemma match_ara_path_some p resource digits :
  match_ara_path p = Some (resource, digits) ->
  Str.nonempty resource = true /\ Str.all Char.isword resource = true
  /\ Str.nonempty digits = true /\ Str.all Char.isdecimal digits = true.
Proof.
  unfold match_ara_path.
  destruct (Str.chop_prefix "/" p) as [rest|]; [|discriminate].
  pose proof (span_fst_all Char.isword rest) as Hw.
  destruct (Str.span Char.isword rest) as [r rest1]. simpl in Hw.
  destruct (Str.chop_prefix "/" rest1) as [rest2|]; [|discriminate].
  pose proof (span_fst_all Char.isdecimal rest2) as Hd.
  destruct (Str.span Char.isdecimal rest2) as [d tail]. simpl in Hd.
  destruct (Str.nonempty r) eqn:Hr; [|discriminate].
  destruct (Str.nonempty d) eqn:Hdn; [|discriminate].
  simpl. case_bool_decide; [|discriminate].
  intros [= <- <-]. auto.
Qed.

Lemma uint_of_char_decimal c d :
  Char.isdecimal c = true -> exists d', uint_of_char c (Some d) = Some d'.
Proof.
  intros H. destruct c as [[] [] [] [] [] [] [] []];
    vm_compute in H; try discriminate H; eexists; reflexivity.
Qed.

Lemma uint_of_string_decimal s :
  Str.all Char.isdecimal s = true ->
  exists d, NilEmpty.uint_of_string s = Some d.
Proof.
  induction s as [|c s IH]; simpl.
  - eexists; reflexivity.
  - intros [Hc Hs]%andb_true_iff. destruct (IH Hs) as [d ->].
    apply uint_of_char_decimal, Hc.
Qed.

(** [int] accepts every non-empty string of decimal digits. *)
Lemma py_int_decimal s :
  Str.nonempty s = true -> Str.all Char.isdecimal s = true ->
  exists n, py_int s = Ok n.
Proof.
  intros Hne Hs. destruct (uint_of_string_decimal _ Hs) as [d Hd].
  unfold py_int, NilZero.uint_of_string.
  destruct s; [discriminate|]. rewrite Hd. eexists; reflexivity.
Qed.

Lemma lstrip_spec p s :
  Str.lstrip p s = EmptyString
  \/ exists c r, Str.lstrip p s = String c r /\ p c = false.
Proof.
  induction s as [|c s IH]; simpl; [auto|].
  destruct (p c) eqn:Hc; [exact IH|]. right. eauto.
Qed.

Lemma rstrip_idem p s : Str.rstrip p (Str.rstrip p s) = Str.rstrip p s.
Proof.
  induction s as [|c s IH]; [reflexivity|]. simpl.
  destruct (Str.rstrip p s) as [|d t] eqn:E.
  - destruct (p c) eqn:Hc; simpl; [|rewrite Hc]; reflexivity.
  - change (Str.rstrip p (String c (String d t))) with
      (match Str.rstrip p (String d t) with
       | EmptyString => if p c then EmptyString else String c EmptyString
       | u => String c u
       end).
    rewrite IH. reflexivity.
Qed.

Lemma strip_idem s : Str.strip (Str.strip s) = Str.strip s.
Proof.
  unfold Str.strip.
  destruct (lstrip_spec Char.isspace s) as [->|(c & r & -> & Hc)];
    [reflexivity|].
  rewrite (rstrip_cons_keep _ _ _ Hc). simpl Str.lstrip. rewrite Hc.
  rewrite (rstrip_cons_keep _ _ _ Hc), rstrip_idem. reflexivity.
Qed.

Lemma all_map (p q : ascii -> bool) f s :
  (forall c, p c = true -> q (f c) = true) ->
  Str.all p s = true -> Str.all q (Str.map f s) = true.
Proof.
  intros Hpq. induction s as [|c s IH]; simpl; [reflexivity|].
  intros [Hc Hs]%andb_true_iff. rewrite (Hpq _ Hc), (IH Hs). reflexivity.
Qed.

Lemma lower_app a b : Str.lower (a +:+ b) = Str.lower a +:+ Str.lower b.
Proof.
  unfold Str.lower. induction a as [|c a IH]; [reflexivity|].
  rewrite append_cons. simpl. rewrite IH. reflexivity.
Qed.

(** The scheme that [urlsplit] returns contains no colon. *)
Lemma urlsplit_scheme_no_colon u sch nl p q f :
  urlsplit check_bracketed_netloc u = Ok (sch, nl, p, q, f) ->
  Str.all (Str.no ":") sch = true.
Proof.
  unfold urlsplit. intros H.
  repeat case_match; simplify_eq; try reflexivity.
  all: match goal with
  | Hx : _ && Str.all Char.is_scheme_char _ = true |- _ =>
      apply andb_true_iff in Hx as [_ Hx];
      revert Hx; apply all_map, scheme_char_no_colon
  end.
Qed.

Lemma urlparse_scheme_no_colon u parsed :
  urlparse u = Ok parsed -> Str.all (Str.no ":") (scheme parsed) = true.
Proof.
  unfold urlparse. intros H.
  destruct (urlsplit check_bracketed_netloc u)
    as [[[[[sch nl] p] q] f]|] eqn:E; [|discriminate].
  apply urlsplit_scheme_no_colon in E.
  repeat case_match; simplify_eq; exact E.
Qed.

Lemma colon_separates a1 a2 r1 r2 :
  Str.all (Str.no ":") a1 = true -> Str.all (Str.no ":") a2 = true ->
  a1 +:+ String ":" r1 = a2 +:+ String ":" r2 -> a1 = a2 /\ r1 = r2.
Proof.
  revert a2. induction a1 as [|c a1 IH]; intros [|d a2] H1 H2;
    rewrite ?append_nil_l, ?append_cons; intros E.
  - injection E as ->. auto.
  - injection E as <- _. discriminate H2.
  - injection E as -> _. discriminate H1.
  - injection E as -> E. simpl in H1, H2.
    apply andb_true_iff in H1 as [_ H1]. apply andb_true_iff in H2 as [_ H2].
    destruct (IH _ H1 H2 E) as [-> ->]. auto.
Qed.

(** Origins that agree up to case have schemes and network locations that
    agree up to case. *)
Lemma lower_origin_inj parsed configured :
  Str.all (Str.no ":") (scheme parsed) = true ->
  Str.all (Str.no ":") (scheme configured) = true ->
  Str.lower (origin parsed) = Str.lower (origin configured) ->
  Str.lower (scheme parsed) = Str.lower (scheme configured)
  /\ Str.lower (netloc parsed) = Str.lower (netloc configured).
Proof.
  intros H1 H2. unfold origin. rewrite !lower_app.
  change (Str.lower "://") with (String ":" "//").
  rewrite !append_cons. intros E.
  apply colon_separates in E as [E1 E2].
  - split; [exact E1|]. rewrite ?append_cons, ?append_nil_l in E2.
    injection E2. trivial.
  - revert H1. apply all_map, lower_colon.
  - revert H2. apply all_map, lower_colon.
Qed.

Lemma nonempty_true s : s <> EmptyString -> Str.nonempty s = true.
Proof. destruct s; [contradiction|reflexivity]. Qed.

(** C3 (as amended). For every input string that is purely numeric once
    stripped, [parse_ara_url] raises the ambiguous-identifier [ValueError],
    which a tool call answers as invalid input; [extract_id], which the
    tool handlers call, does not: it returns [int] of the stripped string,
    a number whenever the digits are decimal digits. *)
Theorem numeric_string_rejected_by_parse_ara_url s :
  Str.isdigit (Str.strip s) = true ->
  parse_ara_url s = Raise (ValueError (NumericWithoutContext (Str.strip s)))
  /\ handle_call_tool (parse_ara_url s) = inr InvalidInput
  /\ extract_id (IdStr s) = py_int (Str.strip s)
  /\ (Str.all Char.isdecimal (Str.strip s) = true ->
      exists n, extract_id (IdStr s) = Ok n).
Proof.
  intros H. unfold parse_ara_url, extract_id. rewrite H.
  repeat split. intros Hd. apply py_int_decimal; [|exact Hd].
  apply andb_true_iff in H as [H _]. exact H.
Qed.

(** C5 (as amended). For every URL whose parsed form has both a scheme
    and a network location, if its scheme or its network location differs
    from the configured server's, compared without regard to case, the
    resolver raises the origin-mismatch [ValueError], whatever the path
    is. *)
Theorem foreign_origin_rejected url_or_id parsed configured :
  urlparse (Str.strip url_or_id) = Ok parsed ->
  scheme parsed <> EmptyString -> netloc parsed <> EmptyString ->
  urlparse get_web_base = Ok configured ->
  Str.lower (scheme parsed) <> Str.lower (scheme configured)
  \/ Str.lower (netloc parsed) <> Str.lower (netloc configured) ->
  let e := ValueError (OriginMismatch (origin parsed) (origin configured)) in
  validate_url_origin (Str.strip url_or_id) = Raise e
  /\ parse_ara_url url_or_id = Raise e
  /\ extract_id (IdStr url_or_id) = Raise e.
Proof.
  intros Hp Hs Hn Hc Hdiff e.
  assert (Hv : validate_url_origin (Str.strip url_or_id) = Raise e).
  { unfold validate_url_origin. rewrite Hp. simpl.
    rewrite (nonempty_true _ Hs), (nonempty_true _ Hn). simpl.
    rewrite Hc. simpl. case_bool_decide as E; [|reflexivity].
    apply lower_origin_inj in E;
      [tauto|eapply urlparse_scheme_no_colon; eassumption..]. }
  assert (Hd : Str.isdigit (Str.strip url_or_id) = false).
  { destruct (Str.isdigit (Str.strip url_or_id)) eqn:E; [|reflexivity].
    rewrite (urlparse_isdigit _ E) in Hp. injection Hp as <-.
    contradiction Hs. reflexivity. }
  assert (Hq : parse_ara_url url_or_id = Raise e).
  { unfold parse_ara_url. rewrite Hd, Hv. reflexivity. }
  repeat split; [exact Hv|exact Hq|].
  unfold extract_id. rewrite Hd.
  unfold parse_ara_url. rewrite strip_idem, Hd, Hv. reflexivity.
Qed.

Lemma string_of_uint_decimal d :
  Str.all Char.isdecimal (NilEmpty.string_of_uint d) = true.
Proof. induction d; simpl; try rewrite IHd; reflexivity. Qed.

(** [str] of a natural number is a non-empty string of decimal digits
    that [int] reads back. *)
Lemma py_str_decimal id :
  0 <= id ->
  Str.nonempty (py_str id) = true
  /\ Str.all Char.isdecimal (py_str id) = true
  /\ py_int (py_str id) = Ok id.
Proof.
  intros Hid. destruct id as [|p|p]; [repeat split| |lia].
  unfold py_str, py_int. simpl Z.to_int. simpl NilZero.string_of_int.
  pose proof (Unsigned.to_uint_nonnil p) as Hnil.
  rewrite (NilZero.usu _ Hnil).
  unfold NilZero.string_of_uint.
  destruct (Pos.to_uint p) eqn:E; try contradiction;
    rewrite <- E; (split; [rewrite E; reflexivity|]);
    (split; [apply string_of_uint_decimal|]);
    unfold Z.of_uint; rewrite Unsigned.of_to; reflexivity.
Qed.

Lemma lstrip_keep p c s : p c = false -> Str.lstrip p (String c s) = String c s.
Proof. intros H. simpl. rewrite H. reflexivity. Qed.

Lemma before_head c s : Str.before c (String c s) = EmptyString.
Proof. unfold Str.before. rewrite partition_head. reflexivity. Qed.

Lemma before_cons c d s :
  Str.no c d = true -> Str.before c (String d s) = String d (Str.before c s).
Proof.
  unfold Str.no, Str.before. intros H%negb_true_iff. simpl. rewrite H.
  destruct (Str.partition c s). reflexivity.
Qed.

(** Whatever query and fragment follow a path, [urlsplit] cuts them off:
    nothing of them is left before the first [?] or [#]. *)
Lemma tail_cut_off (query fragment : option string) :
  Str.before "?"
    (Str.before "#"
       (Str.remove Char.is_unsafe_url_byte
          (Str.rstrip Char.isspace
             (match query with Some q => "?" +:+ q | None => "" end
              +:+ match fragment with Some f => "#" +:+ f | None => "" end))))
  = EmptyString.
Proof.
  destruct query as [q|]; [|destruct fragment as [f|]]; [| |reflexivity];
    rewrite ?append_nil_l, ?append_cons, rstrip_cons_keep by reflexivity;
    simpl Str.remove.
  - rewrite before_cons by reflexivity. apply before_head.
  - rewrite before_head. reflexivity.
Qed.

Section RoundTrip.

Variables (sch host kind : string) (id : Z) (html : bool).
Variables (query fragment : option string).

Hypothesis Hsch : is_scheme sch = true.
Hypothesis Hhost : is_netloc check_bracketed_netloc host = true.
Hypothesis Hkind : Str.nonempty kind = true.
Hypothesis Hword : Str.all Char.isword kind = true.
Hypothesis Hid : 0 <= id.

Let url := ara_url sch host kind id html query fragment.
Let ext : string := if html then ".html" else "".
Let the_path := "/" +:+ kind +:+ "/" +:+ py_str id +:+ ext.
Let tail :=
  match query with Some q => "?" +:+ q | None => "" end
  +:+ match fragment with Some f => "#" +:+ f | None => "" end.

Lemma ara_url_split : url = (sch +:+ "://" +:+ host +:+ the_path) +:+ tail.
Proof.
  unfold url, ara_url, the_path, tail, ext.
  rewrite !append_assoc. reflexivity.
Qed.

Lemma the_path_plain (q : ascii -> bool) :
  (forall c, plain c = true -> q c = true) ->
  q "/"%char = true -> Str.all q ".html" = true ->
  Str.all q the_path = true.
Proof.
  intros Hq Hslash Hhtml. unfold the_path, ext.
  destruct (py_str_decimal id Hid) as (_ & Hd & _).
  rewrite !all_app. simpl Str.all at 1 3. rewrite Hslash. simpl.
  rewrite (all_impl Char.isword q kind), (all_impl Char.isdecimal q (py_str id));
    auto using word_plain, decimal_word.
  destruct html; [exact Hhtml|reflexivity].
Qed.

Lemma sch_shape :
  exists c0 sch', sch = String c0 sch' /\ Char.is_ascii_alpha c0 = true
                  /\ Str.all Char.is_scheme_char sch = true.
Proof.
  unfold is_scheme in Hsch. destruct sch as [|c0 sch']; [discriminate|].
  apply andb_true_iff in Hsch as [? ?]. eauto.
Qed.

Lemma prefix_all (q : ascii -> bool) :
  (forall c, Char.is_scheme_char c = true -> q c = true) ->
  (forall c, negb (Char.isspace c) && negb (Char.is_c0_control_or_space c)
             && negb (Char.is_netloc_delim c) = true -> q c = true) ->
  (forall c, plain c = true -> q c = true) ->
  q ":"%char = true -> q "/"%char = true -> Str.all q ".html" = true ->
  Str.all q (sch +:+ "://" +:+ host +:+ the_path) = true.
Proof.
  intros Hs Hh Hp Hcolon Hslash Hhtml.
  destruct sch_shape as (_ & _ & _ & _ & Hsc).
  unfold is_netloc in Hhost.
  apply andb_true_iff in Hhost as [[_ Hhc]%andb_true_iff _].
  rewrite !all_app, (all_impl _ q sch Hs Hsc), (all_impl _ q host Hh Hhc).
  rewrite (the_path_plain q Hp Hslash Hhtml).
  simpl. rewrite Hcolon, Hslash. reflexivity.
Qed.

Lemma strip_url :
  Str.strip url
  = (sch +:+ "://" +:+ host +:+ the_path) +:+ Str.rstrip Char.isspace tail.
Proof.
  destruct sch_shape as (c0 & sch' & Es & Hc0 & _).
  pose proof (alpha_not_stripped _ Hc0) as Hc0'.
  rewrite !andb_true_iff, !negb_true_iff in Hc0'.
  destruct Hc0' as [[Hsp _] _].
  unfold Str.strip. rewrite ara_url_split.
  replace (Str.lstrip Char.isspace ((sch +:+ "://" +:+ host +:+ the_path) +:+ tail))
    with ((sch +:+ "://" +:+ host +:+ the_path) +:+ tail)
    by (rewrite Es; symmetry; apply (lstrip_keep _ _ _ Hsp)).
  apply rstrip_app_none, prefix_all; try reflexivity.
  - intros c Hc. pose proof (scheme_char_clean c Hc) as H.
    rewrite !andb_true_iff in H. tauto.
  - intros c Hc. rewrite !andb_true_iff in Hc. tauto.
  - intros c Hc. apply plain_parts in Hc. rewrite negb_true_iff. tauto.
Qed.

Lemma isdigit_url : Str.isdigit (Str.strip url) = false.
Proof.
  destruct sch_shape as (c0 & sch' & Es & Hc0 & _).
  pose proof (alpha_not_stripped _ Hc0) as Hc0'.
  rewrite !andb_true_iff, !negb_true_iff in Hc0'.
  destruct Hc0' as [_ Hd].
  rewrite strip_url, Es. unfold Str.isdigit.
  rewrite !append_cons. simpl. rewrite Hd. reflexivity.
Qed.

Lemma urlparse_url :
  exists q f,
    urlparse (Str.strip url)
    = Ok (mkParseResult (Str.lower sch) host the_path "" q f).
Proof.
  destruct sch_shape as (c0 & sch' & Es & Hc0 & Hsc).
  pose proof (alpha_not_stripped _ Hc0) as Hc0'.
  rewrite !andb_true_iff, !negb_true_iff in Hc0'.
  destruct Hc0' as [[_ Hctl] _].
  rewrite strip_url. unfold urlparse, urlsplit.
  set (prefix := sch +:+ "://" +:+ host +:+ the_path).
  set (t1 := Str.rstrip Char.isspace tail).
  replace (Str.lstrip Char.is_c0_control_or_space (prefix +:+ t1))
    with (prefix +:+ t1)
    by (unfold prefix; rewrite Es; symmetry; apply (lstrip_keep _ _ _ Hctl)).
  rewrite remove_app, (remove_none _ prefix).
  2:{ apply prefix_all; try reflexivity.
      - intros c Hc. pose proof (scheme_char_clean c Hc) as H.
        rewrite !andb_true_iff in H. tauto.
      - intros c Hc. rewrite !andb_true_iff, !negb_true_iff in Hc.
        destruct Hc as [[_ Hc] _]. revert c Hc. by_cases.
      - intros c Hc. apply plain_parts in Hc. rewrite negb_true_iff. tauto. }
  set (t2 := Str.remove Char.is_unsafe_url_byte t1).
  unfold prefix. rewrite !append_assoc.
  rewrite (partition_app_no ":" sch).
  2:{ revert Hsc. apply all_impl. intros c Hc.
      pose proof (scheme_char_clean c Hc) as H.
      rewrite !andb_true_iff in H. tauto. }
  change (Str.partition ":" ("://" +:+ host +:+ the_path +:+ t2))
    with (EmptyString, Some ("//" +:+ host +:+ the_path +:+ t2)).
  cbn [fst snd]. rewrite append_nil_r.
  pose proof Hsch as Hsch'. rewrite Es in Hsch' |- *. cbn [is_scheme] in Hsch'.
  rewrite Hsch'. rewrite chop_prefix_app.
  unfold is_netloc in Hhost.
  apply andb_true_iff in Hhost as [[_ Hhc]%andb_true_iff Hbr].
  replace (_splitnetloc (host +:+ the_path +:+ t2))
    with (host, the_path +:+ t2).
  2:{ symmetry. apply span_app; [|reflexivity].
      revert Hhc. apply all_impl. intros c Hc.
      rewrite !andb_true_iff in Hc. tauto. }
  replace (xorb (Str.contains "[" host) (Str.contains "]" host)) with false
    by (revert Hbr;
        destruct (Str.contains "[" host), (Str.contains "]" host);
        simpl; congruence).
  replace (Str.contains "[" host && Str.contains "]" host
           && negb (check_bracketed_netloc host)) with false
    by (revert Hbr;
        destruct (Str.contains "[" host), (Str.contains "]" host);
        simpl; try intros ->; reflexivity).
  rewrite !split_once.
  assert (Hpath : Str.before "?" (Str.before "#" (the_path +:+ t2)) = the_path).
  { rewrite !before_app_no;
      [|apply the_path_plain; try reflexivity;
        intros c Hc; apply plain_parts in Hc; tauto..].
    unfold t2, t1, tail. rewrite tail_cut_off. apply append_nil_r. }
  rewrite Hpath.
  replace (Str.contains ";" the_path) with false.
  2:{ symmetry. apply contains_no, the_path_plain; try reflexivity.
      intros c Hc; apply plain_parts in Hc; tauto. }
  rewrite andb_false_r. eauto.
Qed.

Lemma rstrip_the_path : Str.rstrip (Ascii.eqb "/") the_path = the_path.
Proof.
  destruct (py_str_decimal id Hid) as (Hne & Hd & _).
  unfold the_path.
  replace ("/" +:+ kind +:+ "/" +:+ py_str id +:+ ext)
    with (("/" +:+ kind +:+ "/") +:+ (py_str id +:+ ext))
    by (rewrite !append_assoc; reflexivity).
  apply rstrip_app_fixed.
  - rewrite rstrip_app_none; [unfold ext; destruct html; reflexivity|].
    revert Hd. apply all_impl. clear. by_cases.
  - destruct (py_str id); [discriminate|]. rewrite append_cons. discriminate.
Qed.

Lemma match_the_path : match_ara_path the_path = Some (kind, py_str id).
Proof.
  destruct (py_str_decimal id Hid) as (Hne & Hd & _).
  unfold match_ara_path, the_path.
  rewrite chop_prefix_app.
  replace (Str.span Char.isword (kind +:+ "/" +:+ py_str id +:+ ext))
    with (kind, "/" +:+ py_str id +:+ ext)
    by (symmetry; apply span_app; [exact Hword|reflexivity]).
  rewrite chop_prefix_app.
  replace (Str.span Char.isdecimal (py_str id +:+ ext)) with (py_str id, ext).
  - rewrite Hkind, Hne. unfold ext. destruct html; reflexivity.
  - symmetry. unfold ext. destruct html.
    + apply span_app; [exact Hd|reflexivity].
    + rewrite append_nil_r. apply span_all, Hd.
Qed.



End RoundTrip.

(** *** Inputs without a scheme or a network location *)

Lemma string_of_uint_length d :
  String.length (NilEmpty.string_of_uint d) = Decimal.nb_digits d.
Proof. induction d; simpl; congruence. Qed.

Lemma usize_nb_digits d : Unsigned.usize d = N.of_nat (Decimal.nb_digits d).
Proof.
  induction d; cbn [Unsigned.usize Decimal.nb_digits]; rewrite ?IHd; lia.
Qed.

Lemma of_uint_acc_lower d acc :
  (N.pos acc * 10 ^ N.of_nat (Decimal.nb_digits d)
   <= N.pos (Pos.of_uint_acc d acc))%N.
Proof. rewrite Unsigned.of_uint_acc_rev, usize_nb_digits. lia. Qed.

(** A positive number of [k] decimal digits is at least [10^(k-1)]. *)
Lemma to_uint_digits p :
  (10 ^ N.of_nat (Decimal.nb_digits (Pos.to_uint p) - 1) <= N.pos p)%N.
Proof.
  pose proof (Unsigned.of_to p) as Hof.
  pose proof (Unsigned.to_of (Pos.to_uint p)) as Hnorm.
  rewrite Hof in Hnorm. cbn [N.to_uint] in Hnorm.
  pose proof (Unsigned.to_uint_nonnil p) as Hnil.
  pose proof (Unsigned.to_uint_nonzero p) as Hzero.
  destruct (Pos.to_uint p) as [|d|d|d|d|d|d|d|d|d|d] eqn:E;
    try contradiction;
    cbn [Decimal.nb_digits]; rewrite Nat.sub_succ, Nat.sub_0_r;
    try (rewrite <- Hof; cbn [Pos.of_uint];
         etransitivity; [|apply of_uint_acc_lower]; lia).
  (* a leading zero: the number is not normalised *)
  exfalso. symmetry in Hnorm. unfold Decimal.unorm in Hnorm.
  cbn [Decimal.nzhead] in Hnorm.
  pose proof (nb_digits_nzhead d) as Hle.
  destruct (Decimal.nzhead d) eqn:En; try discriminate Hnorm.
  - injection Hnorm as <-. apply Hzero. reflexivity.
  - injection Hnorm as ->. cbn [Decimal.nb_digits] in Hle. lia.
Qed.

(** A natural number below [10^k] is written with at most [k] digits. *)
Lemma py_str_length n k :
  0 <= n < 10 ^ Z.of_nat k -> (1 <= k)%nat ->
  (String.length (py_str n) <= k)%nat.
Proof.
  intros [Hn Hlt] Hk. destruct n as [|p|p]; [simpl; lia| |lia].
  unfold py_str. cbn [Z.to_int NilZero.string_of_int].
  pose proof (Unsigned.to_uint_nonnil p) as Hnil.
  unfold NilZero.string_of_uint.
  destruct (Pos.to_uint p) eqn:E; try contradiction; rewrite <- E;
    rewrite string_of_uint_length;
    pose proof (to_uint_digits p) as Hlow;
    (destruct (le_gt_dec (Decimal.nb_digits (Pos.to_uint p)) k) as [|Hgt];
     [assumption|exfalso]);
    assert (Hpow : (10 ^ N.of_nat k <= N.pos p)%N)
      by (etransitivity; [|exact Hlow]; apply N.pow_le_mono_r; lia);
    apply N2Z.inj_le in Hpow; rewrite N2Z.inj_pow in Hpow;
    rewrite nat_N_Z in Hpow; simpl in Hpow; lia.
Qed.

Lemma chop_prefix_cons c pre s :
  Str.chop_prefix (String c pre) (String c s) = Str.chop_prefix pre s.
Proof. simpl. rewrite Ascii.eqb_refl. reflexivity. Qed.

(** A path that starts with one slash and has no colon, no [#], [?] or
    [;] and none of the characters that [urlsplit] removes is parsed as
    a path and nothing else. *)
Lemma urlparse_rooted_path c rest :
  let p := String "/" (String c rest) in
  Str.no "/" c = true ->
  Str.all (fun c => negb (Char.is_unsafe_url_byte c)) p = true ->
  Str.all (Str.no ":") p = true -> Str.all (Str.no "#") p = true ->
  Str.all (Str.no "?") p = true -> Str.all (Str.no ";") p = true ->
  urlparse p = Ok (mkParseResult "" "" p "" "" "").
Proof.
  intros p Hc Hun Hcolon Hhash Hq Hsemi.
  unfold urlparse, urlsplit.
  rewrite (lstrip_keep _ "/" (String c rest)) by reflexivity.
  fold p. rewrite (remove_none _ _ Hun), (partition_no _ _ Hcolon).
  cbv beta iota delta [p]. fold p.
  assert (Hchop : Str.chop_prefix "//" p = None)
    by (unfold p; rewrite chop_prefix_cons; apply chop_prefix_head, Hc).
  rewrite Hchop, (partition_no _ _ Hhash), (partition_no _ _ Hq).
  rewrite (contains_no _ _ Hsemi), andb_false_r. reflexivity.
Qed.

Section BarePath.

Variables (kind digits : string) (html : bool).

Hypothesis Hkind : Str.nonempty kind = true.
Hypothesis Hword : Str.all Char.isword kind = true.
Hypothesis Hdigits : Str.nonempty digits = true.
Hypothesis Hdecimal : Str.all Char.isdecimal digits = true.

Let ext : string := if html then ".html" else "".

Lemma ara_path_all (q : ascii -> bool) :
  (forall c, plain c = true -> q c = true) ->
  q "/"%char = true -> Str.all q ".html" = true ->
  Str.all q (ara_path kind digits html) = true.
Proof.
  intros Hq Hslash Hhtml. unfold ara_path.
  rewrite !all_app. simpl Str.all at 1 3. rewrite Hslash. simpl.
  rewrite (all_impl Char.isword q kind), (all_impl Char.isdecimal q digits);
    auto using word_plain, decimal_word.
  destruct html; [exact Hhtml|reflexivity].
Qed.

Lemma ara_path_head :
  exists c rest,
    ara_path kind digits html = String "/" (String c rest)
    /\ Str.no "/" c = true.
Proof.
  destruct kind as [|c kind']; [discriminate|].
  exists c, (kind' +:+ "/" +:+ digits +:+ ext). split; [reflexivity|].
  simpl in Hword. apply andb_true_iff in Hword as [Hc _].
  apply word_plain, plain_parts in Hc. tauto.
Qed.

Lemma urlparse_ara_path :
  urlparse (ara_path kind digits html)
  = Ok (mkParseResult "" "" (ara_path kind digits html) "" "" "").
Proof.
  destruct ara_path_head as (c & rest & E & Hc).
  rewrite E. apply urlparse_rooted_path; [exact Hc|..]; rewrite <- E;
    apply ara_path_all; try reflexivity;
    intros d Hd; apply plain_parts in Hd; rewrite ?negb_true_iff; tauto.
Qed.

Lemma strip_ara_path :
  Str.strip (ara_path kind digits html) = ara_path kind digits html.
Proof.
  assert (H : Str.all (fun c => negb (Char.isspace c))
                (ara_path kind digits html) = true).
  { apply ara_path_all; try reflexivity.
    intros d Hd; apply plain_parts in Hd; rewrite negb_true_iff; tauto. }
  unfold Str.strip. rewrite (lstrip_none _ _ H). apply rstrip_none, H.
Qed.

Lemma isdigit_ara_path : Str.isdigit (ara_path kind digits html) = false.
Proof. reflexivity. Qed.

Lemma rstrip_ara_path :
  Str.rstrip (Ascii.eqb "/") (ara_path kind digits html)
  = ara_path kind digits html.
Proof.
  unfold ara_path.
  replace ("/" +:+ kind +:+ "/" +:+ digits +:+ (if html then ".html" else ""))
    with (("/" +:+ kind +:+ "/") +:+ (digits +:+ ext))
    by (rewrite !append_assoc; reflexivity).
  apply rstrip_app_fixed.
  - rewrite rstrip_app_none; [unfold ext; destruct html; reflexivity|].
    revert Hdecimal. apply all_impl. clear. by_cases.
  - destruct digits; [discriminate|]. rewrite append_cons. discriminate.
Qed.

Lemma match_ara_path_shape :
  match_ara_path (ara_path kind digits html) = Some (kind, digits).
Proof.
  unfold match_ara_path, ara_path.
  rewrite chop_prefix_app.
  replace (Str.span Char.isword
             (kind +:+ "/" +:+ digits +:+ (if html then ".html" else "")))
    with (kind, "/" +:+ digits +:+ ext)
    by (symmetry; apply span_app; [exact Hword|reflexivity]).
  rewrite chop_prefix_app.
  replace (Str.span Char.isdecimal (digits +:+ ext)) with (digits, ext).
  - rewrite Hkind, Hdigits. unfold ext. destruct html; reflexivity.
  - symmetry. unfold ext. destruct html.
    + apply span_app; [exact Hdecimal|reflexivity].
    + rewrite append_nil_r. apply span_all, Hdecimal.
Qed.

End BarePath.

(** C10. For every input string whose parsed form has no scheme or no
    network location, [validate_url_origin] returns without raising, and
    [parse_ara_url] resolves the input to the kind and the number of its
    path whenever the path, without its final slashes, is
    [/<kind>/<digits>[.html]] for a word [kind] and decimal [digits] that
    [int] converts. The bare paths [/<kind>/<id>[.html]] are such inputs:
    whatever server is configured, each is parsed as a path and nothing
    else, passes the validation, and is resolved to its kind and its
    identifier. *)
Theorem schemeless_input_skips_origin_check :
  (forall url_or_id parsed,
      urlparse (Str.strip url_or_id) = Ok parsed ->
      scheme parsed = EmptyString \/ netloc parsed = EmptyString ->
      validate_url_origin (Str.strip url_or_id) = Ok tt
      /\ forall kind digits html,
           Str.nonempty kind = true -> Str.all Char.isword kind = true ->
           Str.nonempty digits = true ->
           Str.all Char.isdecimal digits = true ->
           (String.length digits <= str_digits_check_threshold)%nat ->
           Str.rstrip (Ascii.eqb "/") (path parsed)
           = ara_path kind digits html ->
           exists n, py_int digits = Ok n
                     /\ parse_ara_url url_or_id = Ok (kind, n))
  /\ (forall kind id html,
        Str.nonempty kind = true -> Str.all Char.isword kind = true ->
        0 <= id < 10 ^ Z.of_nat str_digits_check_threshold ->
        let url := ara_path kind (py_str id) html in
        urlparse url = Ok (mkParseResult "" "" url "" "" "")
        /\ validate_url_origin url = Ok tt
        /\ parse_ara_url url = Ok (kind, id)
        /\ extract_id (IdStr url) = Ok id).
Proof.
  assert (Hgeneral : forall url_or_id parsed,
    urlparse (Str.strip url_or_id) = Ok parsed ->
    scheme parsed = EmptyString \/ netloc parsed = EmptyString ->
    validate_url_origin (Str.strip url_or_id) = Ok tt
    /\ forall kind digits html,
         Str.nonempty kind = true -> Str.all Char.isword kind = true ->
         Str.nonempty digits = true ->
         Str.all Char.isdecimal digits = true ->
         Str.rstrip (Ascii.eqb "/") (path parsed)
         = ara_path kind digits html ->
         exists n, py_int digits = Ok n
                   /\ parse_ara_url url_or_id = Ok (kind, n)).
  { intros url_or_id parsed Hp Hbare.
    assert (Hv : validate_url_origin (Str.strip url_or_id) = Ok tt).
    { unfold validate_url_origin. rewrite Hp. simpl.
      destruct Hbare as [-> | ->]; simpl; rewrite ?orb_true_r; reflexivity. }
    split; [exact Hv|]. intros kind digits html Hk Hw Hne Hd Hpath.
    pose proof (match_ara_path_shape kind digits html Hk Hw Hne Hd) as Hm.
    rewrite <- Hpath in Hm.
    destruct (py_int_decimal _ Hne Hd) as [n Hn]. exists n.
    split; [exact Hn|]. unfold parse_ara_url.
    destruct (Str.isdigit (Str.strip url_or_id)) eqn:E.
    - rewrite (urlparse_isdigit _ E) in Hp. injection Hp as <-. simpl in Hm.
      rewrite (match_ara_path_digits _ E) in Hm. discriminate.
    - rewrite Hv. simpl. rewrite Hp. simpl. rewrite Hm, Hn. reflexivity. }
  split.
  - intros url_or_id parsed Hp Hbare.
    destruct (Hgeneral _ _ Hp Hbare) as [Hv Hres]. split; [exact Hv|].
    intros kind digits html Hk Hw Hne Hd _. apply Hres; assumption.
  - intros kind id html Hk Hw Hid url.
    assert (Hid0 : 0 <= id) by lia.
    destruct (py_str_decimal id Hid0) as (Hne & Hd & Hint).
    pose proof (urlparse_ara_path kind (py_str id) html Hk Hw Hd) as Hp.
    pose proof (strip_ara_path kind (py_str id) html Hw Hd) as Hs.
    fold url in Hp, Hs.
    assert (Hp' : urlparse (Str.strip url)
                  = Ok (mkParseResult "" "" url "" "" ""))
      by (rewrite Hs; exact Hp).
    destruct (Hgeneral url _ Hp' (or_introl eq_refl)) as [Hv Hres].
    destruct (Hres kind (py_str id) html Hk Hw Hne Hd) as (n & Hn & Hparse).
    { apply rstrip_ara_path; assumption. }
    rewrite Hint in Hn. injection Hn as <-.
    rewrite Hs in Hv.
    repeat split; [exact Hp|exact Hv|exact Hparse|].
    unfold extract_id. rewrite Hs.
    change (Str.isdigit url) with false. cbv iota.
    rewrite Hparse. reflexivity.
Qed.

End ResolverFacts.

(** *** Worked inputs for the resolver, with the server left at its default
    [http://127.0.0.1:8000] *)

(** C3, the claim as stated fails: the resolver that the tool handlers call
    turns the bare numeric string ["42"] into the identifier 42. *)
Lemma extract_id_resolves_bare_number :
  Str.isdigit "42" = true
  /\ extract_id accept_bracketed uses_params_312 None (IdStr "42") = Ok 42.
Proof. split; reflexivity. Qed.

Lemma numeric_string_rejected_witness :
  Str.isdigit (Str.strip " 42 ") = true
  /\ parse_ara_url accept_bracketed uses_params_312 None " 42 "
     = Raise (ValueError (NumericWithoutContext "42")).
Proof.
  split; [reflexivity|].
  apply (numeric_string_rejected_by_parse_ara_url
           accept_bracketed uses_params_312 None " 42 ").
  reflexivity.
Defined.

(** C5, the claim as stated fails: a URL on another host, written without
    its scheme, and a URL of another scheme, written without a host, are
    both resolved, and no origin mismatch is raised. *)
Lemma unchecked_foreign_urls_resolve :
  urlparse accept_bracketed uses_params_312 (get_web_base None)
  = Ok (mkParseResult "http" "127.0.0.1:8000" "" "" "" "")
  /\ urlparse accept_bracketed uses_params_312 "//evil.example/playbooks/42"
     = Ok (mkParseResult "" "evil.example" "/playbooks/42" "" "" "")
  /\ parse_ara_url accept_bracketed uses_params_312 None
       "//evil.example/playbooks/42"
     = Ok ("playbooks", 42)
  /\ urlparse accept_bracketed uses_params_312 "ftp:/playbooks/42"
     = Ok (mkParseResult "ftp" "" "/playbooks/42" "" "" "")
  /\ parse_ara_url accept_bracketed uses_params_312 None "ftp:/playbooks/42"
     = Ok ("playbooks", 42).
Proof. repeat split; reflexivity. Qed.

Lemma foreign_origin_rejected_witness :
  let url := "https://demo.recordsansible.org/playbooks/4307.html" in
  let e := ValueError (OriginMismatch "https://demo.recordsansible.org"
                                      "http://127.0.0.1:8000") in
  validate_url_origin accept_bracketed uses_params_312 None (Str.strip url)
  = Raise e
  /\ parse_ara_url accept_bracketed uses_params_312 None url = Raise e
  /\ extract_id accept_bracketed uses_params_312 None (IdStr url) = Raise e.
Proof.
  apply (foreign_origin_rejected accept_bracketed uses_params_312 None
           "https://demo.recordsansible.org/playbooks/4307.html"
           (mkParseResult "https" "demo.recordsansible.org"
              "/playbooks/4307.html" "" "" "")
           (mkParseResult "http" "127.0.0.1:8000" "" "" "" ""));
    try reflexivity; try discriminate.
  left. discriminate.
Defined.

(** C10 at the input of the claim, with another server configured: the
    bare path is resolved. *)
Lemma schemeless_input_witness :
  let url := "/playbooks/42.html" in
  let server := Some "https://ara.example.org" in
  validate_url_origin accept_bracketed uses_params_312 server url = Ok tt
  /\ parse_ara_url accept_bracketed uses_params_312 server url
     = Ok ("playbooks", 42)
  /\ extract_id accept_bracketed uses_params_312 server (IdStr url) = Ok 42.
Proof.
  destruct (proj2 (schemeless_input_skips_origin_check
                     accept_bracketed uses_params_312
                     (Some "https://ara.example.org"))
              "playbooks" 42 true eq_refl eq_refl)
    as (_ & Hv & Hp & He).
  - split; [lia|vm_compute; reflexivity].
  - repeat split; assumption.
Defined.



(** ** The batch fetch coordinator *)

Section BatchFacts.

Variable ara : ARAServer.
Variable r : resource.

(** What one fetch contributes to the result of a batch. *)
Let outcome (pk : Z) : result (Z * record r) :=
  match serve_get ara r pk with
  | Ok data => Ok (pk, data)
  | Raise e => Raise e
  end.

Let collect (fetched : list (result (Z * record r))) (out : gmap Z (record r)) :=
  fold_left
    (fun out fetch =>
       match fetch with
       | Raise _ => out
       | Ok (pk, data) => <[pk := data]> out
       end)
    fetched out.

Lemma gather_cons {A} (c : io A) cs log :
  gather_return_exceptions (c :: cs) log
  = let '(res, log1) := c log in
    match gather_return_exceptions cs log1 with
    | (Ok rs, log2) => (Ok (res :: rs), log2)
    | (Raise e, log2) => (Raise e, log2)
    end.
Proof. reflexivity. Qed.

Lemma gather_fetches pks log :
  gather_return_exceptions (List.map (_fetch_one ara r) pks) log
  = (Ok (List.map outcome pks), log ++ List.map (GET r) pks).
Proof.
  revert log. induction pks as [|pk pks IH]; intros log.
  - simpl. rewrite app_nil_r. reflexivity.
  - change (List.map (_fetch_one ara r) (pk :: pks))
      with (_fetch_one ara r pk :: List.map (_fetch_one ara r) pks).
    rewrite gather_cons.
    assert (E : _fetch_one ara r pk log = (outcome pk, log ++ [GET r pk])).
    { unfold _fetch_one, bind, ara_get, ret, outcome.
      destruct (serve_get ara r pk); reflexivity. }
    rewrite E, IH, <- app_assoc. reflexivity.
Qed.

Lemma batch_get_run pks log :
  batch_get ara r pks log
  = (Ok (collect (List.map outcome pks) ∅), log ++ List.map (GET r) pks).
Proof.
  destruct pks as [|pk pks].
  - simpl. unfold ret. rewrite app_nil_r. reflexivity.
  - unfold batch_get, bind. rewrite gather_fetches. reflexivity.
Qed.

Lemma collect_lookup pks out k :
  collect (List.map outcome pks) out !! k
  = match (if decide (k ∈ pks) then returned (serve_get ara r k) else None) with
    | Some data => Some data
    | None => out !! k
    end.
Proof.
  revert out. induction pks as [|pk pks IH]; intros out; simpl.
  - reflexivity.
  - unfold collect in IH |- *. simpl. rewrite IH. clear IH.
    destruct (decide (k ∈ pks)) as [Hin|Hnin].
    + rewrite decide_True by (right; exact Hin).
      destruct (returned (serve_get ara r k)) eqn:E; [reflexivity|].
      unfold outcome. destruct (serve_get ara r pk) eqn:Epk; [|reflexivity].
      rewrite lookup_insert_ne; [reflexivity|].
      intros ->. rewrite Epk in E. discriminate.
    + destruct (decide (k = pk)) as [->|Hne].
      * rewrite decide_True by left.
        unfold outcome. destruct (serve_get ara r pk); simpl.
        -- apply lookup_insert_eq.
        -- reflexivity.
      * rewrite decide_False by (rewrite elem_of_cons; tauto).
        unfold outcome. destruct (serve_get ara r pk); simpl; [|reflexivity].
        apply lookup_insert_ne. congruence.
Qed.

(** The result of a batch, key by key: the data of the identifiers of the
    input whose fetch succeeded. *)
Lemma batch_get_lookup pks log out log' k :
  batch_get ara r pks log = (Ok out, log') ->
  out !! k = if decide (k ∈ pks) then returned (serve_get ara r k) else None.
Proof.
  rewrite batch_get_run. intros [= <- _]. rewrite collect_lookup.
  rewrite lookup_empty. destruct (decide (k ∈ pks)); [|reflexivity].
  destruct (returned (serve_get ara r k)); reflexivity.
Qed.

Lemma batch_get_ok pks log :
  exists out,
    batch_get ara r pks log = (Ok out, log ++ List.map (GET r) pks)
    /\ forall k,
         out !! k
         = if decide (k ∈ pks) then returned (serve_get ara r k) else None.
Proof.
  eexists. split; [apply batch_get_run|]. intros k.
  apply (batch_get_lookup pks log _ _ k (batch_get_run pks log)).
Qed.

(** C7. For every batch, [batch_get] does not raise, whatever fetches
    fail, and returns a mapping whose keys are exactly the identifiers of
    the input whose fetch succeeded, each with the data fetched. *)
Theorem batch_get_partial_success pks log :
  exists out,
    batch_get ara r pks log = (Ok out, log ++ List.map (GET r) pks)
    /\ dom out
       = list_to_set (List.filter (fun pk => succeeded (serve_get ara r pk)) pks)
    /\ forall pk data, out !! pk = Some data ->
                       pk ∈ pks /\ serve_get ara r pk = Ok data.
Proof.
  eexists. split; [apply batch_get_run|]. split.
  - apply set_eq. intros k.
    rewrite elem_of_dom, elem_of_list_to_set, list_elem_of_In, filter_In.
    rewrite <- list_elem_of_In, collect_lookup, lookup_empty.
    destruct (decide (k ∈ pks)) as [Hin|Hnin].
    + destruct (serve_get ara r k); simpl; split.
      * auto.
      * intros _. eexists; reflexivity.
      * intros [? [=]].
      * intros [_ [=]].
    + split; [intros [? [=]]|tauto].
  - intros pk data. rewrite collect_lookup, lookup_empty.
    destruct (decide (pk ∈ pks)); [|discriminate].
    destruct (serve_get ara r pk); simpl; [|discriminate].
    intros [= ->]. auto.
Qed.

(** C2 (as amended). For every input list, [batch_get] issues one fetch
    per element of the list, a repeated identifier being fetched as often
    as it occurs, and whatever it returns is also what it returns for the
    input without its repetitions. *)
Theorem batch_get_fetches_every_element pks log :
  exists out,
    batch_get ara r pks log = (Ok out, log ++ List.map (GET r) pks)
    /\ fst (batch_get ara r (remove_dups pks) log) = Ok out.
Proof.
  eexists. split; [apply batch_get_run|].
  rewrite batch_get_run. simpl. f_equal. apply map_eq. intros k.
  rewrite !collect_lookup, !lookup_empty.
  destruct (decide (k ∈ pks)) as [Hin|Hnin].
  - rewrite decide_True by (apply elem_of_remove_dups; exact Hin). reflexivity.
  - rewrite decide_False by (rewrite elem_of_remove_dups; exact Hnin). reflexivity.
Qed.

End BatchFacts.

(** C2, the claim as stated fails: called with the identifiers 1, 1, 2,
    [batch_get] issues three fetches, two of them for the identifier 1. *)
Lemma batch_get_fetches_duplicates_twice :
  fetches (snd (batch_get (server_without []) results [1; 1; 2] []))
  = [(results, 1); (results, 1); (results, 2)].
Proof. reflexivity. Qed.

(** With the identifiers 1, 2, 3 and a server on which the fetch of 2
    fails, the keys of the batch are exactly 1 and 3. *)
Example batch_get_one_failure :
  exists out,
    fst (batch_get (server_without [2]) results [1; 2; 3] []) = Ok out
    /\ dom out = {[1; 3]}.
Proof.
  eexists. split; [rewrite batch_get_run; reflexivity|].
  apply set_eq. intros k. rewrite elem_of_dom, collect_lookup, lookup_empty.
  rewrite elem_of_union, !elem_of_singleton.
  destruct (decide (k ∈ [1; 2; 3])) as [Hin|Hnin].
  - rewrite !elem_of_cons, elem_of_nil in Hin.
    destruct Hin as [->|[->|[->|[]]]]; simpl; split;
      try (intros [? [=]]); try (intros [[=]|[=]]); eauto.
  - rewrite !elem_of_cons in Hnin. split; [intros [? [=]]|].
    intros [->| ->]; tauto.
Qed.


(** ** The failure aggregator *)

Section TroubleshootFacts.

Variable check_bracketed_netloc : string -> bool.
Variable uses_params : list string.
Variable ARA_API_SERVER : option string.
Variable ara : ARAServer.

Abbreviation handle_troubleshoot_playbook :=
  (handle_troubleshoot_playbook check_bracketed_netloc uses_params
     ARA_API_SERVER ara).

(** The loop over the failures stops with a [KeyError] at the first one
    whose full record is not in the batch. *)
Lemma for_each_failure_entry_missing full_results file_cache start l :
  (exists item, item ∈ l /\ full_results !! item_id item = None) ->
  exists k,
    for_each (failure_entry full_results file_cache) (enumerate start l)
    = Raise (KeyError k)
    /\ k ∈ List.map item_id l /\ full_results !! k = None.
Proof.
  revert start. induction l as [|x l IH]; intros start (item & Hin & Hnone).
  - apply elem_of_nil in Hin. contradiction.
  - simpl. destruct (full_results !! item_id x) eqn:E.
    + apply elem_of_cons in Hin as [->|Hin]; [congruence|].
      destruct (IH (start + 1) (ex_intro _ item (conj Hin Hnone)))
        as (k & -> & Hk & Hk').
      exists k. repeat split; [right; exact Hk|exact Hk'].
    + exists (item_id x). repeat split; [left|exact E].
Qed.

(** C1, for [troubleshoot_playbook]: the claim is not met. Whenever the
    full record of one of the listed failures could not be fetched, the
    handler raises a [KeyError] for it, and the tool call answers "Not
    found" in place of the report. *)
Theorem troubleshoot_playbook_aborts_on_missing_result
    (pk : Z) (include_ignored : bool) playbook page log :
  serve_get ara playbooks pk = Ok playbook ->
  serve_list ara results (failed_results_query pk include_ignored) = Ok page ->
  (exists failure,
     failure ∈ page_results page
     /\ succeeded (serve_get ara results (item_id failure)) = false) ->
  exists k,
    fst (handle_troubleshoot_playbook (IdInt pk) include_ignored log)
    = Raise (KeyError k)
    /\ k ∈ List.map item_id (page_results page)
    /\ handle_call_tool
         (fst (handle_troubleshoot_playbook (IdInt pk) include_ignored log))
       = inr NotFound.
Proof.
  intros Hpb Hlist (failure & Hin & Hfail).
  unfold handle_troubleshoot_playbook, bind, lift, gather2, ara_get, ara_list.
  cbn [extract_id]. rewrite Hpb, Hlist. cbn [item] in *.
  destruct (page_results page) as [|x l] eqn:E;
    [apply elem_of_nil in Hin; contradiction|].
  match goal with
  | |- context [batch_get ara results ?ids ?lg] =>
      destruct (batch_get_ok ara results ids lg) as (full & -> & Hfull)
  end.
  repeat match goal with
  | |- context [batch_get ara ?res ?ids ?lg] =>
      destruct (batch_get_ok ara res ids lg) as (? & -> & _)
  end.
  match goal with
  | |- context [for_each (failure_entry full ?files) (enumerate 1 (x :: l))] =>
      destruct (for_each_failure_entry_missing full files 1 (x :: l))
        as (k & Hk & Hin' & _)
  end.
  - exists failure. split; [exact Hin|]. rewrite Hfull.
    destruct (decide (item_id failure ∈ List.map item_id (x :: l))); [|reflexivity].
    destruct (serve_get ara results (item_id failure)); [discriminate|reflexivity].
  - exists k. rewrite Hk. cbn [fst handle_call_tool error_text_of]. auto.
Qed.

End TroubleshootFacts.

(** C1, an input on which [troubleshoot_playbook] gives no report: one
    failed result, number 7, whose full record times out. The handler
    raises [KeyError 7]; [troubleshoot_host] on the same server reports
    the result with its details marked as not fetched. *)
Example troubleshoot_playbook_lone_failure :
  fst (handle_troubleshoot_playbook accept_bracketed uses_params_312 None
         lone_failure_server (IdInt 1) false [])
  = Raise (KeyError 7)
  /\ fst (handle_troubleshoot_host accept_bracketed uses_params_312 None
            lone_failure_server (fun _ => Ok []) (IdInt 1) [])
     = Ok (HostFailures (Some 0) (Some 0) ["  Facts: Not available"] 1
             [CouldNotFetchDetails 1 7] None).
Proof. split; vm_compute; reflexivity. Qed.

Lemma troubleshoot_playbook_aborts_witness :
  exists k,
    fst (handle_troubleshoot_playbook accept_bracketed uses_params_312 None
           lone_failure_server (IdInt 1) false [])
    = Raise (KeyError k)
    /\ k ∈ [7]
    /\ handle_call_tool
         (fst (handle_troubleshoot_playbook accept_bracketed uses_params_312
                 None lone_failure_server (IdInt 1) false []))
       = inr NotFound.
Proof.
  apply (troubleshoot_playbook_aborts_on_missing_result
           accept_bracketed uses_params_312 None lone_failure_server
           1 false (blank playbooks)
           (Build_Page ResultItem 1 [Build_ResultItem 7 None]) []);
    [reflexivity|reflexivity|].
  exists (Build_ResultItem 7 None). split; [left|reflexivity].
Defined.

(** ** The report on a host *)

Section HostReportFacts.

Variable check_bracketed_netloc : string -> bool.
Variable uses_params : list string.
Variable ARA_API_SERVER : option string.
Variable ara : ARAServer.
Variable format_facts : list (string * json) -> result (list string).

Abbreviation resolve :=
  (extract_id check_bracketed_netloc uses_params ARA_API_SERVER).
Abbreviation format_host_facts := (format_host_facts format_facts).
Abbreviation handle_troubleshoot_host :=
  (handle_troubleshoot_host check_bracketed_netloc uses_params ARA_API_SERVER
     ara format_facts).







End HostReportFacts.


(** ** The performance aggregator *)

Section PerformanceFacts.

Variable py_sum : list float -> float.
Variable float_of_int : Z -> float.
Variable int_of_str : string -> option Z.
Variable float_of_str : string -> option float.
Variable ara : ARAServer.

Abbreviation parse_duration_seconds :=
  (parse_duration_seconds float_of_int int_of_str float_of_str).
Abbreviation track_time := (track_time float_of_int int_of_str float_of_str).
Abbreviation slowest_step :=
  (slowest_step float_of_int int_of_str float_of_str).
Abbreviation analyze_slowest_tasks :=
  (analyze_slowest_tasks float_of_int int_of_str float_of_str ara).
Abbreviation module_time := (module_time float_of_int int_of_str float_of_str).
Abbreviation seconds_of := (seconds_of float_of_int int_of_str float_of_str).

Lemma slowest_step_task_times top_n all_full_results st result :
  task_times (slowest_step top_n all_full_results st result)
  = match all_full_results !! item_id result with
    | Some full_result => track_time full_result (task_times st)
    | None => task_times st
    end.
Proof.
  unfold slowest_step. destruct (all_full_results !! item_id result); [|reflexivity].
  repeat case_match; reflexivity.
Qed.

Lemma slowest_loop_task_times top_n all_full_results sample st :
  task_times (fold_left (slowest_step top_n all_full_results) sample st)
  = fold_left (fun times full_result => track_time full_result times)
      (omap (fun r => all_full_results !! item_id r) sample) (task_times st).
Proof.
  revert st. induction sample as [|r sample IH]; intros st; [reflexivity|].
  cbn [fold_left omap list_omap]. rewrite IH, slowest_step_task_times.
  destruct (all_full_results !! item_id r); reflexivity.
Qed.

(** The action and the seconds under which the loop counts a result are
    those of the record itself. *)
Lemma action_of_record full_result : action_of full_result = module_of full_result.
Proof. reflexivity. Qed.

Lemma duration_of_record full_result :
  parse_duration_seconds (Some (duration_of full_result))
  = seconds_of full_result.
Proof.
  unfold duration_of, seconds_of.
  destruct (result_duration full_result); reflexivity.
Qed.

Lemma track_time_lookup fulls times action :
  fold_left (fun times full_result => track_time full_result times) fulls times
  !! action
  = let entry :=
      default {| calls := 0; total_seconds := 0%float |} (times !! action) in
    match List.filter (fun r => String.eqb (module_of r) action) fulls with
    | [] => times !! action
    | rs =>
        Some {| calls := calls entry + Z.of_nat (length rs);
                total_seconds :=
                  fold_left (fun t r => (t + seconds_of r)%float)
                    rs (total_seconds entry) |}
    end.
Proof.
  revert times. induction fulls as [|full fulls IH]; intros times; [reflexivity|].
  cbn [fold_left List.filter]. rewrite IH. clear IH. cbv zeta.
  unfold track_time at 1 2 3. rewrite duration_of_record, action_of_record.
  destruct (String.eqb_spec (module_of full) action) as [<-|Hne].
  - rewrite lookup_insert_eq.
    cbn [default from_option id calls total_seconds].
    destruct (List.filter _ fulls) as [|r rs]; cbn [length fold_left].
    + do 2 f_equal.
    + do 2 f_equal. lia.
  - rewrite lookup_insert_ne by exact Hne.
    reflexivity.
Qed.

Lemma slowest_step_invariant top_n all_full_results st result :
  display_invariant top_n st ->
  display_invariant top_n (slowest_step top_n all_full_results st result).
Proof.
  intros (Hshown & Hcap & Hnodup & Hseen). unfold slowest_step.
  destruct (all_full_results !! item_id result) as [full|];
    [|repeat split; assumption].
  destruct (top_n <=? shown st) eqn:Etop; [repeat split; assumption|].
  apply Z.leb_gt in Etop.
  case_bool_decide as Ekey; [repeat split; assumption|].
  unfold display_invariant. cbn [shown displayed seen].
  rewrite length_app, map_app, Nat2Z.inj_add. cbn [length List.map].
  repeat split.
  - lia.
  - lia.
  - apply NoDup_app. split; [exact Hnodup|]. split; [|apply NoDup_singleton].
    intros key Hin Hin'. apply list_elem_of_singleton in Hin'. subst key.
    apply list_elem_of_In, in_map_iff in Hin as (e & He & Hin).
    apply Ekey. cbn [slow_task_id slow_host] in He. rewrite <- He.
    apply Hseen, list_elem_of_In, Hin.
  - intros e [Hin|Hin]%elem_of_app.
    + apply elem_of_union_r, Hseen, Hin.
    + apply list_elem_of_singleton in Hin. subst e. apply elem_of_union_l.
      apply elem_of_singleton. reflexivity.
Qed.

Lemma slowest_loop_invariant top_n all_full_results sample st :
  display_invariant top_n st ->
  display_invariant top_n (fold_left (slowest_step top_n all_full_results) sample st).
Proof.
  revert st. induction sample as [|r sample IH]; intros st Hst; [exact Hst|].
  apply IH, slowest_step_invariant, Hst.
Qed.

Lemma omap_fetched (out : gmap Z Result) (ids : list Z) (sample : list ResultItem) :
  (forall k, out !! k
             = if decide (k ∈ ids) then returned (serve_get ara results k)
               else None) ->
  (forall r, r ∈ sample -> item_id r ∈ ids) ->
  omap (fun r => out !! item_id r) sample
  = omap (fun r => returned (serve_get ara results (item_id r))) sample.
Proof.
  intros Hout. induction sample as [|r sample IH]; intros Hin; [reflexivity|].
  cbn [omap list_omap]. rewrite IH by (intros; apply Hin; right; assumption).
  rewrite Hout, decide_True by (apply Hin; left). reflexivity.
Qed.

(** C9. Whenever the list of the playbook's results (at most 100, by
    decreasing duration) is not empty, the loop ends with a module-time
    bucket that holds, for every action, the number of results of the
    sample whose full record was fetched and whose task has this action,
    and the sum of the seconds of their own durations: every such result
    is counted, be it displayed or not. The displayed entries are at most
    [top_n] and no two of them have the same task and host. *)
Theorem module_time_covers_whole_sample pk top_n page log :
  serve_list ara results (slowest_results_query pk) = Ok page ->
  page_results page <> [] ->
  exists st log',
    analyze_slowest_tasks pk top_n log = (Ok (Some st), log')
    /\ (forall action,
          task_times st !! action
          = module_time
              (omap (fun r => returned (serve_get ara results (item_id r)))
                 (page_results page))
              action)
    /\ Z.of_nat (length (displayed st)) <= Z.max 0 top_n
    /\ NoDup (List.map (fun e => (slow_task_id e, slow_host e)) (displayed st)).
Proof.
  intros Hlist Hne.
  unfold analyze_slowest_tasks, bind, ara_list. rewrite Hlist. cbn [item] in *.
  destruct (page_results page) as [|r0 sample] eqn:E; [contradiction|].
  match goal with
  | |- context [batch_get ara results ?ids ?lg] =>
      destruct (batch_get_ok ara results ids lg) as (full & -> & Hfull)
  end.
  unfold ret. do 2 eexists. split; [reflexivity|].
  set (start := {| seen := ∅; shown := 0; task_times := ∅; displayed := [] |}).
  assert (Hinv : display_invariant top_n start).
  { unfold display_invariant, start. cbn [shown displayed seen length List.map].
    split; [reflexivity|]. split; [lia|]. split; [constructor|].
    intros e Hin. apply elem_of_nil in Hin. contradiction. }
  apply (slowest_loop_invariant top_n full (r0 :: sample)) in Hinv.
  destruct Hinv as (Hshown & Hcap & Hnodup & _).
  split; [|split; [rewrite <- Hshown; exact Hcap|exact Hnodup]].
  intros action. rewrite slowest_loop_task_times, track_time_lookup.
  match goal with
  | |- context [omap ?f ?l] =>
      replace (omap f l)
        with (omap (fun r => returned (serve_get ara results (item_id r)))
                (r0 :: sample))
        by (symmetry;
            apply (omap_fetched full (List.map item_id (r0 :: sample))
                     (r0 :: sample) Hfull);
            intros r Hr; apply list_elem_of_In, in_map, list_elem_of_In, Hr)
  end.
  unfold module_time. cbn [task_times start]. rewrite lookup_empty.
  cbn [default from_option id calls total_seconds]. reflexivity.
Qed.

End PerformanceFacts.

(** The entries of [inconsistent_tasks] are those of the tasks that have
    two measurements or more and are flagged. *)
Lemma inconsistent_tasks_spec py_sum float_of_int
    (aggregate : list (string * list measurement)) (name : string) :
  name ∈ flagged_names (inconsistent_tasks py_sum float_of_int aggregate)
  <-> exists measurements,
        (name, measurements) ∈ aggregate
        /\ (2 <= length measurements)%nat
        /\ flagged_inconsistent py_sum float_of_int (durations_of measurements)
           = true.
Proof.
  unfold flagged_names, inconsistent_tasks.
  rewrite list_elem_of_In, in_map_iff. split.
  - intros (entry & <- & Hin). apply in_flat_map in Hin as ([n ms] & Hagg & Hin).
    exists ms. destruct (2 <=? Z.of_nat (length ms)) eqn:Elen; [|destruct Hin].
    apply Z.leb_le in Elen.
    unfold flagged_inconsistent, mean, range.
    destruct (durations_of ms) as [|d ds]; [destruct Hin|].
    match type of Hin with
    | In _ (if ?c then _ else _) => destruct c eqn:Eflag; [|destruct Hin]
    end.
    destruct Hin as [<-|[]]. cbn [fst]. split; [apply list_elem_of_In, Hagg|].
    split; [lia|reflexivity].
  - intros (ms & Hagg & Hlen & Hflag).
    unfold flagged_inconsistent, mean, range in Hflag.
    destruct (durations_of ms) as [|d ds] eqn:E.
    { apply (f_equal (@length _)) in E. unfold durations_of in E.
      rewrite length_map in E. simpl in E. lia. }
    exists (name, py_min d ds, py_max d ds,
            (py_sum (d :: ds)
             / float_of_int (Z.of_nat (length (d :: ds))))%float, ms).
    split; [reflexivity|]. apply in_flat_map. exists (name, ms).
    split; [apply list_elem_of_In, Hagg|].
    rewrite (proj2 (Z.leb_le 2 (Z.of_nat (length ms)))) by lia.
    rewrite E, Hflag. left. reflexivity.
Qed.

(** *** The order of binary64 floats

    [max] and [min] compare with [<]; what they return is characterised
    with [<=], through the specification of the comparisons. *)

Ltac compare_cases :=
  repeat match goal with
  | |- context [Pos.compare_cont Eq ?a ?b] =>
      change (Pos.compare_cont Eq a b) with (Pos.compare a b)
  | H : context [Pos.compare_cont Eq ?a ?b] |- _ =>
      change (Pos.compare_cont Eq a b) with (Pos.compare a b) in H
  end;
  repeat match goal with
  | |- context [Z.compare ?a ?b] => destruct (Z.compare_spec a b)
  | H : context [Z.compare ?a ?b] |- _ => destruct (Z.compare_spec a b)
  | |- context [Pos.compare ?a ?b] => destruct (Pos.compare_spec a b)
  | H : context [Pos.compare ?a ?b] |- _ => destruct (Pos.compare_spec a b)
  end;
  cbn in *; try reflexivity; try discriminate; try lia.

Lemma SFleb_refl a : a <> S754_nan -> SFleb a a = true.
Proof.
  intros Ha. destruct a as [[]|[]| |[] m e]; try reflexivity; try contradiction;
    unfold SFleb, SFcompare; compare_cases.
Qed.

Lemma SFleb_trans a b c :
  SFleb a b = true -> SFleb b c = true -> SFleb a c = true.
Proof.
  unfold SFleb, SFcompare.
  destruct a as [[]|[]| |[] m1 e1], b as [[]|[]| |[] m2 e2],
    c as [[]|[]| |[] m3 e3]; intros H1 H2;
    try reflexivity; try discriminate H1; try discriminate H2;
    compare_cases.
Qed.

Lemma SFltb_leb a b : SFltb a b = true -> SFleb a b = true.
Proof.
  unfold SFltb, SFleb. destruct (SFcompare a b) as [[]|]; congruence.
Qed.

Lemma SFleb_total a b :
  a <> S754_nan -> b <> S754_nan -> SFltb a b = false -> SFleb b a = true.
Proof.
  unfold SFleb, SFltb, SFcompare.
  destruct a as [[]|[]| |[] m1 e1], b as [[]|[]| |[] m2 e2]; intros Ha Hb H;
    try reflexivity; try discriminate H; try contradiction;
    compare_cases.
Qed.

Lemma not_nan x : PrimFloat.is_nan x = false -> Prim2SF x <> S754_nan.
Proof.
  unfold PrimFloat.is_nan. rewrite negb_false_iff, FloatAxioms.eqb_spec. intros H E.
  rewrite E in H. discriminate H.
Qed.

Lemma float_leb_refl x : PrimFloat.is_nan x = false -> (x <=? x)%float = true.
Proof. intros H. rewrite FloatAxioms.leb_spec. apply SFleb_refl, not_nan, H. Qed.

Lemma float_leb_trans x y z :
  (x <=? y)%float = true -> (y <=? z)%float = true -> (x <=? z)%float = true.
Proof. rewrite !FloatAxioms.leb_spec. apply SFleb_trans. Qed.

Lemma float_ltb_leb x y : (x <? y)%float = true -> (x <=? y)%float = true.
Proof. rewrite FloatAxioms.ltb_spec, FloatAxioms.leb_spec. apply SFltb_leb. Qed.

Lemma float_leb_total x y :
  PrimFloat.is_nan x = false -> PrimFloat.is_nan y = false ->
  (x <? y)%float = false -> (y <=? x)%float = true.
Proof.
  intros Hx Hy. rewrite FloatAxioms.ltb_spec, FloatAxioms.leb_spec.
  apply SFleb_total; apply not_nan; assumption.
Qed.

(** The loops of [max] and [min], started on what they have seen. *)
Lemma py_max_loop (seen rest : list float) best :
  (forall x, x ∈ seen ++ rest -> PrimFloat.is_nan x = false) ->
  best ∈ seen -> (forall x, x ∈ seen -> (x <=? best)%float = true) ->
  let greatest :=
    fold_left (fun best y => if (best <? y)%float then y else best) rest best in
  greatest ∈ seen ++ rest
  /\ forall x, x ∈ seen ++ rest -> (x <=? greatest)%float = true.
Proof.
  revert seen best. induction rest as [|y rest IH]; intros seen best Hnan Hin Hle.
  - cbn [fold_left]. rewrite app_nil_r. auto.
  - cbn [fold_left]. cbv zeta.
    replace (seen ++ y :: rest) with ((seen ++ [y]) ++ rest) in *
      by (rewrite <- app_assoc; reflexivity).
    assert (Hy : PrimFloat.is_nan y = false)
      by (apply Hnan; rewrite !elem_of_app, list_elem_of_singleton; auto).
    assert (Hb : PrimFloat.is_nan best = false)
      by (apply Hnan; rewrite !elem_of_app; auto).
    destruct (best <? y)%float eqn:E; apply IH; try exact Hnan.
    + rewrite elem_of_app, list_elem_of_singleton. auto.
    + intros x [Hx|Hx]%elem_of_app.
      * apply (float_leb_trans x best y); [apply Hle, Hx|].
        apply float_ltb_leb, E.
      * apply list_elem_of_singleton in Hx. subst x. apply float_leb_refl, Hy.
    + rewrite elem_of_app. auto.
    + intros x [Hx|Hx]%elem_of_app; [apply Hle, Hx|].
      apply list_elem_of_singleton in Hx. subst x.
      apply float_leb_total; assumption.
Qed.

Lemma py_min_loop (seen rest : list float) best :
  (forall x, x ∈ seen ++ rest -> PrimFloat.is_nan x = false) ->
  best ∈ seen -> (forall x, x ∈ seen -> (best <=? x)%float = true) ->
  let least :=
    fold_left (fun best y => if (y <? best)%float then y else best) rest best in
  least ∈ seen ++ rest
  /\ forall x, x ∈ seen ++ rest -> (least <=? x)%float = true.
Proof.
  revert seen best. induction rest as [|y rest IH]; intros seen best Hnan Hin Hle.
  - cbn [fold_left]. rewrite app_nil_r. auto.
  - cbn [fold_left]. cbv zeta.
    replace (seen ++ y :: rest) with ((seen ++ [y]) ++ rest) in *
      by (rewrite <- app_assoc; reflexivity).
    assert (Hy : PrimFloat.is_nan y = false)
      by (apply Hnan; rewrite !elem_of_app, list_elem_of_singleton; auto).
    assert (Hb : PrimFloat.is_nan best = false)
      by (apply Hnan; rewrite !elem_of_app; auto).
    destruct (y <? best)%float eqn:E; apply IH; try exact Hnan.
    + rewrite elem_of_app, list_elem_of_singleton. auto.
    + intros x [Hx|Hx]%elem_of_app.
      * apply (float_leb_trans y best x); [|apply Hle, Hx].
        apply float_ltb_leb, E.
      * apply list_elem_of_singleton in Hx. subst x. apply float_leb_refl, Hy.
    + rewrite elem_of_app. auto.
    + intros x [Hx|Hx]%elem_of_app; [apply Hle, Hx|].
      apply list_elem_of_singleton in Hx. subst x.
      apply float_leb_total; assumption.
Qed.

(** C8. A task is flagged inconsistent exactly when it has two cross-run
    measurements or more, its mean duration exceeds one second and its
    range exceeds half its mean. The range is that of the greatest and of
    the least duration: among durations that are numbers, [max] returns
    one that none exceeds and [min] one that exceeds none. With either
    implementation of [sum], the durations 1, 1, 3 are flagged in whatever
    order they come, the durations 1, 1, 1 are not, and the durations 0.1,
    0.1, 0.9 are not, their mean being below one second. *)
Theorem inconsistency_flag_matches_design :
  (forall py_sum float_of_int aggregate name,
     name ∈ flagged_names (inconsistent_tasks py_sum float_of_int aggregate)
     <-> exists measurements,
           (name, measurements) ∈ aggregate
           /\ (2 <= length measurements)%nat
           /\ (1 <? mean py_sum float_of_int (durations_of measurements))%float
              = true
           /\ (0.5 <? range (durations_of measurements)
                      / mean py_sum float_of_int (durations_of measurements))%float
              = true)
  /\ (forall d ds,
        (forall x, x ∈ d :: ds -> PrimFloat.is_nan x = false) ->
        range (d :: ds) = (py_max d ds - py_min d ds)%float
        /\ py_max d ds ∈ d :: ds
        /\ py_min d ds ∈ d :: ds
        /\ forall x, x ∈ d :: ds ->
             (py_min d ds <=? x)%float = true
             /\ (x <=? py_max d ds)%float = true)
  /\ (let flagged py_sum durations :=
        flagged_names
          (inconsistent_tasks py_sum float_of_small_int [("A", runs durations)]) in
      flagged sum_left_to_right [1; 1; 3]%float = ["A"]
      /\ flagged sum_compensated [1; 1; 3]%float = ["A"]
      /\ flagged sum_left_to_right [3; 1; 1]%float = ["A"]
      /\ flagged sum_compensated [3; 1; 1]%float = ["A"]
      /\ flagged sum_left_to_right [1; 3; 1]%float = ["A"]
      /\ flagged sum_compensated [1; 3; 1]%float = ["A"]
      /\ range [1; 1; 3]%float = 2%float
      /\ range [3; 1; 1]%float = 2%float
      /\ range [1; 3; 1]%float = 2%float
      /\ flagged sum_left_to_right [1; 1; 1]%float = []
      /\ flagged sum_compensated [1; 1; 1]%float = []
      /\ flagged sum_left_to_right [tenths 1; tenths 1; tenths 9] = []
      /\ flagged sum_compensated [tenths 1; tenths 1; tenths 9] = []
      /\ flagged sum_left_to_right [tenths 9; tenths 1; tenths 1] = []
      /\ flagged sum_compensated [tenths 1; tenths 9; tenths 1] = []
      /\ (mean sum_left_to_right float_of_small_int
            [tenths 1; tenths 1; tenths 9] <? 1)%float = true
      /\ (0.5 <? range [tenths 1; tenths 1; tenths 9]
                 / mean sum_left_to_right float_of_small_int
                     [tenths 1; tenths 1; tenths 9])%float = true).
Proof.
  split; [|split].
  - intros py_sum float_of_int aggregate name.
    rewrite inconsistent_tasks_spec. unfold flagged_inconsistent.
    split; intros (ms & Hagg & Hlen & Hflag); exists ms.
    + apply andb_true_iff in Hflag. tauto.
    + rewrite andb_true_iff. tauto.
  - intros d ds Hnan. split; [reflexivity|].
    assert (Hd : d ∈ [d]) by (apply list_elem_of_singleton; reflexivity).
    assert (Hrefl : forall x, x ∈ [d] -> (x <=? d)%float = true
                                          /\ (d <=? x)%float = true).
    { intros x Hx. apply list_elem_of_singleton in Hx. subst x.
      split; apply float_leb_refl, Hnan; left. }
    destruct (py_max_loop [d] ds d Hnan Hd (fun x Hx => proj1 (Hrefl x Hx)))
      as [Hmax_in Hmax].
    destruct (py_min_loop [d] ds d Hnan Hd (fun x Hx => proj2 (Hrefl x Hx)))
      as [Hmin_in Hmin].
    split; [exact Hmax_in|]. split; [exact Hmin_in|].
    intros x Hx. split; [apply Hmin, Hx|apply Hmax, Hx].
  - cbv zeta. repeat split; vm_compute; reflexivity.
Qed.

(** With [top_n = 1] the demo playbook shows one entry, result 1; result 2,
    of the same task and host, and result 3, beyond the cap, are counted
    in the bucket all the same, and result 4, not fetched, is not. *)
Example slowest_tasks_demo :
  exists st,
    fst (analyze_slowest_tasks float_of_small_int int_of_digits float_of_digits
           demo_server 1 1 [])
    = Ok (Some st)
    /\ List.map slow_result (displayed st) = [1]
    /\ task_times st !! "package" = Some {| calls := 2; total_seconds := 5 |}
    /\ task_times st !! "shell" = Some {| calls := 1; total_seconds := 1 |}
    /\ size (task_times st) = 2%nat.
Proof. eexists. repeat split; vm_compute; reflexivity. Qed.

(** C9 on the demo playbook with [top_n = 1]: the two results of the
    package task add their three and two seconds under [package], of
    which one is displayed, and the result of the shell task, beyond the
    cap, adds its second under [shell]. *)
Lemma module_time_covers_whole_sample_witness :
  exists st log',
    analyze_slowest_tasks float_of_small_int int_of_digits float_of_digits
      demo_server 1 1 []
    = (Ok (Some st), log')
    /\ task_times st !! "package" = Some {| calls := 2; total_seconds := 5 |}
    /\ task_times st !! "shell" = Some {| calls := 1; total_seconds := 1 |}
    /\ task_times st !! "unknown" = None
    /\ Z.of_nat (length (displayed st)) <= Z.max 0 1.
Proof.
  destruct (module_time_covers_whole_sample
              float_of_small_int int_of_digits float_of_digits demo_server
              1 1 (Build_Page ResultItem 4 (numbered 4)) [])
    as (st & log' & Hrun & Hbucket & Hcap & _); [reflexivity|discriminate|].
  exists st, log'. split; [exact Hrun|].
  rewrite !Hbucket. repeat split; try exact Hcap; vm_compute; reflexivity.
Defined.

(** * Further properties of the code

    ** The links that the server builds *)

Section LinkFacts.

Import StrFacts CharFacts.

Variable check_bracketed_netloc : string -> bool.
Variable uses_params : list string.
Variable ARA_API_SERVER : option string.

Abbreviation urlparse := (urlparse check_bracketed_netloc uses_params).
Abbreviation validate_url_origin :=
  (validate_url_origin check_bracketed_netloc uses_params ARA_API_SERVER).
Abbreviation parse_ara_url :=
  (parse_ara_url check_bracketed_netloc uses_params ARA_API_SERVER).
Abbreviation extract_id :=
  (extract_id check_bracketed_netloc uses_params ARA_API_SERVER).
Abbreviation get_web_base := (get_web_base ARA_API_SERVER).

(** A scheme and a network location alone: the path is empty. *)
Lemma urlparse_origin sch host :
  is_scheme sch = true -> is_netloc check_bracketed_netloc host = true ->
  urlparse (sch +:+ "://" +:+ host)
  = Ok (mkParseResult (Str.lower sch) host "" "" "" "").
Proof.
  intros Hsch Hhost.
  assert (Hshape : exists c0 sch', sch = String c0 sch'
                     /\ Char.is_ascii_alpha c0 = true
                     /\ Str.all Char.is_scheme_char sch = true).
  { unfold is_scheme in Hsch. destruct sch as [|c0 sch']; [discriminate|].
    apply andb_true_iff in Hsch as [? ?]. eauto. }
  destruct Hshape as (c0 & sch' & Es & Hc0 & Hsc).
  pose proof (alpha_not_stripped _ Hc0) as Hc0'.
  rewrite !andb_true_iff, !negb_true_iff in Hc0'.
  destruct Hc0' as [[_ Hctl] _].
  pose proof Hhost as Hhost'. unfold is_netloc in Hhost'.
  apply andb_true_iff in Hhost' as [[Hne Hhc]%andb_true_iff Hbr].
  assert (Hcolon : Str.all (Str.no ":") sch = true).
  { revert Hsc. apply all_impl. intros c Hc.
    pose proof (scheme_char_clean c Hc) as H.
    rewrite !andb_true_iff in H. tauto. }
  unfold urlparse, urlsplit.
  replace (Str.lstrip Char.is_c0_control_or_space (sch +:+ "://" +:+ host))
    with (sch +:+ "://" +:+ host)
    by (rewrite Es; symmetry; apply (lstrip_keep _ _ _ Hctl)).
  rewrite (remove_none _ (sch +:+ "://" +:+ host)).
  2:{ assert (H1 : Str.all (fun c => negb (Char.is_unsafe_url_byte c)) sch = true).
      { revert Hsc. apply all_impl. intros c Hc.
        pose proof (scheme_char_clean c Hc) as H.
        rewrite !andb_true_iff in H. tauto. }
      assert (H2 : Str.all (fun c => negb (Char.is_unsafe_url_byte c)) host = true).
      { revert Hhc. apply all_impl. intros c Hc.
        rewrite !andb_true_iff, !negb_true_iff in Hc.
        destruct Hc as [[_ Hc] _]. revert c Hc. by_cases. }
      rewrite !all_app, H1, H2. reflexivity. }
  rewrite (partition_app_no ":" sch _ Hcolon).
  change (Str.partition ":" ("://" +:+ host))
    with (EmptyString, Some ("//" +:+ host)).
  cbn [fst snd]. rewrite append_nil_r.
  rewrite Es in Hsch |- *. cbn [is_scheme] in Hsch. rewrite Hsch.
  rewrite chop_prefix_app.
  replace (_splitnetloc host) with (host, EmptyString).
  2:{ symmetry. apply span_all. revert Hhc. apply all_impl. intros c Hc.
      rewrite !andb_true_iff in Hc. tauto. }
  replace (xorb (Str.contains "[" host) (Str.contains "]" host)) with false
    by (revert Hbr;
        destruct (Str.contains "[" host), (Str.contains "]" host);
        simpl; congruence).
  replace (Str.contains "[" host && Str.contains "]" host
           && negb (check_bracketed_netloc host)) with false
    by (revert Hbr;
        destruct (Str.contains "[" host), (Str.contains "]" host);
        simpl; try intros ->; reflexivity).
  cbn. rewrite andb_false_r. reflexivity.
Qed.

(** What [parse_ara_url] and [extract_id] make of a link under the
    configured server, when this is a scheme and a network location. *)
Lemma link_resolves sch host kind pk fragment :
  is_scheme sch = true -> is_netloc check_bracketed_netloc host = true ->
  get_web_base = sch +:+ "://" +:+ host ->
  Str.nonempty kind = true -> Str.all Char.isword kind = true -> 0 <= pk ->
  let url :=
    get_web_base +:+ "/" +:+ kind +:+ "/" +:+ py_str pk +:+ ".html"
    +:+ match fragment with Some f => "#" +:+ f | None => "" end in
  parse_ara_url url = Ok (kind, pk) /\ extract_id (IdStr url) = Ok pk.
Proof.
  intros Hsch Hhost Hbase Hkind Hword Hpk url.
  assert (Eurl : url = ara_url sch host kind pk true None fragment).
  { unfold url, ara_url. rewrite Hbase, !append_assoc. reflexivity. }
  destruct (urlparse_url check_bracketed_netloc uses_params sch host kind pk
              true None fragment Hsch Hhost Hword Hpk) as (q & f & Hp).
  pose proof (isdigit_url check_bracketed_netloc sch host kind pk true None
                fragment Hsch Hhost Hword Hpk) as Hnd.
  destruct (py_str_decimal pk Hpk) as (_ & _ & Hint).
  rewrite <- Eurl in Hp, Hnd.
  assert (Hparse : parse_ara_url (Str.strip url) = Ok (kind, pk)).
  { unfold parse_ara_url, validate_url_origin.
    rewrite strip_idem, Hnd, Hp. cbn [rbind scheme netloc path].
    replace (Str.nonempty (Str.lower sch)) with true
      by (unfold is_scheme in Hsch; destruct sch; [discriminate|reflexivity]).
    replace (Str.nonempty host) with true
      by (symmetry; pose proof Hhost as H; unfold is_netloc in H;
          rewrite !andb_true_iff in H; tauto).
    cbn [negb orb]. rewrite Hbase, (urlparse_origin _ _ Hsch Hhost).
    cbn [rbind]. unfold origin. cbn [scheme netloc].
    rewrite bool_decide_eq_true_2 by reflexivity.
    cbn [rbind].
    rewrite (rstrip_the_path "" "" kind pk true None None Hpk).
    rewrite (match_the_path "" "" kind pk true None None Hkind Hword Hpk).
    rewrite Hint. reflexivity. }
  split.
  - unfold parse_ara_url in Hparse |- *. rewrite strip_idem in Hparse.
    exact Hparse.
  - unfold extract_id. rewrite Hnd, Hparse. reflexivity.
Qed.

(** X1. When the configured server is a scheme and a network location
    (trailing slashes apart), every link that the server builds for a
    record with a natural identifier is resolved back to that identifier
    by [extract_id], and to the kind and identifier by [parse_ara_url];
    a line anchor on a file link does not change this. *)
Theorem built_links_resolve sch host pk line :
  is_scheme sch = true -> is_netloc check_bracketed_netloc host = true ->
  get_web_base = sch +:+ "://" +:+ host ->
  0 <= pk ->
  parse_ara_url (playbook_url ARA_API_SERVER pk) = Ok ("playbooks", pk)
  /\ parse_ara_url (task_url ARA_API_SERVER pk) = Ok ("tasks", pk)
  /\ parse_ara_url (host_url ARA_API_SERVER pk) = Ok ("hosts", pk)
  /\ parse_ara_url (result_url ARA_API_SERVER pk) = Ok ("results", pk)
  /\ parse_ara_url (file_url ARA_API_SERVER pk line) = Ok ("files", pk)
  /\ extract_id (IdStr (playbook_url ARA_API_SERVER pk)) = Ok pk
  /\ extract_id (IdStr (task_url ARA_API_SERVER pk)) = Ok pk
  /\ extract_id (IdStr (host_url ARA_API_SERVER pk)) = Ok pk
  /\ extract_id (IdStr (result_url ARA_API_SERVER pk)) = Ok pk
  /\ extract_id (IdStr (file_url ARA_API_SERVER pk line)) = Ok pk.
Proof.
  intros Hsch Hhost Hbase Hpk.
  pose proof (fun kind fragment Hk Hw =>
                link_resolves sch host kind pk fragment Hsch Hhost Hbase
                  Hk Hw Hpk) as H.
  cbv zeta in H.
  pose proof (H "playbooks" None eq_refl eq_refl) as [P1 P2].
  pose proof (H "tasks" None eq_refl eq_refl) as [T1 T2].
  pose proof (H "hosts" None eq_refl eq_refl) as [H1 H2].
  pose proof (H "results" None eq_refl eq_refl) as [R1 R2].
  assert (F : parse_ara_url (file_url ARA_API_SERVER pk line) = Ok ("files", pk)
              /\ extract_id (IdStr (file_url ARA_API_SERVER pk line)) = Ok pk).
  { unfold file_url. destruct line as [n|]; [destruct (n =? 0)|].
    - exact (H "files" None eq_refl eq_refl).
    - rewrite !append_assoc.
      exact (H "files" (Some ("line-" +:+ py_str n)) eq_refl eq_refl).
    - exact (H "files" None eq_refl eq_refl). }
  destruct F as [F1 F2].
  repeat split;
    first [exact P1|exact T1|exact H1|exact R1|exact F1
          |exact P2|exact T2|exact H2|exact R2|exact F2].
Qed.

End LinkFacts.

Lemma built_links_resolve_witness :
  parse_ara_url accept_bracketed uses_params_312 None (playbook_url None 4307)
  = Ok ("playbooks", 4307)
  /\ extract_id accept_bracketed uses_params_312 None
       (IdStr (file_url None 12 (Some 3))) = Ok 12.
Proof.
  pose proof (built_links_resolve accept_bracketed uses_params_312 None
                "http" "127.0.0.1:8000" 4307 None
                eq_refl eq_refl eq_refl ltac:(lia)) as H1.
  pose proof (built_links_resolve accept_bracketed uses_params_312 None
                "http" "127.0.0.1:8000" 12 (Some 3)
                eq_refl eq_refl eq_refl ltac:(lia)) as H2.
  split; [apply H1|apply H2].
Defined.

(** ** Edge cases of the identifier resolver *)

Section ResolverEdges.

Import StrFacts CharFacts.

Variable check_bracketed_netloc : string -> bool.
Variable uses_params : list string.
Variable ARA_API_SERVER : option string.

Abbreviation urlparse := (urlparse check_bracketed_netloc uses_params).
Abbreviation validate_url_origin :=
  (validate_url_origin check_bracketed_netloc uses_params ARA_API_SERVER).
Abbreviation parse_ara_url :=
  (parse_ara_url check_bracketed_netloc uses_params ARA_API_SERVER).
Abbreviation extract_id :=
  (extract_id check_bracketed_netloc uses_params ARA_API_SERVER).

(** *** White space around an identifier *)

Lemma lstrip_all p a : Str.all p a = true -> Str.lstrip p a = EmptyString.
Proof.
  induction a as [|c a IH]; simpl; [reflexivity|].
  intros [-> Ha]%andb_true_iff. exact (IH Ha).
Qed.

Lemma lstrip_app_all p a s :
  Str.all p a = true -> Str.lstrip p (a +:+ s) = Str.lstrip p s.
Proof.
  induction a as [|c a IH]; [reflexivity|]. rewrite append_cons. simpl.
  intros [-> Ha]%andb_true_iff. exact (IH Ha).
Qed.

Lemma rstrip_all p a : Str.all p a = true -> Str.rstrip p a = EmptyString.
Proof.
  induction a as [|c a IH]; simpl; [reflexivity|].
  intros [-> Ha]%andb_true_iff. rewrite (IH Ha). reflexivity.
Qed.

Lemma rstrip_app_all p s a :
  Str.all p a = true -> Str.rstrip p (s +:+ a) = Str.rstrip p s.
Proof.
  intros Ha. induction s as [|c s IH].
  - rewrite append_nil_l. apply rstrip_all, Ha.
  - rewrite append_cons. simpl. rewrite IH. reflexivity.
Qed.

Lemma strip_padded before s after :
  Str.all Char.isspace before = true -> Str.all Char.isspace after = true ->
  Str.strip (before +:+ s +:+ after) = Str.strip s.
Proof.
  intros Hb Ha. unfold Str.strip. rewrite (lstrip_app_all _ _ _ Hb).
  induction s as [|c s IH].
  - rewrite append_nil_l, (lstrip_all _ _ Ha). reflexivity.
  - rewrite append_cons. simpl. destruct (Char.isspace c); [exact IH|].
    rewrite <- append_cons. apply rstrip_app_all, Ha.
Qed.

(** X2. White space before and after the text of an identifier or a URL
    never changes what [extract_id] and [parse_ara_url] make of it, be it
    a result or an error. *)
Theorem surrounding_white_space_is_ignored before s after :
  Str.all Char.isspace before = true -> Str.all Char.isspace after = true ->
  extract_id (IdStr (before +:+ s +:+ after)) = extract_id (IdStr s)
  /\ parse_ara_url (before +:+ s +:+ after) = parse_ara_url s.
Proof.
  intros Hb Ha. unfold extract_id, parse_ara_url.
  rewrite (strip_padded _ _ _ Hb Ha). split; reflexivity.
Qed.

(** *** The exceptions of the resolver *)

Lemma urlsplit_raises u e :
  urlsplit check_bracketed_netloc u = Raise e -> e = ValueError InvalidIPv6URL.
Proof.
  unfold urlsplit. intros H. repeat case_match; simplify_eq; reflexivity.
Qed.

Lemma urlparse_raises u e :
  urlparse u = Raise e -> e = ValueError InvalidIPv6URL.
Proof.
  unfold urlparse.
  destruct (urlsplit check_bracketed_netloc u) as [[[[[? ?] ?] ?] ?]|e'] eqn:E.
  - repeat case_match; discriminate.
  - intros [= <-]. eapply urlsplit_raises, E.
Qed.

Lemma validate_url_origin_raises u e :
  validate_url_origin u = Raise e -> exists why, e = ValueError why.
Proof.
  unfold validate_url_origin.
  destruct (urlparse u) as [parsed|e1] eqn:E1; cbn [rbind].
  - destruct (negb (Str.nonempty (scheme parsed))
              || negb (Str.nonempty (netloc parsed))); [discriminate|].
    destruct (urlparse (get_web_base ARA_API_SERVER)) as [conf|e2] eqn:E2;
      cbn [rbind].
    + case_bool_decide; [discriminate|]. intros [= <-]. eauto.
    + intros [= <-]. apply urlparse_raises in E2 as ->. eauto.
  - intros [= <-]. apply urlparse_raises in E1 as ->. eauto.
Qed.

Lemma py_int_raises s e : py_int s = Raise e -> exists why, e = ValueError why.
Proof.
  unfold py_int. destruct (NilZero.uint_of_string s); [discriminate|].
  intros [= <-]. eauto.
Qed.

Lemma parse_ara_url_raises s e :
  parse_ara_url s = Raise e -> exists why, e = ValueError why.
Proof.
  unfold parse_ara_url.
  destruct (Str.isdigit (Str.strip s)); [intros [= <-]; eauto|].
  destruct (validate_url_origin (Str.strip s)) as [[]|e1] eqn:E1; cbn [rbind].
  - destruct (urlparse (Str.strip s)) as [parsed|e2] eqn:E2; cbn [rbind].
    + destruct (match_ara_path _) as [[resource digits]|].
      * destruct (py_int digits) as [n|e3] eqn:E3; cbn [rbind]; [discriminate|].
        intros [= <-]. eapply py_int_raises, E3.
      * intros [= <-]. eauto.
    + intros [= <-]. apply urlparse_raises in E2 as ->. eauto.
  - intros [= <-]. eapply validate_url_origin_raises, E1.
Qed.

(** X3. Whatever the argument of a tool is, the only exceptions that
    [extract_id] raises are [ValueError]s, so a tool call whose identifier
    cannot be resolved is always answered as invalid input. *)
Theorem unresolved_identifier_is_invalid_input id e :
  extract_id id = Raise e ->
  (exists why, e = ValueError why)
  /\ handle_call_tool (extract_id id) = inr InvalidInput.
Proof.
  intros H.
  assert (Hv : exists why, e = ValueError why).
  { unfold extract_id in H. destruct id as [n|s]; [discriminate|].
    destruct (Str.isdigit (Str.strip s)).
    - eapply py_int_raises, H.
    - destruct (parse_ara_url (Str.strip s)) as [r|e1] eqn:E1; cbn [rbind] in H;
        [discriminate|].
      injection H as <-. eapply parse_ara_url_raises, E1. }
  split; [exact Hv|]. destruct Hv as [why ->]. rewrite H. reflexivity.
Qed.

(** *** The identifiers resolved from text *)

Lemma py_int_natural s n : py_int s = Ok n -> 0 <= n.
Proof.
  unfold py_int. destruct (NilZero.uint_of_string s) as [d|]; [|discriminate].
  intros [= <-]. unfold Z.of_uint. apply N2Z.is_nonneg.
Qed.

(** X4. The identifiers that the resolver reads off a text are natural
    numbers, and the kinds are non-empty words: [parse_ara_url] returns no
    negative identifier, and neither does [extract_id] on a string. *)
Theorem resolved_identifier_is_natural s :
  (forall kind n,
     parse_ara_url s = Ok (kind, n) ->
     0 <= n /\ Str.nonempty kind = true /\ Str.all Char.isword kind = true)
  /\ (forall n, extract_id (IdStr s) = Ok n -> 0 <= n).
Proof.
  assert (Hparse : forall t kind n,
             parse_ara_url t = Ok (kind, n) ->
             0 <= n /\ Str.nonempty kind = true
             /\ Str.all Char.isword kind = true).
  { intros t kind n. unfold parse_ara_url.
    destruct (Str.isdigit (Str.strip t)); [discriminate|].
    destruct (validate_url_origin (Str.strip t)) as [[]|]; cbn [rbind];
      [|discriminate].
    destruct (urlparse (Str.strip t)) as [parsed|]; cbn [rbind]; [|discriminate].
    destruct (match_ara_path _) as [[resource digits]|] eqn:Em; [|discriminate].
    destruct (py_int digits) as [k|] eqn:Ek; cbn [rbind]; [|discriminate].
    intros [= <- <-]. apply match_ara_path_some in Em as (Hr & Hw & _).
    split; [eapply py_int_natural, Ek|]. auto. }
  split; [apply Hparse|].
  intros n. unfold extract_id. destruct (Str.isdigit (Str.strip s)).
  - apply py_int_natural.
  - destruct (parse_ara_url (Str.strip s)) as [[kind k]|] eqn:E; cbn [rbind];
      [|discriminate].
    intros [= <-]. eapply Hparse, E.
Qed.

(** *** Identifiers written in decimal *)

(** A non-empty string without separators has neither scheme nor network
    location and is its own path. *)
Lemma urlparse_plain t :
  Str.nonempty t = true -> Str.all plain t = true ->
  urlparse t = Ok (mkParseResult "" "" t "" "" "").
Proof.
  intros Hne Hp.
  destruct (all_plain_parts check_bracketed_netloc _ Hp)
    as (_ & Hc0 & Hun & _ & Hcolon & Hslash & Hhash & Hq & Hsemi).
  unfold urlparse, urlsplit.
  rewrite (lstrip_none _ _ Hc0), (remove_none _ _ Hun).
  rewrite (partition_no _ _ Hcolon).
  destruct t as [|c t]; [discriminate|].
  simpl in Hslash. apply andb_true_iff in Hslash as [Hslash0 _].
  rewrite (chop_prefix_head _ _ _ _ Hslash0).
  rewrite (partition_no _ _ Hhash), (partition_no _ _ Hq).
  rewrite (contains_no _ _ Hsemi), andb_false_r. reflexivity.
Qed.

Lemma strip_plain t : Str.all plain t = true -> Str.strip t = t.
Proof.
  intros Hp. destruct (all_plain_parts check_bracketed_netloc _ Hp) as (Hsp & _).
  unfold Str.strip. rewrite (lstrip_none _ _ Hsp). apply rstrip_none, Hsp.
Qed.

Lemma py_str_negative n :
  n < 0 ->
  exists digits, py_str n = String "-" digits
                 /\ Str.all Char.isdecimal digits = true.
Proof.
  intros Hn. destruct n as [|p|p]; try lia.
  unfold py_str. simpl Z.to_int. simpl NilZero.string_of_int.
  eexists. split; [reflexivity|].
  unfold NilZero.string_of_uint.
  destruct (Pos.to_uint p); try reflexivity; apply string_of_uint_decimal.
Qed.

(** X5. A natural number written in decimal, with no more digits than
    the interpreter converts under every configuration, is resolved by
    [extract_id] to itself. A negative number is accepted as an integer
    argument and returned as it is, but written as text it is rejected
    with the could-not-parse [ValueError]. *)
Theorem decimal_identifier_resolves n :
  let bound := 10 ^ Z.of_nat str_digits_check_threshold in
  extract_id (IdInt n) = Ok n
  /\ (0 <= n < bound -> extract_id (IdStr (py_str n)) = Ok n)
  /\ (- bound < n < 0 ->
      extract_id (IdStr (py_str n))
      = Raise (ValueError (CouldNotParse (py_str n)))).
Proof.
  intros bound. split; [reflexivity|]. split.
  - intros [Hn _]. destruct (py_str_decimal n Hn) as (Hne & Hd & Hint).
    assert (Hp : Str.all plain (py_str n) = true).
    { revert Hd. apply all_impl. intros c Hc.
      apply word_plain, decimal_word, Hc. }
    unfold extract_id. rewrite (strip_plain _ Hp).
    unfold Str.isdigit. rewrite Hne.
    rewrite (all_impl Char.isdecimal Char.isdigit _) by
      (try exact Hd; intros c Hc; unfold Char.isdigit; rewrite Hc; reflexivity).
    exact Hint.
  - intros [_ Hn]. destruct (py_str_negative n Hn) as (digits & E & Hd).
    assert (Hp : Str.all plain (py_str n) = true).
    { rewrite E. simpl. revert Hd. apply all_impl. intros c Hc.
      apply word_plain, decimal_word, Hc. }
    assert (Hnd : Str.isdigit (py_str n) = false) by (rewrite E; reflexivity).
    assert (Hne : Str.nonempty (py_str n) = true) by (rewrite E; reflexivity).
    unfold extract_id, parse_ara_url, validate_url_origin.
    rewrite !(strip_plain _ Hp), Hnd, (urlparse_plain _ Hne Hp).
    cbn [rbind scheme netloc path Str.nonempty negb orb].
    destruct (all_plain_parts check_bracketed_netloc _ Hp) as (_ & _ & _ & _ & _ & Hslash & _).
    rewrite rstrip_none
      by (revert Hslash; apply all_impl; intros c; unfold Str.no;
          rewrite Ascii.eqb_sym; trivial).
    rewrite E. reflexivity.
Qed.

End ResolverEdges.

Lemma surrounding_white_space_witness :
  extract_id accept_bracketed uses_params_312 None
    (IdStr ("  " +:+ "/playbooks/7" +:+ String "010" ""))
  = extract_id accept_bracketed uses_params_312 None (IdStr "/playbooks/7").
Proof.
  apply (surrounding_white_space_is_ignored accept_bracketed uses_params_312
           None "  " "/playbooks/7" (String "010" "")); reflexivity.
Defined.

Lemma unresolved_identifier_witness :
  handle_call_tool
    (extract_id accept_bracketed uses_params_312 None (IdStr "latest"))
  = inr InvalidInput.
Proof.
  apply (unresolved_identifier_is_invalid_input accept_bracketed
           uses_params_312 None (IdStr "latest")
           (ValueError (CouldNotParse "latest"))).
  reflexivity.
Defined.

(** ** A server under a path prefix *)

Section PathPrefixFacts.

Import StrFacts CharFacts.

Variable check_bracketed_netloc : string -> bool.
Variable uses_params : list string.
Variable ARA_API_SERVER : option string.

Abbreviation urlparse := (urlparse check_bracketed_netloc uses_params).
Abbreviation validate_url_origin :=
  (validate_url_origin check_bracketed_netloc uses_params ARA_API_SERVER).
Abbreviation parse_ara_url :=
  (parse_ara_url check_bracketed_netloc uses_params ARA_API_SERVER).
Abbreviation extract_id :=
  (extract_id check_bracketed_netloc uses_params ARA_API_SERVER).
Abbreviation get_web_base := (get_web_base ARA_API_SERVER).

(** The characters of a path without parameters, query and fragment. *)
Let in_path (c : ascii) : bool := plain c || Ascii.eqb c "/".

Lemma in_path_all (q : ascii -> bool) p :
  (forall c, plain c = true -> q c = true) -> q "/"%char = true ->
  Str.all in_path p = true -> Str.all q p = true.
Proof.
  intros Hq Hslash. apply all_impl. intros c [Hc|Hc]%orb_true_iff; [auto|].
  apply Ascii.eqb_eq in Hc. subst c. exact Hslash.
Qed.

(** A scheme, a network location, a path that starts with a slash, and
    possibly a fragment. *)
Lemma urlparse_origin_path sch host p (anchor : option string) :
  is_scheme sch = true -> is_netloc check_bracketed_netloc host = true ->
  Str.all in_path (String "/" p) = true ->
  Str.all plain (default "" anchor) = true ->
  urlparse (sch +:+ "://" +:+ host +:+ String "/" p
            +:+ match anchor with Some f => "#" +:+ f | None => "" end)
  = Ok (mkParseResult (Str.lower sch) host (String "/" p) "" ""
          (default "" anchor)).
Proof.
  intros Hsch Hhost Hp Hanchor.
  assert (Hshape : exists c0 sch', sch = String c0 sch'
                     /\ Char.is_ascii_alpha c0 = true
                     /\ Str.all Char.is_scheme_char sch = true).
  { unfold is_scheme in Hsch. destruct sch as [|c0 sch']; [discriminate|].
    apply andb_true_iff in Hsch as [? ?]. eauto. }
  destruct Hshape as (c0 & sch' & Es & Hc0 & Hsc).
  pose proof (alpha_not_stripped _ Hc0) as Hc0'.
  rewrite !andb_true_iff, !negb_true_iff in Hc0'.
  destruct Hc0' as [[_ Hctl] _].
  pose proof Hhost as Hhost'. unfold is_netloc in Hhost'.
  apply andb_true_iff in Hhost' as [[Hne Hhc]%andb_true_iff Hbr].
  assert (Hcolon : Str.all (Str.no ":") sch = true).
  { revert Hsc. apply all_impl. intros c Hc.
    pose proof (scheme_char_clean c Hc) as H.
    rewrite !andb_true_iff in H. tauto. }
  set (path := String "/" p) in *.
  set (tail := match anchor with Some f => "#" +:+ f | None => "" end).
  assert (Htail : Str.all (fun c => negb (Char.is_unsafe_url_byte c)) tail
                  = true).
  { unfold tail. destruct anchor as [f|]; [|reflexivity].
    cbn [default from_option id] in Hanchor. simpl. revert Hanchor.
    apply all_impl. intros c Hc. apply plain_parts in Hc.
    rewrite negb_true_iff. tauto. }
  unfold urlparse, urlsplit.
  replace (Str.lstrip Char.is_c0_control_or_space
             (sch +:+ "://" +:+ host +:+ path +:+ tail))
    with (sch +:+ "://" +:+ host +:+ path +:+ tail)
    by (rewrite Es; symmetry; apply (lstrip_keep _ _ _ Hctl)).
  rewrite (remove_none _ (sch +:+ "://" +:+ host +:+ path +:+ tail)).
  2:{ assert (H1 : Str.all (fun c => negb (Char.is_unsafe_url_byte c)) sch = true).
      { revert Hsc. apply all_impl. intros c Hc.
        pose proof (scheme_char_clean c Hc) as H.
        rewrite !andb_true_iff in H. tauto. }
      assert (H2 : Str.all (fun c => negb (Char.is_unsafe_url_byte c)) host = true).
      { revert Hhc. apply all_impl. intros c Hc.
        rewrite !andb_true_iff, !negb_true_iff in Hc.
        destruct Hc as [[_ Hc] _]. revert c Hc. by_cases. }
      assert (H3 : Str.all (fun c => negb (Char.is_unsafe_url_byte c)) path = true).
      { revert Hp. apply in_path_all; [|reflexivity]. intros c Hc.
        apply plain_parts in Hc. rewrite negb_true_iff. tauto. }
      rewrite !all_app, H1, H2, H3, Htail. reflexivity. }
  rewrite (partition_app_no ":" sch _ Hcolon).
  change (Str.partition ":" ("://" +:+ host +:+ path +:+ tail))
    with (EmptyString, Some ("//" +:+ host +:+ path +:+ tail)).
  cbn [fst snd]. rewrite append_nil_r.
  rewrite Es in Hsch |- *. cbn [is_scheme] in Hsch. rewrite Hsch.
  rewrite chop_prefix_app.
  replace (_splitnetloc (host +:+ path +:+ tail)) with (host, path +:+ tail).
  2:{ symmetry. apply span_app; [|reflexivity].
      revert Hhc. apply all_impl. intros c Hc.
      rewrite !andb_true_iff in Hc. tauto. }
  replace (xorb (Str.contains "[" host) (Str.contains "]" host)) with false
    by (revert Hbr;
        destruct (Str.contains "[" host), (Str.contains "]" host);
        simpl; congruence).
  replace (Str.contains "[" host && Str.contains "]" host
           && negb (check_bracketed_netloc host)) with false
    by (revert Hbr;
        destruct (Str.contains "[" host), (Str.contains "]" host);
        simpl; try intros ->; reflexivity).
  assert (Hhash : Str.all (Str.no "#") path = true)
    by (revert Hp; apply in_path_all; [|reflexivity];
        intros c Hc; apply plain_parts in Hc; tauto).
  assert (Hq : Str.all (Str.no "?") path = true)
    by (revert Hp; apply in_path_all; [|reflexivity];
        intros c Hc; apply plain_parts in Hc; tauto).
  assert (Hsemi : Str.all (Str.no ";") path = true)
    by (revert Hp; apply in_path_all; [|reflexivity];
        intros c Hc; apply plain_parts in Hc; tauto).
  subst tail. destruct anchor as [f|]; cbn [default from_option id].
  - rewrite (partition_app_no _ _ _ Hhash).
    change ("#" +:+ f) with (String "#" f). rewrite partition_head.
    cbn [fst snd]. rewrite append_nil_r.
    rewrite (partition_no _ _ Hq), (contains_no _ _ Hsemi), andb_false_r.
    reflexivity.
  - rewrite append_nil_r.
    rewrite (partition_no _ _ Hhash), (partition_no _ _ Hq).
    rewrite (contains_no _ _ Hsemi), andb_false_r. reflexivity.
Qed.

(** The longest prefix of a class ends at the end of the string or at a
    character that is not of the class. *)
Lemma span_stop p a :
  Str.span p a = (a, EmptyString)
  \/ exists w c r, a = w +:+ String c r /\ Str.all p w = true /\ p c = false.
Proof.
  induction a as [|d a IH]; [left; reflexivity|]. simpl.
  destruct (p d) eqn:Hd.
  - destruct IH as [->|(w & c & r & -> & Hw & Hc)]; [left; reflexivity|].
    right. exists (String d w), c, r. simpl. rewrite Hd, Hw. auto.
  - right. exists EmptyString, d, a. auto.
Qed.

Lemma py_str_plain n : Str.all plain (py_str n) = true.
Proof.
  destruct (Z.lt_ge_cases n 0) as [Hn|Hn].
  - destruct (py_str_negative n Hn) as (digits & -> & Hd). simpl.
    revert Hd. apply all_impl. intros c Hc.
    apply word_plain, decimal_word, Hc.
  - destruct (py_str_decimal n Hn) as (_ & Hd & _).
    revert Hd. apply all_impl. intros c Hc.
    apply word_plain, decimal_word, Hc.
Qed.

(** A link to a record of the kind [kind], with or without an anchor,
    under a server whose address has one more path segment. *)
Lemma link_under_prefix_is_rejected sch host prefix k0 kind pk anchor :
  is_scheme sch = true -> is_netloc check_bracketed_netloc host = true ->
  Str.nonempty prefix = true -> Str.all plain prefix = true ->
  get_web_base = sch +:+ "://" +:+ host +:+ "/" +:+ prefix ->
  Char.isdecimal k0 = false -> Str.all Char.isword (String k0 kind) = true ->
  0 <= pk ->
  Str.all plain (default "" anchor) = true ->
  let url :=
    (get_web_base +:+ "/" +:+ String k0 kind +:+ "/" +:+ py_str pk +:+ ".html")
    +:+ match anchor with Some f => "#" +:+ f | None => "" end in
  extract_id (IdStr url) = Raise (ValueError (CouldNotParse url)).
Proof.
  intros Hsch Hhost Hne Hplain Hbase Hk0 Hkind Hpk Hanchor url.
  destruct (py_str_decimal pk Hpk) as (Hdne & Hd & _).
  set (tail := "/" +:+ String k0 kind +:+ "/" +:+ py_str pk +:+ ".html") in *.
  set (hash := match anchor with Some f => "#" +:+ f | None => "" end) in *.
  assert (Hprefix : Str.all in_path ("/" +:+ prefix) = true).
  { simpl. revert Hplain. apply all_impl. intros c Hc. unfold in_path.
    rewrite Hc. reflexivity. }
  assert (Htail : Str.all in_path tail = true).
  { unfold tail. rewrite !all_app.
    rewrite (all_impl Char.isword in_path (String k0 kind)),
      (all_impl Char.isdecimal in_path (py_str pk)); auto;
      intros c Hc; unfold in_path;
      [rewrite (word_plain c (decimal_word c Hc))|rewrite (word_plain c Hc)];
      reflexivity. }
  assert (Eurl : url = sch +:+ "://" +:+ host
                       +:+ String "/" (prefix +:+ tail) +:+ hash).
  { unfold url. rewrite Hbase.
    change (String "/" (prefix +:+ tail) +:+ hash)
      with ("/" +:+ ((prefix +:+ tail) +:+ hash)).
    rewrite !append_assoc. reflexivity. }
  assert (Hpath : Str.all in_path (String "/" (prefix +:+ tail)) = true).
  { change (String "/" (prefix +:+ tail)) with (("/" +:+ prefix) +:+ tail).
    rewrite all_app, Hprefix, Htail. reflexivity. }
  assert (Hshape : exists c0 sch', sch = String c0 sch'
                     /\ Char.is_ascii_alpha c0 = true
                     /\ Str.all Char.is_scheme_char sch = true).
  { unfold is_scheme in Hsch. destruct sch as [|c0 sch']; [discriminate|].
    apply andb_true_iff in Hsch as [? ?]. eauto. }
  destruct Hshape as (c0 & sch' & Es & Hc0 & Hsc).
  pose proof (alpha_not_stripped _ Hc0) as Hc0'.
  rewrite !andb_true_iff, !negb_true_iff in Hc0'.
  destruct Hc0' as [[Hsp0 _] Hdig0].
  pose proof Hhost as Hhost'. unfold is_netloc in Hhost'.
  apply andb_true_iff in Hhost' as [[Hhne Hhc]%andb_true_iff _].
  assert (Hnospace : Str.all (fun c => negb (Char.isspace c)) url = true).
  { assert (H1 : Str.all (fun c => negb (Char.isspace c)) sch = true).
    { revert Hsc. apply all_impl. intros c Hc.
      pose proof (scheme_char_clean c Hc) as H.
      rewrite !andb_true_iff in H. tauto. }
    assert (H2 : Str.all (fun c => negb (Char.isspace c)) host = true).
    { revert Hhc. apply all_impl. intros c Hc.
      rewrite !andb_true_iff in Hc. tauto. }
    assert (H3 : Str.all (fun c => negb (Char.isspace c))
                   (String "/" (prefix +:+ tail)) = true).
    { revert Hpath. apply in_path_all; [|reflexivity]. intros c Hc.
      apply plain_parts in Hc. rewrite negb_true_iff. tauto. }
    assert (H4 : Str.all (fun c => negb (Char.isspace c)) hash = true).
    { unfold hash. destruct anchor as [f|]; [|reflexivity].
      cbn [default from_option id] in Hanchor. simpl. revert Hanchor.
      apply all_impl. intros c Hc. apply plain_parts in Hc.
      rewrite negb_true_iff. tauto. }
    rewrite Eurl, !all_app, H1, H2, H3, H4. reflexivity. }
  assert (Hstrip : Str.strip url = url).
  { unfold Str.strip. rewrite (lstrip_none _ _ Hnospace).
    apply rstrip_none, Hnospace. }
  assert (Hnd : Str.isdigit url = false).
  { rewrite Eurl, Es. unfold Str.isdigit. rewrite !append_cons. simpl.
    rewrite Hdig0. reflexivity. }
  assert (Hparse : urlparse url
                   = Ok (mkParseResult (Str.lower sch) host
                           (String "/" (prefix +:+ tail)) "" ""
                           (default "" anchor))).
  { rewrite Eurl. apply urlparse_origin_path; assumption. }
  assert (Hconf : urlparse get_web_base
                  = Ok (mkParseResult (Str.lower sch) host
                          (String "/" prefix) "" "" "")).
  { rewrite Hbase.
    pose proof (urlparse_origin_path sch host prefix None Hsch Hhost Hprefix
                  eq_refl) as H.
    rewrite !append_nil_r in H. exact H. }
  unfold extract_id, parse_ara_url, validate_url_origin.
  rewrite !Hstrip, Hnd, Hparse. cbn [rbind scheme netloc path].
  replace (Str.nonempty (Str.lower sch)) with true by (rewrite Es; reflexivity).
  rewrite Hhne. cbn [negb orb]. rewrite Hconf. cbn [rbind].
  unfold origin. cbn [scheme netloc].
  rewrite bool_decide_eq_true_2 by reflexivity. cbn [rbind].
  replace (Str.rstrip (Ascii.eqb "/") (String "/" (prefix +:+ tail)))
    with (String "/" (prefix +:+ tail)).
  2:{ symmetry.
      change (String "/" (prefix +:+ tail))
        with (("/" +:+ prefix) +:+ tail).
      unfold tail.
      replace ("/" +:+ String k0 kind +:+ "/" +:+ py_str pk +:+ ".html")
        with (("/" +:+ String k0 kind +:+ "/") +:+ (py_str pk +:+ ".html"))
        by (rewrite !append_assoc; reflexivity).
      rewrite <- append_assoc. apply rstrip_app_fixed.
      - rewrite rstrip_app_none; [reflexivity|].
        revert Hd. apply all_impl. clear. by_cases.
      - destruct (py_str pk); [discriminate|]. rewrite append_cons.
        discriminate. }
  replace (match_ara_path (String "/" (prefix +:+ tail))) with (@None (string * string));
    [reflexivity|].
  unfold match_ara_path.
  change (Str.chop_prefix "/" (String "/" (prefix +:+ tail)))
    with (Some (prefix +:+ tail)).
  cbv beta iota.
  destruct (span_stop Char.isword prefix) as [Hall|(w & c & r & E & Hw & Hc)].
  - (* the segment is a word: the next one is not a number *)
    assert (Hword : Str.all Char.isword prefix = true).
    { pose proof (span_fst_all Char.isword prefix) as H.
      rewrite Hall in H. exact H. }
    assert (Hspan : Str.span Char.isword (prefix +:+ tail) = (prefix, tail))
      by (unfold tail; apply (span_app Char.isword prefix "/" _ Hword eq_refl)).
    assert (Hdig : Str.span Char.isdecimal
                     (String k0 kind +:+ "/" +:+ py_str pk +:+ ".html")
                   = (EmptyString,
                      String k0 kind +:+ "/" +:+ py_str pk +:+ ".html"))
      by (rewrite append_cons; cbn [Str.span]; rewrite Hk0; reflexivity).
    rewrite Hspan.
    change (Str.chop_prefix "/" tail)
      with (Some (String k0 kind +:+ "/" +:+ py_str pk +:+ ".html")).
    cbv beta iota. rewrite Hdig. cbn [Str.nonempty].
    rewrite andb_false_r. reflexivity.
  - (* the segment is not a word: no slash follows its first word *)
    assert (Hcplain : Str.no "/" c = true).
    { rewrite E, all_app in Hplain. apply andb_true_iff in Hplain as [_ H].
      simpl in H. apply andb_true_iff in H as [H _].
      apply plain_parts in H. tauto. }
    rewrite E, append_assoc, append_cons.
    rewrite (span_app Char.isword w c _ Hw Hc).
    rewrite (chop_prefix_head _ _ _ _ Hcplain). reflexivity.
Qed.

(** X16. When the address of the configured server has a path segment
    after its network location, no link that the server builds is
    resolved by [extract_id], with or without a line anchor: the path of
    the link has one segment too many for the pattern, and the
    could-not-parse [ValueError] is raised. *)
Theorem links_under_a_path_prefix_are_rejected sch host prefix pk :
  is_scheme sch = true -> is_netloc check_bracketed_netloc host = true ->
  Str.nonempty prefix = true -> Str.all plain prefix = true ->
  get_web_base = sch +:+ "://" +:+ host +:+ "/" +:+ prefix ->
  0 <= pk ->
  let rejected url := extract_id (IdStr url) = Raise (ValueError (CouldNotParse url)) in
  rejected (playbook_url ARA_API_SERVER pk)
  /\ rejected (task_url ARA_API_SERVER pk)
  /\ rejected (host_url ARA_API_SERVER pk)
  /\ rejected (result_url ARA_API_SERVER pk)
  /\ forall line, rejected (file_url ARA_API_SERVER pk line).
Proof.
  intros Hsch Hhost Hne Hplain Hbase Hpk rejected.
  pose proof (fun k0 kind anchor Hk0 Hkind =>
                link_under_prefix_is_rejected sch host prefix k0 kind pk anchor
                  Hsch Hhost Hne Hplain Hbase Hk0 Hkind Hpk) as H.
  cbv zeta in H. unfold rejected.
  assert (Hplainly : forall k0 kind, Char.isdecimal k0 = false ->
            Str.all Char.isword (String k0 kind) = true ->
            let url := get_web_base +:+ "/" +:+ String k0 kind +:+ "/"
                       +:+ py_str pk +:+ ".html" in
            extract_id (IdStr url) = Raise (ValueError (CouldNotParse url))).
  { intros k0 kind Hk0 Hkind url.
    pose proof (H k0 kind None Hk0 Hkind eq_refl) as Hrej.
    rewrite !append_nil_r in Hrej. exact Hrej. }
  cbv zeta in Hplainly.
  repeat split.
  - exact (Hplainly "p"%char "laybooks" eq_refl eq_refl).
  - exact (Hplainly "t"%char "asks" eq_refl eq_refl).
  - exact (Hplainly "h"%char "osts" eq_refl eq_refl).
  - exact (Hplainly "r"%char "esults" eq_refl eq_refl).
  - intros line. unfold file_url. cbv zeta.
    assert (Hnone := Hplainly "f"%char "iles" eq_refl eq_refl).
    destruct line as [n|]; [|exact Hnone].
    destruct (n =? 0); [exact Hnone|].
    apply (H "f"%char "iles" (Some ("line-" +:+ py_str n)) eq_refl eq_refl).
    cbn [default from_option id]. rewrite all_app. apply py_str_plain.
Qed.

End PathPrefixFacts.

(** X16 for a server under [/my-ara]: the link to a file, with the anchor
    of its line 12, is not resolved. *)
Lemma links_under_a_path_prefix_witness :
  let server := Some "https://ops.example/my-ara/" in
  file_url server 42 (Some 12) = "https://ops.example/my-ara/files/42.html#line-12"
  /\ extract_id accept_bracketed uses_params_312 server
       (IdStr (file_url server 42 (Some 12)))
     = Raise (ValueError
                (CouldNotParse "https://ops.example/my-ara/files/42.html#line-12")).
Proof.
  split; [reflexivity|].
  apply (links_under_a_path_prefix_are_rejected accept_bracketed
           uses_params_312 (Some "https://ops.example/my-ara/")
           "https" "ops.example" "my-ara" 42
           eq_refl eq_refl eq_refl eq_refl eq_refl ltac:(lia)).
Defined.

(** ** The formatting helpers *)

Section FormatFacts.

Import StrFacts CharFacts.

Lemma split_head c s :
  match str_split c s with first :: _ => first | [] => EmptyString end
  = Str.before c s.
Proof.
  unfold Str.before. induction s as [|d s IH]; [reflexivity|]. simpl.
  destruct (Ascii.eqb d c); [reflexivity|].
  destruct (str_split c s) as [|part parts], (Str.partition c s) as [a b];
    simpl in *; congruence.
Qed.

Lemma split_nonempty c s : str_split c s <> [].
Proof.
  destruct s as [|d s]; simpl; [discriminate|].
  destruct (Ascii.eqb d c); [discriminate|].
  destruct (str_split c s); discriminate.
Qed.

Lemma before_no c s : Str.all (Str.no c) (Str.before c s) = true.
Proof.
  unfold Str.before. induction s as [|d s IH]; [reflexivity|]. simpl.
  destruct (Ascii.eqb d c) eqn:E; [reflexivity|].
  destruct (Str.partition c s) as [a b]. simpl in *.
  unfold Str.no at 1. rewrite E. exact IH.
Qed.

Lemma before_none c s : Str.all (Str.no c) s = true -> Str.before c s = s.
Proof. intros H. unfold Str.before. rewrite (partition_no _ _ H). reflexivity. Qed.

Lemma replace_none c by_ s :
  Str.all (Str.no c) s = true -> str_replace c by_ s = s.
Proof.
  induction s as [|d s IH]; simpl; [reflexivity|].
  intros [Hd Hs]%andb_true_iff. apply negb_true_iff in Hd.
  rewrite Hd, (IH Hs). reflexivity.
Qed.

Lemma replace_app c by_ a b :
  str_replace c by_ (a +:+ b) = str_replace c by_ a +:+ str_replace c by_ b.
Proof.
  induction a as [|d a IH]; [reflexivity|]. rewrite append_cons. simpl.
  rewrite IH. destruct (Ascii.eqb d c); [|reflexivity].
  rewrite append_assoc. reflexivity.
Qed.

Lemma split_no c s : Str.all (Str.no c) s = true -> str_split c s = [s].
Proof.
  induction s as [|d s IH]; simpl; [reflexivity|].
  intros [Hd Hs]%andb_true_iff. apply negb_true_iff in Hd.
  rewrite Hd, (IH Hs). reflexivity.
Qed.

Lemma split_app_no c a rest :
  Str.all (Str.no c) a = true ->
  str_split c (a +:+ String c rest) = a :: str_split c rest.
Proof.
  induction a as [|d a IH]; simpl.
  - intros _. rewrite Ascii.eqb_refl. reflexivity.
  - intros [Hd Ha]%andb_true_iff. apply negb_true_iff in Hd.
    rewrite Hd, (IH Ha). reflexivity.
Qed.

Lemma split_parts_no c s part :
  part ∈ str_split c s -> Str.all (Str.no c) part = true.
Proof.
  revert part. induction s as [|d s IH]; simpl; intros part.
  - intros ->%list_elem_of_singleton. reflexivity.
  - destruct (Ascii.eqb d c) eqn:E.
    + intros [->|Hin]%elem_of_cons; [reflexivity|]. apply IH, Hin.
    + destruct (str_split c s) as [|p ps].
      * intros ->%list_elem_of_singleton. simpl.
        unfold Str.no. rewrite E. reflexivity.
      * intros [->|Hin]%elem_of_cons.
        -- simpl. unfold Str.no at 1. rewrite E. apply IH. left.
        -- apply IH. right. exact Hin.
Qed.

(** Text joined with a separator that its parts do not contain splits
    back into the parts. *)
Lemma split_join c parts :
  parts <> [] ->
  (forall part, part ∈ parts -> Str.all (Str.no c) part = true) ->
  str_split c (str_join (String c "") parts) = parts.
Proof.
  induction parts as [|p rest IH]; [contradiction|]. intros _ Hno.
  destruct rest as [|q rest].
  - apply split_no, Hno. left.
  - change (str_join (String c "") (p :: q :: rest))
      with (p +:+ String c (str_join (String c "") (q :: rest))).
    rewrite split_app_no by (apply Hno; left).
    rewrite IH; [reflexivity|discriminate|].
    intros part Hin. apply Hno. right. exact Hin.
Qed.

(** X6. [format_timestamp] never shows a dot. Of a timestamp with a
    fraction of a second it keeps what is before the dot and drops the
    rest, the time-zone letter [Z] included; of a timestamp without a
    fraction that ends in [Z] it turns the [Z] into [ UTC]. *)
Theorem format_timestamp_cuts_at_the_dot date :
  date <> EmptyString ->
  Str.all (Str.no ".") date = true -> Str.all (Str.no "Z") date = true ->
  (forall rest, format_timestamp (Some (date +:+ "." +:+ rest)) = date)
  /\ format_timestamp (Some (date +:+ "Z")) = date +:+ " UTC"
  /\ format_timestamp (Some date) = date
  /\ forall ts, Str.all (Str.no ".") (format_timestamp ts) = true.
Proof.
  intros Hne Hdot HZ. repeat split.
  - intros rest. unfold format_timestamp.
    destruct (date +:+ "." +:+ rest) eqn:E;
      [destruct date; [contradiction|discriminate]|]. rewrite <- E.
    rewrite split_head, replace_app, (replace_none _ _ _ HZ).
    rewrite replace_app. change (str_replace "Z" " UTC" ".") with ".".
    rewrite (before_app_no _ _ _ Hdot). rewrite append_cons, before_head.
    apply append_nil_r.
  - unfold format_timestamp.
    destruct (date +:+ "Z") eqn:E;
      [destruct date; [contradiction|discriminate]|]. rewrite <- E.
    rewrite split_head, replace_app, (replace_none _ _ _ HZ).
    apply before_none. rewrite all_app, Hdot. reflexivity.
  - unfold format_timestamp. destruct date; [contradiction|].
    rewrite split_head, (replace_none _ _ _ HZ). apply before_none, Hdot.
  - intros [[|c ts]|]; try reflexivity.
    unfold format_timestamp. rewrite split_head. apply before_no.
Qed.

Lemma range_length start stop :
  length (py_range start stop) = Z.to_nat (stop - start).
Proof. unfold py_range. rewrite length_map, length_seq. reflexivity. Qed.

Lemma range_lookup start stop (k : nat) :
  (k < Z.to_nat (stop - start))%nat ->
  py_range start stop !! k = Some (start + Z.of_nat k).
Proof.
  intros Hk. unfold py_range. rewrite list_lookup_fmap.
  rewrite lookup_seq_lt by exact Hk. reflexivity.
Qed.

Lemma spaces_no c k :
  Str.no c " "%char = true ->
  Str.all (Str.no c) (string_of_list_ascii (repeat " "%char k)) = true.
Proof.
  intros Hc. induction k as [|k IH]; simpl; [reflexivity|].
  rewrite Hc, IH. reflexivity.
Qed.

Lemma snippet_line_one_line lines target i :
  0 <= i ->
  (forall line, line ∈ lines -> Str.all (Str.no "010") line = true) ->
  Str.all (Str.no "010") (snippet_line lines target i) = true.
Proof.
  intros Hi Hlines. unfold snippet_line, rjust.
  destruct (py_str_decimal (i + 1) ltac:(lia)) as (_ & Hd & _).
  assert (Hnum : Str.all (Str.no "010") (py_str (i + 1)) = true).
  { revert Hd. apply all_impl. clear. by_cases. }
  assert (Hline : Str.all (Str.no "010")
                    (default EmptyString (lines !! Z.to_nat i)) = true).
  { destruct (lines !! Z.to_nat i) as [line|] eqn:E; [|reflexivity].
    apply Hlines. eapply list_elem_of_lookup_2, E. }
  rewrite !all_app, Hnum, Hline, spaces_no by reflexivity.
  destruct (i =? target); reflexivity.
Qed.

(** X7. For a line number within the content and a context that is not
    negative, the text that [extract_code_snippet] returns has one line
    for each line of the content from [context] lines before to [context]
    lines after the line asked for, as far as the content goes: at least
    the line itself and at most [2 * context + 1] lines. Each of them
    shows its number in the content and the line as it is, and the line
    asked for, and no other, carries the marker. *)
Theorem code_snippet_shows_the_lines_around content line_number context :
  content <> EmptyString ->
  let lines := str_split "010" content in
  let total := Z.of_nat (length lines) in
  1 <= line_number <= total -> 0 <= context ->
  let start := Z.max 0 (line_number - 1 - context) in
  let stop := Z.min total (line_number + context) in
  let shown :=
    str_split "010" (extract_code_snippet content line_number context) in
  Z.of_nat (length shown) = stop - start
  /\ 1 <= stop - start <= 2 * context + 1
  /\ forall i, start <= i < stop ->
       exists line,
         lines !! Z.to_nat i = Some line
         /\ shown !! Z.to_nat (i - start)
            = Some ("  " +:+ (if i + 1 =? line_number then ">>>" else "   ")
                    +:+ " " +:+ rjust 4 (py_str (i + 1)) +:+ " | " +:+ line).
Proof.
  intros Hne lines total Hln Hctx start stop shown.
  assert (Hshown : shown
                   = List.map (snippet_line lines (line_number - 1))
                       (py_range start stop)).
  { unfold shown, extract_code_snippet.
    destruct content as [|c content]; [contradiction|].
    cbn [Str.nonempty negb]. fold lines. fold total.
    replace ((line_number - 1 <? 0) || (total <=? line_number - 1)) with false
      by (symmetry; apply orb_false_iff; split; [apply Z.ltb_ge|apply Z.leb_gt];
          lia).
    replace (Z.min total (line_number - 1 + context + 1)) with stop
      by (unfold stop; f_equal; lia).
    fold start. apply split_join.
    - intros E. apply (f_equal (@length _)) in E.
      rewrite length_map, range_length in E. simpl in E. unfold start, stop in *.
      lia.
    - intros part Hin. apply list_elem_of_In, in_map_iff in Hin as (i & <- & Hin).
      apply snippet_line_one_line.
      + unfold py_range in Hin. apply in_map_iff in Hin as (k & <- & _).
        unfold start. lia.
      + intros line. apply split_parts_no. }
  rewrite Hshown, length_map, range_length. unfold start, stop in *.
  split; [lia|]. split; [lia|].
  intros i Hi.
  destruct (lines !! Z.to_nat i) as [line|] eqn:E.
  - exists line. split; [reflexivity|].
    rewrite list_lookup_fmap, range_lookup by lia.
    replace (Z.max 0 (line_number - 1 - context)
             + Z.of_nat (Z.to_nat (i - Z.max 0 (line_number - 1 - context))))
      with i by lia.
    cbn [fmap option_fmap option_map]. unfold snippet_line. rewrite E.
    replace (i =? line_number - 1) with (i + 1 =? line_number)
      by (destruct (Z.eqb_spec (i + 1) line_number),
                   (Z.eqb_spec i (line_number - 1)); lia || reflexivity).
    reflexivity.
  - apply lookup_ge_None in E. unfold total in *. lia.
Qed.

End FormatFacts.

Lemma format_timestamp_witness :
  format_timestamp (Some "2020-04-18T09:41:03.918367Z") = "2020-04-18T09:41:03"
  /\ format_timestamp (Some "2020-04-18T09:41:03Z") = "2020-04-18T09:41:03 UTC".
Proof.
  destruct (format_timestamp_cuts_at_the_dot "2020-04-18T09:41:03"
              ltac:(discriminate) eq_refl eq_refl) as (H1 & H2 & _).
  split; [exact (H1 "918367Z")|exact H2].
Defined.

Lemma code_snippet_witness :
  let shown := str_split "010" (extract_code_snippet demo_playbook_file 2 1) in
  Z.of_nat (length shown) = 3
  /\ shown !! 1%nat = Some "  >>>    2 |   tasks:".
Proof.
  destruct (code_snippet_shows_the_lines_around demo_playbook_file 2 1
              ltac:(discriminate) ltac:(vm_compute; split; discriminate)
              ltac:(lia))
    as (Hlen & _ & Hlines).
  split; [exact Hlen|].
  destruct (Hlines 1 ltac:(vm_compute; split; [discriminate|reflexivity]))
    as (line & Hline & Hshown).
  injection Hline as <-. exact Hshown.
Defined.

(** ** The reports of the troubleshooting tools *)

Section ReportFacts.

Variable check_bracketed_netloc : string -> bool.
Variable uses_params : list string.
Variable ARA_API_SERVER : option string.
Variable ara : ARAServer.
Variable format_facts : list (string * json) -> result (list string).

Abbreviation handle_troubleshoot_host :=
  (handle_troubleshoot_host check_bracketed_netloc uses_params ARA_API_SERVER
     ara format_facts).
Abbreviation handle_troubleshoot_playbook :=
  (handle_troubleshoot_playbook check_bracketed_netloc uses_params
     ARA_API_SERVER ara).

(** X8. Whatever the server answers, one call of [troubleshoot_host]
    sends at most 13 requests: one for the host, the two list queries, and
    the fetches of at most 10 full results. *)
Theorem troubleshoot_host_sends_at_most_13_requests id log :
  exists issued,
    snd (handle_troubleshoot_host id log) = log ++ issued
    /\ (length issued <= 13)%nat
    /\ (length (fetches issued) <= 11)%nat.
Proof.
  unfold handle_troubleshoot_host, bind, lift, gather2, ara_get, ara_list.
  destruct (extract_id check_bracketed_netloc uses_params ARA_API_SERVER id)
    as [pk|e];
    [|exists []; rewrite app_nil_r; simpl; split; [reflexivity|lia]].
  destruct (serve_get ara hosts pk) as [host|e];
    [|exists [GET hosts pk]; simpl; split; [reflexivity|lia]].
  destruct (format_host_facts format_facts
              (default (JObject []) (host_facts host))) as [facts|e];
    [|exists [GET hosts pk]; simpl; split; [reflexivity|lia]].
  cbn [item] in *.
  destruct (serve_list ara results (host_results_query pk "failed"))
    as [failed_data|e1];
    destruct (serve_list ara results (host_results_query pk "unreachable"))
      as [unreachable_data|e2];
    rewrite <- !app_assoc; cbn [app fst snd];
    try (eexists; split; [reflexivity|simpl; lia]).
  match goal with
  | |- context [match ?l with [] => _ | _ :: _ => _ end] => destruct l eqn:E
  end.
  - eexists; split; [reflexivity|simpl; lia].
  - rewrite batch_get_run. cbv beta iota zeta.
    match goal with
    | |- context [for_each ?f ?l] => destruct (for_each f l)
    end; cbn [snd ret]; rewrite <- app_assoc;
      (eexists; split; [reflexivity|]);
      cbn [app length fetches omap list_omap].
    all: match goal with
    | |- context [List.map (GET results) ?ids] =>
        assert (Hlen : (length ids <= 10)%nat)
          by (rewrite length_map; apply length_take_le_l ||
              (rewrite length_take; lia));
        assert (Hf : fetches (List.map (GET results) ids)
                     = List.map (pair results) ids)
          by (clear; induction ids; simpl; [|f_equal]; auto);
        generalize dependent ids
    end.
    all: intros ids Hlen Hf;
      change (omap _ (List.map (GET results) ids))
        with (fetches (List.map (GET results) ids));
      rewrite Hf, !length_map; lia.
Qed.

Lemma enumerate_lookup {A} (l : list A) start (k : nat) x :
  l !! k = Some x -> enumerate start l !! k = Some (start + Z.of_nat k, x).
Proof.
  revert start k. induction l as [|y l IH]; intros start [|k]; try discriminate.
  - intros [= ->]. simpl. do 2 f_equal. lia.
  - intros H. simpl. rewrite (IH (start + 1) k H). do 2 f_equal. lia.
Qed.



Lemma cache_fetches_app l1 l2 :
  cache_fetches (l1 ++ l2) = cache_fetches l1 ++ cache_fetches l2.
Proof.
  unfold cache_fetches, fetches. rewrite omap_app. apply List.filter_app.
Qed.

Lemma cache_fetches_of_results ids :
  cache_fetches (List.map (GET results) ids) = [].
Proof. induction ids as [|pk ids IH]; [reflexivity|exact IH]. Qed.

Lemma cache_fetches_of_files ids :
  cache_fetches (List.map (GET files) ids) = List.map (pair files) ids.
Proof.
  induction ids as [|pk ids IH]; [reflexivity|].
  change (cache_fetches (List.map (GET files) (pk :: ids)))
    with ((files, pk) :: cache_fetches (List.map (GET files) ids)).
  rewrite IH. reflexivity.
Qed.

Lemma cache_fetches_of_hosts ids :
  cache_fetches (List.map (GET hosts) ids) = List.map (pair hosts) ids.
Proof.
  induction ids as [|pk ids IH]; [reflexivity|].
  change (cache_fetches (List.map (GET hosts) (pk :: ids)))
    with ((hosts, pk) :: cache_fetches (List.map (GET hosts) ids)).
  rewrite IH. reflexivity.
Qed.

(** X11. One call of [troubleshoot_playbook] fetches no file and no host
    more than once, however many failures share them. *)
Theorem troubleshoot_playbook_fetches_files_and_hosts_once
    id (include_ignored : bool) log :
  exists issued,
    snd (handle_troubleshoot_playbook id include_ignored log) = log ++ issued
    /\ NoDup (cache_fetches issued).
Proof.
  unfold handle_troubleshoot_playbook, bind, lift, gather2, ara_get, ara_list.
  destruct (extract_id check_bracketed_netloc uses_params ARA_API_SERVER id)
    as [pk|e];
    [|exists []; rewrite app_nil_r; split; [reflexivity|constructor]].
  destruct (serve_get ara playbooks pk) as [playbook|e];
    [|exists [GET playbooks pk]; split; [reflexivity|constructor]].
  cbn [item] in *.
  destruct (serve_list ara results (failed_results_query pk include_ignored))
    as [page|e];
    [|rewrite <- app_assoc; eexists; split; [reflexivity|constructor]].
  match goal with
  | |- context [match ?l with [] => _ | _ :: _ => _ end] =>
      destruct l as [|x l'] eqn:E
  end;
    [rewrite <- app_assoc; eexists; split; [reflexivity|constructor]|].
  match goal with
  | |- context [batch_get ara results ?ids ?lg] =>
      rewrite (batch_get_run ara results ids lg)
  end.
  cbv beta iota zeta.
  repeat match goal with
  | |- context [batch_get ara ?res ?ids ?lg] =>
      rewrite (batch_get_run ara res ids lg)
  end.
  cbv beta iota zeta.
  match goal with
  | |- context [for_each ?f ?l] => destruct (for_each f l)
  end; cbn [ret snd]; rewrite <- !app_assoc;
    (eexists; split; [reflexivity|]);
    rewrite !cache_fetches_app, cache_fetches_of_results,
      cache_fetches_of_files, cache_fetches_of_hosts;
    change (cache_fetches [GET playbooks pk]) with (@nil (resource * Z));
    match goal with
    | |- context [cache_fetches [LIST ?r ?f]] =>
        change (cache_fetches [LIST r f]) with (@nil (resource * Z))
    end;
    cbn [app];
    (apply NoDup_app; split;
     [apply NoDup_fmap_2; [intros ? ? [=]; assumption|apply NoDup_elements]|];
     split;
     [intros q [? [-> _]]%list_elem_of_fmap [? [[=] _]]%list_elem_of_fmap
     |apply NoDup_fmap_2; [intros ? ? [=]; assumption|apply NoDup_elements]]).
Qed.

End ReportFacts.


(** ** The summary of [troubleshoot_playbook] *)

Section SummaryFacts.

Variable check_bracketed_netloc : string -> bool.
Variable uses_params : list string.
Variable ARA_API_SERVER : option string.
Variable ara : ARAServer.

Abbreviation handle_troubleshoot_playbook :=
  (handle_troubleshoot_playbook check_bracketed_netloc uses_params
     ARA_API_SERVER ara).

(** The counting loop of the summary. *)
Let count_step (counts : gmap string Z) (full_result : Result) : gmap string Z :=
  <[task_of full_result := default 0 (counts !! task_of full_result) + 1]> counts.

Lemma count_lookup (l : list Result) counts name :
  fold_left count_step l counts !! name
  = match filter (fun r => task_of r = name) l with
    | [] => counts !! name
    | rs => Some (default 0 (counts !! name) + Z.of_nat (length rs))
    end.
Proof.
  revert counts. induction l as [|r l IH]; intros counts; [reflexivity|].
  cbn [fold_left]. rewrite IH. clear IH. unfold count_step.
  destruct (decide (task_of r = name)) as [E|E].
  - rewrite filter_cons_True by exact E. rewrite E, lookup_insert_eq.
    cbn [default from_option id].
    destruct (filter _ l) as [|r' rs]; cbn [length]; f_equal; lia.
  - rewrite filter_cons_False by exact E.
    rewrite lookup_insert_ne by exact E. reflexivity.
Qed.

Lemma count_total (l : list Result) name :
  default 0 (fold_left count_step l ∅ !! name)
  = Z.of_nat (length (filter (fun r => task_of r = name) l)).
Proof.
  rewrite count_lookup, lookup_empty.
  destruct (filter _ l); cbn [default from_option id length]; lia.
Qed.

(** The entries that the loop over the failures builds name the task of
    the full result of each failure. *)
Lemma for_each_failure_entry_tasks full_results file_cache start l entries :
  for_each (failure_entry full_results file_cache) (enumerate start l)
  = Ok entries ->
  List.map failure_result entries = List.map item_id l
  /\ List.map (fun e => Some (failure_task e)) entries
     = List.map (fun item => task_of <$> full_results !! item_id item) l.
Proof.
  revert start entries. induction l as [|x l IH]; intros start entries.
  - intros [= <-]. split; reflexivity.
  - cbn [enumerate for_each]. unfold failure_entry at 1.
    destruct (full_results !! item_id x) as [full|] eqn:Ex; [|discriminate].
    destruct (for_each _ (enumerate (start + 1) l)) as [rest|] eqn:Erest;
      [|discriminate].
    intros [= <-]. destruct (IH _ _ Erest) as [H1 H2].
    cbn [List.map failure_result failure_task]. rewrite H1, H2, Ex.
    split; reflexivity.
Qed.

(** The records of a batch, listed by the identifiers asked for when no
    identifier is asked for twice and every fetch succeeded. *)
Lemma batch_records_by_id (full : gmap Z Result) (ids : list Z) :
  NoDup ids ->
  (forall k, is_Some (full !! k) <-> k ∈ ids) ->
  (map_to_list full).*2 ≡ₚ omap (fun k => full !! k) ids.
Proof.
  intros Hnd Hdom.
  assert (Hperm : map_to_list full
                  ≡ₚ omap (fun k => pair k <$> full !! k) ids).
  { apply NoDup_Permutation.
    - apply NoDup_map_to_list.
    - clear Hdom. induction Hnd as [|k ids Hk Hnd IH]; [constructor|].
      cbn [omap list_omap]. destruct (full !! k) as [v|]; [|exact IH].
      cbn. constructor; [|exact IH].
      intros Hin. apply list_elem_of_omap in Hin as (k' & Hk' & E).
      destruct (full !! k'); [|discriminate]. injection E as -> _.
      contradiction.
    - intros [k v]. rewrite elem_of_map_to_list, list_elem_of_omap. split.
      + intros Hkv. exists k. split; [apply Hdom; eauto|]. rewrite Hkv.
        reflexivity.
      + intros (k' & _ & E). destruct (full !! k') eqn:E'; [|discriminate].
        injection E as -> ->. exact E'. }
  rewrite Hperm. clear. induction ids as [|k ids IH]; [reflexivity|].
  cbn [omap list_omap]. destruct (full !! k); cbn; [constructor|]; exact IH.
Qed.

Lemma count_entries_by_task (full : gmap Z Result) name
    (items : list ResultItem) (entries : list FailureEntry) :
  List.map (fun e => Some (failure_task e)) entries
  = List.map (fun item => task_of <$> full !! item_id item) items ->
  length (filter (fun r => task_of r = name)
            (omap (fun k => full !! k) (List.map item_id items)))
  = length (filter (fun e => failure_task e = name) entries).
Proof.
  revert entries. induction items as [|item items IH]; intros [|e es'];
    try discriminate.
  - reflexivity.
  - cbn [List.map omap list_omap]. intros [= He Hrest].
    destruct (full !! item_id item) as [r|]; [|discriminate].
    cbn in He. cbv beta iota. injection He as He.
    destruct (decide (task_of r = name)) as [Hr|Hr].
    + rewrite !filter_cons_True by congruence. cbn [length]. f_equal.
      apply IH, Hrest.
    + rewrite !filter_cons_False by congruence. apply IH, Hrest.
Qed.

(** X17. In every report that [troubleshoot_playbook] returns for
    failures with distinct identifiers, the summary by task is consistent
    with the entries: the number that it gives for a task is the number
    of entries of the report that name this task, and the total is the
    number of entries. *)
Theorem summary_by_task_counts_the_entries
    id (include_ignored : bool) log found entries host_information total by_task :
  fst (handle_troubleshoot_playbook id include_ignored log)
  = Ok (Failures found entries host_information total by_task) ->
  NoDup (List.map failure_result entries) ->
  total = Z.of_nat (length entries)
  /\ forall name,
       default 0 (by_task !! name)
       = Z.of_nat (length (filter (fun e => failure_task e = name) entries)).
Proof.
  unfold handle_troubleshoot_playbook, bind, lift, gather2, ara_get, ara_list.
  destruct (extract_id check_bracketed_netloc uses_params ARA_API_SERVER id)
    as [pk|e]; [|discriminate].
  destruct (serve_get ara playbooks pk) as [playbook|e]; [|discriminate].
  cbn [item] in *.
  destruct (serve_list ara results (failed_results_query pk include_ignored))
    as [page|e]; [|discriminate].
  match goal with
  | |- context [match ?l with [] => _ | _ :: _ => _ end] =>
      destruct l as [|x l'] eqn:E
  end; [discriminate|].
  match goal with
  | |- context [batch_get ara results ?ids ?lg] =>
      destruct (batch_get_ok ara results ids lg) as (full & -> & Hfull)
  end.
  repeat match goal with
  | |- context [batch_get ara ?res ?ids ?lg] =>
      destruct (batch_get_ok ara res ids lg) as (? & -> & _)
  end.
  match goal with
  | |- context [for_each ?f ?l] => destruct (for_each f l) as [es|] eqn:Ees
  end; [|discriminate].
  cbn [ret fst]. intros [= <- <- <- <- <-] Hnd.
  apply for_each_failure_entry_tasks in Ees as [Hids Htasks].
  split; [rewrite <- (length_map failure_result es), Hids, length_map;
          reflexivity|].
  intros name.
  match goal with
  | |- context [fold_left ?f ?l ∅] =>
      change (fold_left f l ∅) with (fold_left count_step l ∅)
  end.
  rewrite count_total. rewrite Hids in Hnd.
  assert (Hall : forall k, is_Some (full !! k)
                           <-> k ∈ List.map item_id (x :: l')).
  { intros k. rewrite Hfull. split.
    - destruct (decide (k ∈ List.map item_id (x :: l'))); [trivial|].
      intros [? [=]].
    - intros Hk. rewrite decide_True by exact Hk.
      apply list_elem_of_In, in_map_iff in Hk as (item & <- & Hin).
      assert (Hsome : In (task_of <$> full !! item_id item)
                        (List.map (fun e => Some (failure_task e)) es))
        by (rewrite Htasks; apply in_map_iff; eauto).
      apply in_map_iff in Hsome as (e & He & _).
      rewrite Hfull, decide_True in He
        by (apply list_elem_of_In, in_map, Hin).
      destruct (returned (serve_get ara results (item_id item)));
        [eauto|discriminate]. }
  rewrite (batch_records_by_id full _ Hnd Hall).
  rewrite (count_entries_by_task full name (x :: l') es Htasks). reflexivity.
Qed.

End SummaryFacts.

Lemma summary_by_task_witness :
  match fst (handle_troubleshoot_playbook accept_bracketed uses_params_312 None
               busy_host_server (IdInt 7) false []) with
  | Ok (Failures _ entries _ total by_task) =>
      total = Z.of_nat (length entries)
      /\ default 0 (by_task !! "Unknown") = 50
  | _ => False
  end.
Proof.
  destruct (fst (handle_troubleshoot_playbook accept_bracketed uses_params_312
                   None busy_host_server (IdInt 7) false []))
    as [[|found entries hosts total by_task]|] eqn:E;
    try (vm_compute in E; discriminate).
  destruct (summary_by_task_counts_the_entries
              accept_bracketed uses_params_312 None busy_host_server
              (IdInt 7) false [] found entries hosts total by_task E)
    as [Htotal Hcount].
  - revert E. vm_compute. intros [= <- <- <- <- <-].
    apply (bool_decide_unpack _). vm_compute. exact I.
  - split; [exact Htotal|]. rewrite Hcount.
    revert E. vm_compute. intros [= <- <- <- <- <-]. reflexivity.
Defined.

(** ** The slowest tasks of a playbook *)

Section SlowestFacts.

Variable float_of_int : Z -> float.
Variable int_of_str : string -> option Z.
Variable float_of_str : string -> option float.
Variable ara : ARAServer.

Abbreviation parse_duration_seconds :=
  (parse_duration_seconds float_of_int int_of_str float_of_str).
Abbreviation slowest_step :=
  (slowest_step float_of_int int_of_str float_of_str).
Abbreviation analyze_slowest_tasks :=
  (analyze_slowest_tasks float_of_int int_of_str float_of_str ara).

Lemma first_of_each_key_app {A K} `{EqDecision K} (key : A -> K) seen l x :
  first_of_each_key key seen (l ++ [x])
  = first_of_each_key key seen l
    ++ (if decide (key x ∈ seen ++ List.map key l) then [] else [x]).
Proof.
  revert seen. induction l as [|y l IH]; intros seen; simpl.
  - rewrite app_nil_r. destruct (decide (key x ∈ seen)); reflexivity.
  - destruct (decide (key y ∈ seen)) as [Hy|Hy]; rewrite IH.
    + f_equal. apply decide_ext.
      rewrite !elem_of_app, elem_of_cons. split; [tauto|].
      intros [?|[->|?]]; tauto.
    + simpl. do 2 f_equal. apply decide_ext.
      repeat (rewrite elem_of_app || rewrite elem_of_cons). tauto.
Qed.

Lemma first_of_each_key_keys {A K} `{EqDecision K} (key : A -> K) seen l k :
  k ∈ seen ++ List.map key (first_of_each_key key seen l)
  <-> k ∈ seen ++ List.map key l.
Proof.
  revert seen. induction l as [|y l IH]; intros seen; simpl; [reflexivity|].
  destruct (decide (key y ∈ seen)) as [Hy|Hy].
  - rewrite IH, !elem_of_app, elem_of_cons. split; [tauto|].
    intros [?|[->|?]]; tauto.
  - simpl. specialize (IH (key y :: seen)).
    repeat (rewrite elem_of_app in IH || rewrite elem_of_cons in IH).
    repeat (rewrite elem_of_app || rewrite elem_of_cons). tauto.
Qed.

(** The full records of a sample that are in the batch, each with its
    entry in the list. *)
Let fetched (all_full_results : gmap Z Result) (sample : list ResultItem)
  : list (ResultItem * Result) :=
  omap (fun r => pair r <$> all_full_results !! item_id r) sample.

(** What the loop has displayed once it has gone through [done]. *)
Let displays (top_n : Z) (st : SlowestState)
    (done : list (ResultItem * Result)) : Prop :=
  let firsts := first_of_each_key slow_key [] done in
  List.map slow_result (displayed st)
  = take (Z.to_nat top_n) (List.map (fun e => item_id (fst e)) firsts)
  /\ List.map slow_rank (displayed st)
     = List.map Z.of_nat (seq 1 (length (displayed st)))
  /\ shown st = Z.of_nat (length (displayed st))
  /\ forall k, k ∈ seen st
               <-> k ∈ List.map slow_key (take (Z.to_nat top_n) firsts).

Lemma slowest_step_displays top_n all_full_results st done result :
  displays top_n st done ->
  displays top_n (slowest_step top_n all_full_results st result)
    (done ++ fetched all_full_results [result]).
Proof.
  intros (Hids & Hranks & Hshown & Hseen).
  unfold slowest_step, fetched. cbn [omap list_omap].
  destruct (all_full_results !! item_id result) as [full|];
    [|rewrite app_nil_r; repeat split; assumption || apply Hseen].
  cbn [fmap option_fmap option_map app].
  set (F := first_of_each_key slow_key [] done) in *.
  assert (Hlen : length (displayed st)
                 = Nat.min (Z.to_nat top_n) (length F)).
  { rewrite <- (length_map slow_result), Hids, length_take, length_map.
    reflexivity. }
  unfold displays. rewrite first_of_each_key_app. fold F. cbn [app].
  destruct (top_n <=? shown st) eqn:Etop.
  - apply Z.leb_le in Etop. cbn [displayed shown seen].
    assert (HF : (Z.to_nat top_n <= length F)%nat)
      by (revert Hlen; generalize (length F); clear -Etop Hshown; lia).
    rewrite map_app, !take_app_le by (rewrite ?length_map; exact HF).
    repeat split; assumption || apply Hseen.
  - apply Z.leb_gt in Etop.
    assert (HF : (length F < Z.to_nat top_n)%nat)
      by (revert Hlen; generalize (length F); clear -Etop Hshown; lia).
    assert (Hall : take (Z.to_nat top_n) F = F) by (apply take_ge; lia).
    assert (Hkey : forall k, k ∈ seen st <-> k ∈ List.map slow_key done).
    { intros k. rewrite Hseen, Hall.
      apply (first_of_each_key_keys slow_key [] done k). }
    change (match result_task full with
            | Some (Nested task) =>
                match task_id task with
                | Some n => Some n
                | None => item_task result
                end
            | _ => item_task result
            end, get_nested (result_host full) host_name "Unknown")
      with (slow_key (result, full)).
    case_bool_decide as Eseen.
    + rewrite decide_True by (apply Hkey, Eseen). rewrite app_nil_r.
      cbn [displayed shown seen]. repeat split; assumption || apply Hseen.
    + rewrite decide_False by (intros Hin; apply Eseen, Hkey, Hin).
      cbn [displayed shown seen].
      rewrite !map_app, !take_ge
        by (rewrite ?length_app, ?length_map; simpl; lia).
      rewrite length_app, seq_app, map_app. cbn [length List.map seq].
      rewrite take_ge in Hids by (rewrite length_map; lia).
      repeat split.
      * rewrite Hids. reflexivity.
      * rewrite Hranks. cbn [slow_rank]. f_equal. rewrite Hshown.
        f_equal. lia.
      * lia.
      * rewrite ?map_app.
        intros [Hk|Hk]%elem_of_union; apply elem_of_app.
        -- right. apply elem_of_singleton in Hk. subst k. left.
        -- left. apply Hseen in Hk. rewrite Hall in Hk. exact Hk.
      * rewrite ?map_app. intros [Hk|Hk]%elem_of_app.
        -- apply elem_of_union_r, Hseen. rewrite Hall. exact Hk.
        -- apply list_elem_of_singleton in Hk. subst k.
           apply elem_of_union_l, elem_of_singleton. reflexivity.
Qed.

Lemma slowest_loop_displays top_n all_full_results sample st done :
  displays top_n st done ->
  displays top_n (fold_left (slowest_step top_n all_full_results) sample st)
    (done ++ fetched all_full_results sample).
Proof.
  revert st done. induction sample as [|r sample IH]; intros st done Hst.
  - unfold fetched. simpl. rewrite app_nil_r. exact Hst.
  - cbn [fold_left].
    replace (done ++ fetched all_full_results (r :: sample))
      with ((done ++ fetched all_full_results [r])
            ++ fetched all_full_results sample).
    + apply IH, slowest_step_displays, Hst.
    + rewrite <- app_assoc. f_equal. unfold fetched. cbn [omap list_omap].
      destruct (all_full_results !! item_id r); reflexivity.
Qed.

(** X12. The slowest tasks that [analyze_performance] displays are, in
    the order of the sample, the first result of each pair of task and
    host among the results whose full record was fetched, up to [top_n]
    of them, and they are ranked 1, 2, 3 and so on. *)
Theorem slowest_tasks_are_first_of_each_task_and_host pk top_n page log :
  serve_list ara results (slowest_results_query pk) = Ok page ->
  page_results page <> [] ->
  exists st,
    fst (analyze_slowest_tasks pk top_n log) = Ok (Some st)
    /\ List.map slow_result (displayed st)
       = take (Z.to_nat top_n)
           (List.map (fun e => item_id (fst e))
              (first_of_each_key slow_key []
                 (omap (fun r => pair r
                                 <$> returned (serve_get ara results (item_id r)))
                    (page_results page))))
    /\ List.map slow_rank (displayed st)
       = List.map Z.of_nat (seq 1 (length (displayed st))).
Proof.
  intros Hlist Hne.
  unfold analyze_slowest_tasks, bind, ara_list. rewrite Hlist. cbn [item] in *.
  destruct (page_results page) as [|r0 sample] eqn:E; [contradiction|].
  match goal with
  | |- context [batch_get ara results ?ids ?lg] =>
      destruct (batch_get_ok ara results ids lg) as (full & -> & Hfull)
  end.
  unfold ret. eexists. split; [reflexivity|].
  set (start := {| seen := ∅; shown := 0; task_times := ∅; displayed := [] |}).
  assert (Hinv : displays top_n start []).
  { unfold displays, start. cbn. rewrite !take_nil. repeat split.
    - intros Hk. apply elem_of_empty in Hk. contradiction.
    - intros Hk. apply elem_of_nil in Hk. contradiction. }
  apply (slowest_loop_displays top_n full (r0 :: sample)) in Hinv.
  destruct Hinv as (Hids & Hranks & _).
  split; [|exact Hranks]. rewrite Hids. cbn [app]. do 3 f_equal.
  unfold fetched.
  assert (Hin : forall r, r ∈ r0 :: sample ->
                          item_id r ∈ List.map item_id (r0 :: sample))
    by (intros r Hr; apply list_elem_of_In, in_map, list_elem_of_In, Hr).
  revert Hin. generalize (r0 :: sample) at 1 3 4. intros l Hin.
  induction l as [|r l IH]; [reflexivity|].
  cbn [omap list_omap]. rewrite IH by (intros; apply Hin; right; assumption).
  rewrite Hfull, decide_True by (apply Hin; left). reflexivity.
Qed.

End SlowestFacts.

Lemma slowest_tasks_witness :
  exists st,
    fst (analyze_slowest_tasks float_of_small_int int_of_digits float_of_digits
           demo_server 1 2 [])
    = Ok (Some st)
    /\ List.map slow_result (displayed st) = [1; 3].
Proof.
  destruct (slowest_tasks_are_first_of_each_task_and_host
              float_of_small_int int_of_digits float_of_digits demo_server
              1 2 (Build_Page ResultItem 4 (numbered 4)) []
              eq_refl ltac:(discriminate))
    as (st & Hrun & Hids & _).
  exists st. split; [exact Hrun|exact Hids].
Defined.

(** ** Durations and the runs of the same playbook *)

Section CrossRunFacts.

Variable float_of_int : Z -> float.
Variable int_of_str : string -> option Z.
Variable float_of_str : string -> option float.
Variable ara : ARAServer.

Abbreviation parse_duration_seconds :=
  (parse_duration_seconds float_of_int int_of_str float_of_str).
Abbreviation run_entry_of :=
  (run_entry_of float_of_int int_of_str float_of_str).
Abbreviation fetch_related_results :=
  (fetch_related_results float_of_int int_of_str float_of_str ara).

Lemma split_length c s : length (str_split c s) = S (str_count c s).
Proof.
  induction s as [|d s IH]; [reflexivity|]. simpl.
  destruct (Ascii.eqb d c); simpl; [rewrite IH; reflexivity|].
  destruct (str_split c s); simpl in *; [discriminate|exact IH].
Qed.

(** X14. A duration that is not made of three parts separated by two
    colons, such as a number of seconds alone, counts as 0 seconds,
    whatever [int] and [float] make of its parts. *)
Theorem duration_without_two_colons_is_zero duration :
  str_count ":" duration <> 2%nat ->
  parse_duration_seconds (Some duration) = 0%float.
Proof.
  intros Hcount. unfold parse_duration_seconds.
  destruct duration as [|c duration]; [reflexivity|].
  pose proof (split_length ":" (String c duration)) as Hlen.
  destruct (str_split ":" (String c duration)) as [|h [|m [|s [|x parts]]]];
    try reflexivity.
  cbn [length] in Hlen. exfalso. apply Hcount. lia.
Qed.

Lemma gather_related related log :
  gather_return_exceptions (List.map (_fetch_rp_results ara) related) log
  = (Ok (List.map
           (fun rp =>
              match serve_list ara results (related_results_query (run_id rp))
              with
              | Ok page => Ok (run_id rp, page)
              | Raise e => Raise e
              end) related),
     log ++ List.map (fun rp => LIST results (related_results_query (run_id rp)))
              related).
Proof.
  revert log. induction related as [|rp related IH]; intros log.
  - simpl. rewrite app_nil_r. reflexivity.
  - cbn [List.map]. rewrite gather_cons.
    assert (E : _fetch_rp_results ara rp log
                = (match serve_list ara results
                           (related_results_query (run_id rp)) with
                   | Ok page => Ok (run_id rp, page)
                   | Raise e => Raise e
                   end,
                   log ++ [LIST results (related_results_query (run_id rp))])).
    { unfold _fetch_rp_results, bind, ara_list, ret.
      destruct (serve_list ara results (related_results_query (run_id rp)));
        reflexivity. }
    rewrite E, IH, <- app_assoc. reflexivity.
Qed.

Lemma dict_set_keys {V} (k : Z) (v : V) d k' :
  k' ∈ List.map fst (dict_set k v d) <-> k' = k \/ k' ∈ List.map fst d.
Proof.
  induction d as [|[k0 v0] d IH]; simpl.
  - rewrite list_elem_of_singleton, elem_of_nil. tauto.
  - destruct (Z.eqb_spec k0 k) as [->|Hne]; simpl;
      rewrite !elem_of_cons, ?IH; tauto.
Qed.

Lemma dict_set_NoDup {V} (k : Z) (v : V) d :
  NoDup (List.map fst d) -> NoDup (List.map fst (dict_set k v d)).
Proof.
  induction d as [|[k0 v0] d IH]; simpl; intros Hd.
  - apply NoDup_singleton.
  - apply NoDup_cons in Hd as [Hk0 Hd].
    destruct (Z.eqb_spec k0 k) as [->|Hne]; simpl; apply NoDup_cons.
    + auto.
    + split; [|apply IH, Hd]. rewrite dict_set_keys. intros [?|?]; auto.
Qed.

Lemma dict_set_entries {V} (k : Z) (v : V) d k' v' :
  NoDup (List.map fst d) ->
  (k', v') ∈ dict_set k v d
  <-> (k' = k /\ v' = v) \/ (k' <> k /\ (k', v') ∈ d).
Proof.
  induction d as [|[k0 v0] d IH]; simpl; intros Hd.
  - rewrite list_elem_of_singleton, elem_of_nil. split.
    + intros [= -> ->]. auto.
    + intros [[-> ->]|[_ []]]. reflexivity.
  - apply NoDup_cons in Hd as [Hk0 Hd].
    assert (Hfresh : forall w, (k0, w) ∈ d -> False).
    { intros w Hin. apply Hk0, list_elem_of_In, in_map_iff.
      exists (k0, w). split; [reflexivity|apply list_elem_of_In, Hin]. }
    destruct (Z.eqb_spec k0 k) as [->|Hne]; rewrite !elem_of_cons.
    + split.
      * intros [[= -> ->]|Hin]; [auto|]. right. split; [|auto].
        intros ->. exact (Hfresh _ Hin).
      * intros [[-> ->]|[Hk [[= -> ->]|Hin]]]; [auto|contradiction|auto].
    + rewrite (IH Hd). split.
      * intros [[= -> ->]|[?|[? ?]]]; auto.
      * intros [[-> ->]|[Hk [[= -> ->]|Hin]]]; auto.
Qed.

Lemma dict_set_new {V} (k : Z) (v : V) d :
  k ∉ List.map fst d -> dict_set k v d = d ++ [(k, v)].
Proof.
  induction d as [|[k0 v0] d IH]; simpl; intros Hk; [reflexivity|].
  rewrite not_elem_of_cons in Hk. destruct Hk as [Hne Hk].
  destruct (Z.eqb_spec k0 k) as [->|_]; [contradiction|].
  rewrite (IH Hk). reflexivity.
Qed.

(** What the list query for the results of a run answers, and what the
    loop does with it. *)
Let answered (rp_id : Z) : option (list ResultItem) :=
  page_results
  <$> returned (serve_list ara results (related_results_query rp_id)).

Let keep (results_map : list (Z * list ResultItem)) (rp : PlaybookItem)
  : list (Z * list ResultItem) :=
  match answered (run_id rp) with
  | Some rp_results => dict_set (run_id rp) rp_results results_map
  | None => results_map
  end.

Lemma keep_entries related results_map :
  NoDup (List.map fst results_map) ->
  NoDup (List.map fst (fold_left keep related results_map))
  /\ forall rp_id rp_results,
       (rp_id, rp_results) ∈ fold_left keep related results_map
       <-> (rp_id ∈ List.map run_id related
            /\ answered rp_id = Some rp_results)
           \/ ((rp_id ∈ List.map run_id related -> answered rp_id = None)
               /\ (rp_id, rp_results) ∈ results_map).
Proof.
  revert results_map.
  induction related as [|rp related IH]; intros results_map Hd.
  - cbn [fold_left List.map]. split; [exact Hd|]. intros rp_id rp_results.
    rewrite elem_of_nil. tauto.
  - cbn [fold_left List.map].
    assert (Hd' : NoDup (List.map fst (keep results_map rp))).
    { unfold keep. destruct (answered (run_id rp)); [|exact Hd].
      apply dict_set_NoDup, Hd. }
    destruct (IH _ Hd') as [Hnodup Hentries]. split; [exact Hnodup|].
    intros rp_id rp_results. rewrite Hentries, elem_of_cons. unfold keep.
    destruct (decide (rp_id ∈ List.map run_id related)) as [Hlater|Hlater];
      destruct (decide (rp_id = run_id rp)) as [->|Hne];
      destruct (answered (run_id rp)) as [kept|] eqn:E;
      rewrite ?(dict_set_entries _ _ _ _ _ Hd), ?E;
      try (destruct (answered rp_id) as [listed|]);
      intuition (congruence || auto).
Qed.

Lemma keep_appends related results_map :
  NoDup (List.map run_id related) ->
  (forall rp_id, rp_id ∈ List.map run_id related ->
                 rp_id ∉ List.map fst results_map) ->
  fold_left keep related results_map
  = results_map
    ++ omap (fun rp =>
               match serve_list ara results
                       (related_results_query (run_id rp)) with
               | Ok page => Some (run_id rp, page_results page)
               | Raise _ => None
               end)
         related.
Proof.
  revert results_map.
  induction related as [|rp related IH]; intros results_map Hd Hnew.
  - simpl. rewrite app_nil_r. reflexivity.
  - cbn [List.map] in Hd, Hnew. apply NoDup_cons in Hd as [Hrp Hd].
    cbn [fold_left omap list_omap]. unfold keep at 2, answered.
    cbn [item] in *.
    destruct (serve_list ara results (related_results_query (run_id rp)))
      as [page|e]; cbn [returned fmap option_fmap option_map].
    + rewrite dict_set_new by (apply Hnew; left).
      rewrite IH, <- app_assoc; [reflexivity|exact Hd|].
      intros rp_id Hin. rewrite map_app, elem_of_app.
      intros [Hold|Hself].
      * exact (Hnew rp_id (list_elem_of_further _ _ _ Hin) Hold).
      * apply list_elem_of_singleton in Hself. cbn [fst] in Hself.
        subst rp_id. contradiction.
    + apply IH; [exact Hd|]. intros rp_id Hin.
      apply Hnew. right. exact Hin.
Qed.

(** X15. The run history of the cross-run analysis has one entry for
    each related run, in the order of the list, with its identifier, the
    seconds of its duration, its controller and its status, whether or
    not the results of the run could be listed; one list query is sent
    for each run. The results kept are those of the runs whose query was
    answered, each run once, under its identifier, with the results that
    the query returned: in the order of the runs when no two runs have
    the same identifier. *)
Theorem run_history_has_every_related_run related log :
  exists results_map,
    fetch_related_results related log
    = (Ok (List.map
             (fun rp =>
                (run_id rp, parse_duration_seconds (run_duration rp),
                 default "unknown" (run_controller rp),
                 default "unknown" (run_status rp)))
             related,
           results_map),
       log ++ List.map
                (fun rp => LIST results (related_results_query (run_id rp)))
                related)
    /\ NoDup (List.map fst results_map)
    /\ (forall rp_id rp_results,
          (rp_id, rp_results) ∈ results_map
          <-> rp_id ∈ List.map run_id related
              /\ exists page,
                   serve_list ara results (related_results_query rp_id)
                   = Ok page
                   /\ rp_results = page_results page)
    /\ (NoDup (List.map run_id related) ->
        results_map
        = omap (fun rp =>
                  match serve_list ara results
                          (related_results_query (run_id rp)) with
                  | Ok page => Some (run_id rp, page_results page)
                  | Raise _ => None
                  end)
            related).
Proof.
  unfold fetch_related_results, bind, ret. rewrite gather_related.
  set (outcome := fun rp : PlaybookItem =>
         match serve_list ara results (related_results_query (run_id rp)) with
         | Ok page => Ok (run_id rp, page)
         | Raise e => Raise e
         end).
  match goal with
  | |- context [fold_left ?f _ _] => set (step := f)
  end.
  assert (Hloop : forall l history results_map,
             fold_left step (zip l (List.map outcome l)) (history, results_map)
             = (history ++ List.map run_entry_of l,
                fold_left keep l results_map)).
  { induction l as [|rp l IH]; intros history results_map.
    - simpl. rewrite app_nil_r. reflexivity.
    - cbn [List.map zip zip_with fold_left]. unfold step at 2, outcome at 2.
      unfold keep at 2, answered. cbn [item] in *.
      destruct (serve_list ara results (related_results_query (run_id rp)))
        as [page|e] eqn:E; cbn [returned fmap option_fmap option_map];
        rewrite IH, <- app_assoc; reflexivity. }
  exists (fold_left keep related []). rewrite Hloop.
  split; [reflexivity|].
  destruct (keep_entries related [] (NoDup_nil_2)) as [Hnodup Hentries].
  split; [exact Hnodup|]. split.
  - intros rp_id rp_results. rewrite Hentries, elem_of_nil. unfold answered.
    cbn [item] in *.
    destruct (serve_list ara results (related_results_query rp_id)) as [page|e];
      cbn [returned fmap option_fmap option_map].
    + split.
      * intros [[Hin [= <-]]|[_ []]]. split; [exact Hin|].
        exists page. split; reflexivity.
      * intros (Hin & page' & [= <-] & ->). left.
        split; [exact Hin|reflexivity].
    + split.
      * intros [[_ [=]]|[_ []]].
      * intros (_ & page & [=] & _).
  - intros Hd. rewrite keep_appends; [reflexivity|exact Hd|].
    intros rp_id _ Hin. apply elem_of_nil in Hin. contradiction.
Qed.

End CrossRunFacts.

Lemma duration_without_two_colons_witness :
  parse_duration_seconds float_of_small_int int_of_digits float_of_digits
    (Some "12.5") = 0%float.
Proof.
  apply (duration_without_two_colons_is_zero
           float_of_small_int int_of_digits float_of_digits "12.5").
  discriminate.
Defined.
